(** * Guided content playback: a shallow embedding of the worksheet viewer

    The development follows the TypeScript sources of the viewer:
    - [@/types/worksheet]                       the metadata shapes,
    - [src/components/WorksheetViewer.tsx]      the playback component,
    - [src/components/AutoModeViewer.tsx] and
      [src/components/AutoModeContentDisplay.tsx] the two auto-mode siblings,
    - [WorksheetPage]                           the page that owns the session record.

    React state is modelled by explicit state passing: every handler and
    every effect body is a function from the committed state (and the props
    of the render that created it) to the next state and the list of media
    and callback effects it issues, in program order. *)

From Stdlib Require Import String Ascii List ZArith QArith Lia Lqa Bool.
From stdpp Require Import base option list gmap strings pretty.
Import ListNotations.

Local Open Scope string_scope.
Local Open Scope list_scope.
Local Open Scope nat_scope.

(** ** JavaScript string primitives used by the sources *)

Module JS.

(** The code units below 256 that [String.prototype.trim] strips
    (ECMAScript WhiteSpace and LineTerminator): TAB, LF, VT, FF, CR, SP
    and NBSP.  Strings are sequences of such code units. *)
Definition isWhiteSpace (c : ascii) : bool :=
  let n := nat_of_ascii c in
  (n =? 9) || (n =? 10) || (n =? 11) || (n =? 12) || (n =? 13)
  || (n =? 32) || (n =? 160).

Fixpoint trimStart (s : string) : string :=
  match s with
  | EmptyString => EmptyString
  | String c r => if isWhiteSpace c then trimStart r else s
  end.

Definition trimEnd (s : string) : string :=
  String.rev (trimStart (String.rev s)).

(** [s.trim()] *)
Definition trim (s : string) : string := trimEnd (trimStart s).

(** [s.split(sep)] for a one-character separator: never empty, the
    empty string splits into one empty piece. *)
Fixpoint split (sep : ascii) (s : string) : list string :=
  match s with
  | EmptyString => [EmptyString]
  | String c r =>
      if Ascii.eqb c sep then EmptyString :: split sep r
      else match split sep r with
           | h :: t => String c h :: t
           | [] => [String c EmptyString]
           end
  end.

Definition newline : ascii := ascii_of_nat 10.

(** A number interpolated in a template literal; the numbers of the
    model are natural (page numbers, indices, step numbers). *)
Definition numberToString (n : nat) : string := pretty n.

(** The value of a digit character in the given radix, if any. *)
Definition digitValue (radix : nat) (c : ascii) : option nat :=
  let n := nat_of_ascii c in
  let v := if (48 <=? n) && (n <=? 57) then Some (n - 48)
           else if (97 <=? n) && (n <=? 122) then Some (n - 87)
           else if (65 <=? n) && (n <=? 90) then Some (n - 55)
           else None in
  match v with
  | Some d => if d <? radix then Some d else None
  | None => None
  end.

(** The longest run of digits at the head of [s]; [None] when it is empty. *)
Fixpoint parseDigits (radix : nat) (acc : option nat) (s : string) : option nat :=
  match s with
  | EmptyString => acc
  | String c r =>
      match digitValue radix c with
      | Some d => parseDigits radix (Some (radix * default 0 acc + d)) r
      | None => acc
      end
  end.

Definition stripSign (s : string) : bool * string :=
  match s with
  | String "-" r => (true, r)
  | String "+" r => (false, r)
  | _ => (false, s)
  end.

Definition stripHexPrefix (s : string) : option string :=
  match s with
  | String "0" (String "x" r) => Some r
  | String "0" (String "X" r) => Some r
  | _ => None
  end.

(** [parseInt(s)] and [parseInt(s, 10)]; [None] is NaN.  Without a radix
    a [0x] prefix selects base 16. *)
Definition parseInt (s : string) (radix : option nat) : option Z :=
  let '(negative, body) := stripSign (trimStart s) in
  let '(r, digits) :=
    match radix, stripHexPrefix body with
    | None, Some rest => (16, rest)
    | _, _ => (default 10 radix, body)
    end in
  match parseDigits r None digits with
  | Some v => Some (if negative : bool then (- Z.of_nat v)%Z else Z.of_nat v)
  | None => None
  end.

End JS.

(** ** [@/types/worksheet]

    The revision the viewer and the page import: the metadata carries a
    [mode] tag and its [data]. *)

Inductive Mode : Type := regions | auto.

(** A region's description arrives as an array of strings or, untyped, as
    one string; the viewer's normalization accepts both. *)
Inductive RawDescription : Type :=
| DescArray (items : list string)
| DescString (text : string).

(** [RegionData], with the description type left open: raw in the
    metadata, a list of paragraphs once normalized.  The spatial and
    bookkeeping fields are not read by any handler below and are left out. *)
Record RegionData (D : Type) : Type := mkRegion {
  region_id : string;
  region_page : nat;
  region_name : string;
  region_description : D }.
Arguments mkRegion {D}.
Arguments region_id {D}.
Arguments region_page {D}.
Arguments region_name {D}.
Arguments region_description {D}.

Record GuidanceItem : Type := mkGuidance {
  guidance_title : string;
  guidance_description : string }.

Record AutoModePageData : Type := mkPage {
  page_number : nat;
  page_description : string;
  guidance : list GuidanceItem }.

(** The guidance entries of the current page as the viewer annotates them:
    [{...guidance, id: `guidance_${index}`, index}]. *)
Record GuidanceUnit : Type := mkUnit {
  unit_item : GuidanceItem;
  unit_id : string;
  unit_index : nat }.

(** [data: AutoModePageData[] | RegionData[]], discriminated by [mode]. *)
Definition MetaData (m : Mode) : Type :=
  match m with
  | regions => list (RegionData RawDescription)
  | auto => list AutoModePageData
  end.

(** A content unit of the current page. *)
Definition Content (m : Mode) : Type :=
  match m with
  | regions => RegionData (list string)
  | auto => GuidanceUnit
  end.

Definition contentId {m : Mode} : Content m → string :=
  match m with
  | regions => region_id
  | auto => unit_id
  end.

(** ** Media and callback effects

    What a handler asks of the [<audio>] and [<video>] elements and of its
    parent, in program order.  [After ms fx] is [setTimeout(() => fx, ms)]. *)

#[warnings="-register-all"]
Inductive Effect : Type :=
| AudioPause
| AudioSeek (t : nat)
| AudioSetSrc (path : string)
| AudioPlay
| VideoPause
| VideoSeek (t : nat)
| VideoPlay
| VideoLoad
| NotifyTextMode (isTextMode : bool)
| HighlightMessage (index : nat)
| After (ms : nat) (fx : list Effect).

(** An effect that starts narration audio or the tutor video, now or
    after its delay. *)
Fixpoint startsMedia (e : Effect) : bool :=
  match e with
  | AudioSetSrc _ | AudioPlay | VideoPlay => true
  | After _ fx => existsb startsMedia fx
  | _ => false
  end.

(** The audio paths an effect list plays, delayed ones included. *)
Fixpoint audioPaths (e : Effect) : list string :=
  match e with
  | AudioSetSrc path => [path]
  | After _ fx => flat_map audioPaths fx
  | _ => []
  end.

(** [interface StoredContentData] *)
Record StoredContentData : Type := mkStored { currentStepIndex : nat }.

(** ** [src/components/WorksheetViewer.tsx] *)

Module WorksheetViewer.

(** [paragraph => paragraph.trim() !== ''] *)
Definition nonBlank (paragraph : string) : bool :=
  negb (String.eqb (JS.trim paragraph) "").

(** [text.split('\n').filter(paragraph => paragraph.trim() !== '')] *)
Definition splitParagraphs (text : string) : list string :=
  List.filter nonBlank (JS.split JS.newline text).

(** The [processedDescription] of a region: every string of an array is
    split, a lone string is split. *)
Definition processedDescription (d : RawDescription) : list string :=
  match d with
  | DescArray items => flat_map splitParagraphs items
  | DescString text => splitParagraphs text
  end.

(** [{...region, description: processedDescription}] *)
Definition processRegion (region : RegionData RawDescription)
  : RegionData (list string) :=
  mkRegion (region_id region) (region_page region) (region_name region)
           (processedDescription (region_description region)).

Definition annotateGuidance (index : nat) (g : GuidanceItem) : GuidanceUnit :=
  mkUnit g ("guidance_" +:+ JS.numberToString index) index.

(** The [currentPageContent] memo.  Absent [data] behaves as the empty list. *)
Definition currentPageContent {m : Mode} (data : MetaData m) (pageIndex : nat)
  : list (Content m) :=
  match m return MetaData m → list (Content m) with
  | regions => fun data =>
      map processRegion
          (List.filter (fun region => region_page region =? pageIndex) data)
  | auto => fun data =>
      match List.find (fun page => page_number page =? pageIndex) data with
      | Some pageData => imap annotateGuidance (guidance pageData)
      | None => []
      end
  end data.

Definition isNonClickableGuidance (g : GuidanceItem) : bool :=
  String.eqb (guidance_description g) ""
  || String.eqb (JS.trim (guidance_description g)) ""
  || String.eqb (JS.trim (guidance_description g)) "<br>".

Definition processGuidanceDescription (description : string) : list string :=
  if String.eqb description ""
     || String.eqb (JS.trim description) ""
     || String.eqb (JS.trim description) "<br>"
  then []
  else List.filter nonBlank (JS.split JS.newline description).

(** The block [let description = ...] that opens [handleContentClick],
    [handleNextStep], the restoration effect and [getCurrentDescription]:
    the region's paragraph list, or the processed guidance text. *)
Definition descriptionOf {m : Mode} : Content m → list string :=
  match m with
  | regions => fun content => region_description content
  | auto => fun content =>
      processGuidanceDescription (guidance_description (unit_item content))
  end.

(** What a resume request or the session record hands to the viewer as
    [initialActiveContent]: a unit of a previous render, or an object
    looked up in the raw metadata (a region, or a guidance entry with
    the stored id assigned to it).  The viewer reads its [id] only. *)
Definition StoredContent (m : Mode) : Type :=
  match m with
  | regions => RegionData RawDescription
  | auto => (GuidanceItem * string)%type
  end.

Inductive InitialContent (m : Mode) : Type :=
| FromLocation (content : Content m)
| FromSession (content : StoredContent m).
Arguments FromLocation {m}.
Arguments FromSession {m}.

Definition storedContentId {m : Mode} : StoredContent m → string :=
  match m with
  | regions => region_id
  | auto => snd
  end.

Definition initialContentId {m : Mode} (c : InitialContent m) : string :=
  match c with
  | FromLocation content => contentId content
  | FromSession content => storedContentId content
  end.

Record Props (m : Mode) : Type := mkProps {
  worksheetId : string;
  pageIndex : nat;
  worksheetMeta : MetaData m;
  onTextModeChange : bool;   (* whether the optional callback is supplied *)
  initialActiveContent : option (InitialContent m);
  initialCurrentStepIndex : nat;
  allContentState : gmap string StoredContentData }.
Arguments mkProps {m}.
Arguments worksheetId {m}.
Arguments pageIndex {m}.
Arguments worksheetMeta {m}.
Arguments onTextModeChange {m}.
Arguments initialActiveContent {m}.
Arguments initialCurrentStepIndex {m}.
Arguments allContentState {m}.

Record State (m : Mode) : Type := mkState {
  activeContent : option (Content m);
  stepIndex : nat;                      (* [currentStepIndex] *)
  isTextMode : bool;
  isGuidanceTextMode : bool;
  displayedMessages : list string;
  isAudioPlaying : bool;
  audioAvailable : bool;
  audioCheckPerformed : bool;
  hasRestoredInitialState : bool;
  prevWorksheetIdRef : string;
  prevPageIndexRef : nat }.
Arguments mkState {m}.
Arguments activeContent {m}.
Arguments stepIndex {m}.
Arguments isTextMode {m}.
Arguments isGuidanceTextMode {m}.
Arguments displayedMessages {m}.
Arguments isAudioPlaying {m}.
Arguments audioAvailable {m}.
Arguments audioCheckPerformed {m}.
Arguments hasRestoredInitialState {m}.
Arguments prevWorksheetIdRef {m}.
Arguments prevPageIndexRef {m}.

(** The [useState] and [useRef] initial values. *)
Definition initialState {m : Mode} (p : Props m) : State m :=
  mkState None 0 false false [] false true false false
          (worksheetId p) (pageIndex p).

Section Setters.
Context {m : Mode}.
Implicit Type s : State m.

Definition setActiveContent (v : option (Content m)) s : State m :=
  mkState v (stepIndex s) (isTextMode s) (isGuidanceTextMode s)
          (displayedMessages s) (isAudioPlaying s) (audioAvailable s)
          (audioCheckPerformed s) (hasRestoredInitialState s)
          (prevWorksheetIdRef s) (prevPageIndexRef s).
Definition setCurrentStepIndex (v : nat) s : State m :=
  mkState (activeContent s) v (isTextMode s) (isGuidanceTextMode s)
          (displayedMessages s) (isAudioPlaying s) (audioAvailable s)
          (audioCheckPerformed s) (hasRestoredInitialState s)
          (prevWorksheetIdRef s) (prevPageIndexRef s).
Definition setIsTextMode (v : bool) s : State m :=
  mkState (activeContent s) (stepIndex s) v (isGuidanceTextMode s)
          (displayedMessages s) (isAudioPlaying s) (audioAvailable s)
          (audioCheckPerformed s) (hasRestoredInitialState s)
          (prevWorksheetIdRef s) (prevPageIndexRef s).
Definition setIsGuidanceTextMode (v : bool) s : State m :=
  mkState (activeContent s) (stepIndex s) (isTextMode s) v
          (displayedMessages s) (isAudioPlaying s) (audioAvailable s)
          (audioCheckPerformed s) (hasRestoredInitialState s)
          (prevWorksheetIdRef s) (prevPageIndexRef s).
Definition setDisplayedMessages (v : list string) s : State m :=
  mkState (activeContent s) (stepIndex s) (isTextMode s) (isGuidanceTextMode s)
          v (isAudioPlaying s) (audioAvailable s)
          (audioCheckPerformed s) (hasRestoredInitialState s)
          (prevWorksheetIdRef s) (prevPageIndexRef s).
Definition setIsAudioPlaying (v : bool) s : State m :=
  mkState (activeContent s) (stepIndex s) (isTextMode s) (isGuidanceTextMode s)
          (displayedMessages s) v (audioAvailable s)
          (audioCheckPerformed s) (hasRestoredInitialState s)
          (prevWorksheetIdRef s) (prevPageIndexRef s).
Definition setAudioAvailable (v : bool) s : State m :=
  mkState (activeContent s) (stepIndex s) (isTextMode s) (isGuidanceTextMode s)
          (displayedMessages s) (isAudioPlaying s) v
          (audioCheckPerformed s) (hasRestoredInitialState s)
          (prevWorksheetIdRef s) (prevPageIndexRef s).
Definition setAudioCheckPerformed (v : bool) s : State m :=
  mkState (activeContent s) (stepIndex s) (isTextMode s) (isGuidanceTextMode s)
          (displayedMessages s) (isAudioPlaying s) (audioAvailable s)
          v (hasRestoredInitialState s)
          (prevWorksheetIdRef s) (prevPageIndexRef s).
Definition setHasRestoredInitialState (v : bool) s : State m :=
  mkState (activeContent s) (stepIndex s) (isTextMode s) (isGuidanceTextMode s)
          (displayedMessages s) (isAudioPlaying s) (audioAvailable s)
          (audioCheckPerformed s) v
          (prevWorksheetIdRef s) (prevPageIndexRef s).
Definition setPrevRefs (w : string) (n : nat) s : State m :=
  mkState (activeContent s) (stepIndex s) (isTextMode s) (isGuidanceTextMode s)
          (displayedMessages s) (isAudioPlaying s) (audioAvailable s)
          (audioCheckPerformed s) (hasRestoredInitialState s) w n.
End Setters.

Definition isAuto (m : Mode) : bool :=
  match m with auto => true | regions => false end.

(** *** What the render shows *)

(** [{activeContent && (isTextMode || isGuidanceTextMode) && ...}] *)
Definition showsTextDisplay {m : Mode} (s : State m) : bool :=
  bool_decide (is_Some (activeContent s)) && (isTextMode s || isGuidanceTextMode s).

(** [{audioAvailable && <video ref={videoRef} .../>}], inside the text
    display: [videoRef.current] is set exactly when this holds of the
    committed state. *)
Definition showsVideo {m : Mode} (s : State m) : bool :=
  showsTextDisplay s && audioAvailable s.

(** [hasNextStep && isTextMode]: the next button. *)
Definition hasNextStep {m : Mode} (s : State m) : bool :=
  match activeContent s with
  | Some content =>
      (0 <? length (descriptionOf content))
      && (Z.of_nat (stepIndex s) <? Z.of_nat (length (descriptionOf content)) - 1)%Z
  | None => false
  end.

(** *** Audio segments *)

Definition audioPath (worksheetId regionName : string) (stepIndex : nat) : string :=
  "/audio/" +:+ worksheetId +:+ "/" +:+ regionName +:+ "_"
    +:+ JS.numberToString (stepIndex + 1) +:+ ".mp3".

(** [playAudioSegment(regionName, stepIndex)]; the [<audio>] element is
    always mounted. *)
Definition playAudioSegment {m : Mode} (p : Props m) (regionName : string)
  (stepIndex : nat) : list Effect :=
  [AudioSetSrc (audioPath (worksheetId p) regionName stepIndex); AudioPlay].

(** The first argument of every [playAudioSegment] call: the region's
    name, or [`${pageIndex}_${content.index}`] in auto mode. *)
Definition segmentName {m : Mode} (p : Props m) : Content m → string :=
  match m with
  | regions => fun content => region_name content
  | auto => fun content =>
      JS.numberToString (pageIndex p) +:+ "_" +:+ JS.numberToString (unit_index content)
  end.

(** *** Click handlers *)

Definition handleContentClick {m : Mode} (p : Props m) (content : Content m)
  (s : State m) : State m * list Effect :=
  let contentId := contentId content in
  let description := descriptionOf content in
  if length description =? 0 then (s, [])
  else
    let savedContentState := allContentState p !! contentId in
    let startingStepIndex := default 0 (currentStepIndex <$> savedContentState) in
    let s' := setCurrentStepIndex startingStepIndex s in
    let '(s', fx) :=
      if 0 <? length description then
        let messagesToDisplay := take (startingStepIndex + 1) description in
        (setDisplayedMessages messagesToDisplay s',
         (if showsVideo s && audioAvailable s then [VideoSeek 0; VideoPlay] else [])
         ++ (if audioAvailable s
             then [After 500 (playAudioSegment p (segmentName p content) startingStepIndex)]
             else []))
      else (setDisplayedMessages [] s', []) in
    let s' := setActiveContent (Some content) s' in
    let s' := setIsTextMode true s' in
    let s' := if isAuto m then setIsGuidanceTextMode true s' else s' in
    (s', fx ++ (if onTextModeChange p then [NotifyTextMode true] else [])).

Definition handleGuidanceClick (p : Props auto) (guidance : Content auto)
  (s : State auto) : State auto * list Effect :=
  if isNonClickableGuidance (unit_item guidance) then (s, [])
  else handleContentClick p guidance s.

Definition handleRegionClick (p : Props regions) (region : Content regions)
  (s : State regions) : State regions * list Effect :=
  handleContentClick p region s.

(** A click on a unit of the page: [handleRegionClick] on a region
    overlay, [handleGuidanceClick] on a guidance title. *)
Definition select {m : Mode} : Props m → Content m → State m → State m * list Effect :=
  match m with
  | regions => handleRegionClick
  | auto => handleGuidanceClick
  end.

(** The guard at the head of the two click handlers: [handleGuidanceClick]
    returns at once when [isNonClickableGuidance(guidance)] holds,
    [handleRegionClick] has no guard. *)
Definition clickGuard {m : Mode} : Content m → bool :=
  match m with
  | regions => fun _ => false
  | auto => fun content => isNonClickableGuidance (unit_item content)
  end.

Definition handleNextStep {m : Mode} (p : Props m) (s : State m)
  : State m * list Effect :=
  match activeContent s with
  | None => (s, [])
  | Some content =>
      let description := descriptionOf content in
      if (Z.of_nat (stepIndex s) <? Z.of_nat (length description) - 1)%Z then
        let nextStepIndex := stepIndex s + 1 in
        let s' := setCurrentStepIndex nextStepIndex s in
        let s' := setDisplayedMessages
                    (displayedMessages s ++ [default "" (description !! nextStepIndex)]) s' in
        (s', [AudioPause]
             ++ (if audioAvailable s
                 then [After 500 (playAudioSegment p (segmentName p content) nextStepIndex)]
                 else []))
      else (s, [])
  end.

Definition handleBackButtonClick {m : Mode} (p : Props m) (s : State m)
  : State m * list Effect :=
  if isAuto m && isGuidanceTextMode s then
    let s' := setIsGuidanceTextMode false s in
    let s' := setDisplayedMessages [] s' in
    let s' := setIsAudioPlaying false s' in
    (s', [AudioPause; AudioSeek 0] ++ (if showsVideo s then [VideoPause] else []))
  else
    let s' := setIsTextMode false s in
    let s' := setIsGuidanceTextMode false s' in
    let s' := setActiveContent None s' in
    let s' := setCurrentStepIndex 0 s' in
    let s' := setDisplayedMessages [] s' in
    let s' := setIsAudioPlaying false s' in
    (s', (if onTextModeChange p then [NotifyTextMode false] else [])
         ++ [AudioPause; AudioSeek 0]
         ++ (if showsVideo s then [VideoPause] else [])).

Definition handleMessageClick {m : Mode} (p : Props m) (index : nat) (s : State m)
  : State m * list Effect :=
  match activeContent s with
  | None => (s, [])
  | Some content =>
      if negb (audioAvailable s) then (s, [])
      else (s, [AudioPause]
               ++ playAudioSegment p (segmentName p content) index
               ++ (if showsTextDisplay s && (index <? length (displayedMessages s))
                   then [HighlightMessage index] else []))
  end.

(** [handleTutorSelected]: the chosen video source is not part of the
    playback state; the element is reloaded when it is mounted. *)
Definition handleTutorSelected {m : Mode} (s : State m) : State m * list Effect :=
  (s, if showsVideo s
      then VideoLoad :: (if isAudioPlaying s then [VideoPlay] else [])
      else []).

(** *** Effects run after a render *)

(** "Reset component state ONLY when worksheet or page genuinely changes":
    the effect compares the props with the two [prev...Ref]s. *)
Definition resetOnNavigation {m : Mode} (p : Props m) (s : State m)
  : State m * list Effect :=
  let worksheetChanged := negb (String.eqb (prevWorksheetIdRef s) (worksheetId p)) in
  let pageChanged := negb (prevPageIndexRef s =? pageIndex p) in
  if worksheetChanged || pageChanged then
    let s' := setActiveContent None s in
    let s' := setCurrentStepIndex 0 s' in
    let s' := setDisplayedMessages [] s' in
    let s' := setIsTextMode false s' in
    let s' := setIsGuidanceTextMode false s' in
    let s' := setIsAudioPlaying false s' in
    let s' := setAudioCheckPerformed false s' in
    let s' := setHasRestoredInitialState false s' in
    let s' := setPrevRefs (worksheetId p) (pageIndex p) s' in
    (s', (if onTextModeChange p then [NotifyTextMode false] else [])
         ++ [AudioPause; AudioSeek 0]
         ++ (if showsVideo s then [VideoPause; VideoSeek 0] else []))
  else (s, []).

(** [currentPageContent.find(content => content.id === contentId)] *)
Definition findContent {m : Mode} (contentId' : string) (contents : list (Content m))
  : option (Content m) :=
  List.find (fun content => String.eqb (contentId content) contentId') contents.

(** "Apply initial state restoration (only once ...)" *)
Definition restoreInitialState {m : Mode} (p : Props m) (s : State m)
  : State m * list Effect :=
  let contents := currentPageContent (worksheetMeta p) (pageIndex p) in
  match initialActiveContent p with
  | Some initial =>
      if (0 <? length contents) && negb (hasRestoredInitialState s) then
        match findContent (initialContentId initial) contents with
        | Some matchingContent =>
            let s' := setActiveContent (Some matchingContent) s in
            let s' := setCurrentStepIndex (initialCurrentStepIndex p) s' in
            let s' := setIsTextMode true s' in
            let s' := if isAuto m then setIsGuidanceTextMode true s' else s' in
            let description := descriptionOf matchingContent in
            let '(s', fx) :=
              if 0 <? length description then
                let messagesToDisplay := take (initialCurrentStepIndex p + 1) description in
                (setDisplayedMessages messagesToDisplay s',
                 (if onTextModeChange p then [NotifyTextMode true] else [])
                 ++ (if showsVideo s && audioAvailable s then [VideoSeek 0; VideoPlay] else [])
                 ++ (if audioAvailable s
                     then [After 500 (playAudioSegment p (segmentName p matchingContent)
                                                       (initialCurrentStepIndex p))]
                     else []))
              else (s', []) in
            (setHasRestoredInitialState true s', fx)
        | None => (s, [])
        end
      else (s, [])
  | None => (s, [])
  end.

(** The arguments of [onContentStateChange], called whenever either changes. *)
Definition contentStateNotification {m : Mode} (s : State m)
  : option (Content m) * nat :=
  (activeContent s, stepIndex s).

(** *** The audio availability check *)

(** The path probed for the page: the first region's first segment, or
    [`/audio/${worksheetId}/${pageIndex}_0_1.mp3`] in auto mode. *)
Definition audioCheckPath {m : Mode} (p : Props m) : option string :=
  match m return list (Content m) → option string with
  | regions => fun contents =>
      match contents with
      | firstRegion :: _ =>
          if String.eqb (region_name firstRegion) "" then None
          else Some ("/audio/" +:+ worksheetId p +:+ "/" +:+ region_name firstRegion +:+ "_1.mp3")
      | [] => None
      end
  | auto => fun _ =>
      Some ("/audio/" +:+ worksheetId p +:+ "/" +:+ JS.numberToString (pageIndex p) +:+ "_0_1.mp3")
  end (currentPageContent (worksheetMeta p) (pageIndex p)).

(** The closure of one run of the check effect: [let checkCompleted = false]. *)
Record AudioCheck : Type := mkCheck { checkCompleted : bool }.

(** The effect body up to [testAudio.load()]: nothing when the check was
    performed or the page is empty; an immediate "unavailable" when the
    first region has no name; otherwise a fresh probe of the path. *)
Definition startAudioCheck {m : Mode} (p : Props m) (s : State m)
  : State m * option (AudioCheck * string) :=
  if negb (audioCheckPerformed s)
     && (0 <? length (currentPageContent (worksheetMeta p) (pageIndex p))) then
    match audioCheckPath p with
    | Some path => (s, Some (mkCheck false, path))
    | None => (setAudioCheckPerformed true (setAudioAvailable false s), None)
    end
  else (s, None).

Definition completeCheck {m : Mode} (available : bool) (cs : AudioCheck * State m)
  : AudioCheck * State m :=
  if checkCompleted (fst cs) then cs
  else (mkCheck true, setAudioCheckPerformed true (setAudioAvailable available (snd cs))).

(** What can reach the probe: the two media events and the timer. *)
Inductive ProbeSignal : Type := CanPlayThrough | MediaError | TimerFired.

(** [handleCanPlay], [handleError] and the [setTimeout] callback. *)
Definition onProbeSignal {m : Mode} (sig : ProbeSignal) (cs : AudioCheck * State m)
  : AudioCheck * State m :=
  match sig with
  | CanPlayThrough => completeCheck true cs
  | MediaError => completeCheck false cs
  | TimerFired => completeCheck false cs
  end.

Definition runProbe {m : Mode} (sigs : list ProbeSignal) (cs : AudioCheck * State m)
  : AudioCheck * State m :=
  fold_left (fun cs sig => onProbeSignal sig cs) sigs cs.

(** [setTimeout(..., 3000)]: the timer is due 3000 ms after the probe starts. *)
Definition probeTimeoutMs : nat := 3000.

(** The order in which the event loop delivers the signals of one probe:
    the media events that arrive (in arrival order, stamped in ms since the
    start) before the timer is due, the timer, then any later media event. *)
Definition deliveryOrder (arrivals : list (nat * ProbeSignal)) : list ProbeSignal :=
  map snd (List.filter (fun a => fst a <? probeTimeoutMs) arrivals)
  ++ [TimerFired]
  ++ map snd (List.filter (fun a => negb (fst a <? probeTimeoutMs)) arrivals).

(** *** The audio/video synchronizer *)

(** The audio listeners; they are registered only while the video element
    is mounted.  [videoPaused] is [video.paused] when the event arrives. *)
Definition handleAudioPlaying {m : Mode} (videoPaused : bool) (s : State m)
  : State m * list Effect :=
  if showsVideo s then
    (setIsAudioPlaying true s, if videoPaused then [VideoSeek 10; VideoPlay] else [])
  else (s, []).

Definition handleAudioPause {m : Mode} (s : State m) : State m * list Effect :=
  if showsVideo s then (setIsAudioPlaying false s, []) else (s, []).

Definition handleAudioEnded {m : Mode} (s : State m) : State m * list Effect :=
  if showsVideo s then (setIsAudioPlaying false s, []) else (s, []).

(** [audioRef.current.onerror] and the rejected [play()] promise. *)
Definition handleAudioError {m : Mode} (s : State m) : State m * list Effect :=
  (setIsAudioPlaying false s, []).

Definition Qltb (a b : Q) : bool := negb (Qle_bool b a).

(** [handleVideoTimeUpdate]: the three assignments to [video.currentTime],
    in order, as a function of the time the tick reports (seconds). *)
Definition handleVideoTimeUpdate (isAudioPlaying : bool) (currentTime : Q) : Q :=
  let t := if Qle_bool 20 currentTime then 10%Q else currentTime in
  let t := if Qle_bool (99 # 10) t && negb isAudioPlaying then 0%Q else t in
  let t := if isAudioPlaying && Qltb t 10 then 10%Q else t in
  t.

(** *** Runs of the component *)

Inductive Event (m : Mode) : Type :=
| Render                                  (* a commit: its effects run *)
| ContentClick (content : Content m)
| NextStepClick
| BackButtonClick
| MessageClick (index : nat)
| TutorSelected
| AudioPlaying (videoPaused : bool)
| AudioPaused
| AudioEnded
| AudioError.
Arguments Render {m}.
Arguments ContentClick {m}.
Arguments NextStepClick {m}.
Arguments BackButtonClick {m}.
Arguments MessageClick {m}.
Arguments TutorSelected {m}.
Arguments AudioPlaying {m}.
Arguments AudioPaused {m}.
Arguments AudioEnded {m}.
Arguments AudioError {m}.

(** The effects of a commit in declaration order: the navigation reset,
    then the restoration. *)
Definition renderEffects {m : Mode} (p : Props m) (s : State m)
  : State m * list Effect :=
  let '(s1, fx1) := resetOnNavigation p s in
  let '(s2, fx2) := restoreInitialState p s1 in
  (s2, fx1 ++ fx2).

Definition step {m : Mode} (p : Props m) (ev : Event m) (s : State m)
  : State m * list Effect :=
  match ev with
  | Render => renderEffects p s
  | ContentClick content => select p content s
  | NextStepClick => handleNextStep p s
  | BackButtonClick => handleBackButtonClick p s
  | MessageClick index => handleMessageClick p index s
  | TutorSelected => handleTutorSelected s
  | AudioPlaying videoPaused => handleAudioPlaying videoPaused s
  | AudioPaused => handleAudioPause s
  | AudioEnded => handleAudioEnded s
  | AudioError => handleAudioError s
  end.

(** A run: each event is handled under the props of the render it comes
    from; the effects accumulate in order. *)
Fixpoint run {m : Mode} (evs : list (Props m * Event m)) (s : State m)
  : State m * list Effect :=
  match evs with
  | [] => (s, [])
  | (p, ev) :: rest =>
      let '(s1, fx1) := step p ev s in
      let '(s2, fx2) := run rest s1 in
      (s2, fx1 ++ fx2)
  end.

(** [title.replace(/\*\*/g, '')]: every occurrence of the emphasis marker,
    found left to right, is dropped. *)
Fixpoint cleanTitle (title : string) : string :=
  match title with
  | EmptyString => EmptyString
  | String c rest =>
      if Ascii.eqb c "*" then
        match rest with
        | EmptyString => String c EmptyString
        | String d rest' =>
            if Ascii.eqb d "*" then cleanTitle rest' else String c (cleanTitle rest)
        end
      else String c (cleanTitle rest)
  end.

End WorksheetViewer.

(** ** [src/components/AutoModeViewer.tsx] *)

Module AutoModeViewer.

Record State : Type := mkState {
  isTextMode : bool;
  activeGuidance : option GuidanceItem;
  currentParagraphIndex : nat;
  displayedParagraphs : list string }.

Definition isNonClickable (g : GuidanceItem) : bool :=
  let description := JS.trim (guidance_description g) in
  String.eqb description "" || String.eqb description "<br>"
  || String.eqb description "<br/>".

Definition splitIntoParagraphs (description : string) : list string :=
  List.filter
    (fun p => negb (String.eqb p "") && negb (String.eqb p "<br>")
              && negb (String.eqb p "<br/>"))
    (map JS.trim (JS.split JS.newline description)).

Definition handleGuidanceClick (g : GuidanceItem) (s : State) : State :=
  if isNonClickable g then s
  else
    match splitIntoParagraphs (guidance_description g) with
    | [] => s
    | first :: _ => mkState true (Some g) 0 [first]
    end.

(** The same [cleanTitle] as the main viewer's. *)
Fixpoint cleanTitle (title : string) : string :=
  match title with
  | EmptyString => EmptyString
  | String c rest =>
      if Ascii.eqb c "*" then
        match rest with
        | EmptyString => String c EmptyString
        | String d rest' =>
            if Ascii.eqb d "*" then cleanTitle rest' else String c (cleanTitle rest)
        end
      else String c (cleanTitle rest)
  end.

(** [handleNextStep]: the paragraphs are split again from the active entry. *)
Definition handleNextStep (s : State) : State :=
  match activeGuidance s with
  | None => s
  | Some g =>
      let paragraphs := splitIntoParagraphs (guidance_description g) in
      if (Z.of_nat (currentParagraphIndex s) <? Z.of_nat (length paragraphs) - 1)%Z then
        let nextIndex := currentParagraphIndex s + 1 in
        mkState (isTextMode s) (activeGuidance s) nextIndex
                (displayedParagraphs s ++ [default "" (paragraphs !! nextIndex)])
      else s
  end.

Definition handleBackButtonClick (s : State) : State := mkState false None 0 [].

(** "Reset state when page changes": the effect runs on mount and whenever
    the page, the worksheet or the callback changes. *)
Definition resetOnPageChange (s : State) : State := mkState false None 0 [].

(** The calls of [onTextModeChange] that go with the three transitions
    and the reset, when the callback is supplied. *)
Definition guidanceClickNotifies (g : GuidanceItem) : list Effect :=
  if isNonClickable g then []
  else match splitIntoParagraphs (guidance_description g) with
       | [] => []
       | _ :: _ => [NotifyTextMode true]
       end.

Inductive Event : Type :=
| PageChange
| GuidanceClick (g : GuidanceItem)
| NextStepClick
| BackButtonClick.

Definition step (ev : Event) (s : State) : State * list Effect :=
  match ev with
  | PageChange => (resetOnPageChange s, [NotifyTextMode false])
  | GuidanceClick g => (handleGuidanceClick g s, guidanceClickNotifies g)
  | NextStepClick => (handleNextStep s, [])
  | BackButtonClick => (handleBackButtonClick s, [NotifyTextMode false])
  end.

Definition initialState : State := mkState false None 0 [].

Definition run (evs : list Event) (s : State) : State :=
  fold_left (fun s ev => fst (step ev s)) evs s.

End AutoModeViewer.

(** ** [src/components/AutoModeContentDisplay.tsx] *)

Module AutoModeContentDisplay.

(** [AutoModeGuidanceItem] of [src/types/worksheet.ts]: the description is
    already a list of paragraphs. *)
Record AutoModeGuidanceItem : Type := mkItem {
  title : string;
  description : list string }.

Definition isClickableTitle (item : AutoModeGuidanceItem) : bool :=
  if length (description item) =? 0 then false
  else existsb
         (fun desc => negb (String.eqb (JS.trim desc) "")
                      && negb (String.eqb (JS.trim desc) "<br>")
                      && negb (String.eqb (JS.trim desc) "<br/>"))
         (description item).

(** The path built by [playAudioSegment(guidanceIndex, stepIndex)]. *)
Definition audioPath (worksheetId : string) (pageNumber guidanceIndex stepIndex : nat)
  : string :=
  "/audio/" +:+ worksheetId +:+ "/" +:+ JS.numberToString pageNumber +:+ "_"
    +:+ JS.numberToString (guidanceIndex + 1) +:+ "_"
    +:+ JS.numberToString (stepIndex + 1) +:+ ".mp3".

Definition playAudioSegment (worksheetId : string) (pageNumber guidanceIndex stepIndex : nat)
  : list Effect :=
  [AudioSetSrc (audioPath worksheetId pageNumber guidanceIndex stepIndex); AudioPlay].

(** The path of the availability check: [`${pageNumber}_1_1.mp3`]. *)
Definition audioCheckPath (worksheetId : string) (pageNumber : nat) : string :=
  "/audio/" +:+ worksheetId +:+ "/" +:+ JS.numberToString pageNumber +:+ "_1_1.mp3".

(** The check's closure and the two state cells it commits to. *)
Record CheckState : Type := mkCheckState {
  checkCompleted : bool;
  audioAvailable : bool;
  audioCheckPerformed : bool }.

Definition completeCheck (available : bool) (c : CheckState) : CheckState :=
  if checkCompleted c then c else mkCheckState true available true.

(** The check effect up to [testAudio.load()]: nothing when the check was
    performed or the page has no guidance entry; otherwise a fresh closure
    ([let checkCompleted = false]) and a probe of the path.  [guidance] is
    [currentPage?.guidance], empty when the page is missing. *)
Definition startAudioCheck (worksheetId : string) (pageNumber : nat)
  (guidance : list AutoModeGuidanceItem) (c : CheckState)
  : CheckState * option string :=
  if negb (audioCheckPerformed c) && (0 <? length guidance) then
    (mkCheckState false (audioAvailable c) (audioCheckPerformed c),
     Some (audioCheckPath worksheetId pageNumber))
  else (c, None).

(** [handleCanPlay], [handleError] and the [setTimeout] callback. *)
Definition onProbeSignal (sig : WorksheetViewer.ProbeSignal) (c : CheckState)
  : CheckState :=
  match sig with
  | WorksheetViewer.CanPlayThrough => completeCheck true c
  | WorksheetViewer.MediaError => completeCheck false c
  | WorksheetViewer.TimerFired => completeCheck false c
  end.

Definition runProbe (sigs : list WorksheetViewer.ProbeSignal) (c : CheckState)
  : CheckState :=
  fold_left (fun c sig => onProbeSignal sig c) sigs c.

(** [setTimeout(..., 3000)] *)
Definition probeTimeoutMs : nat := 3000.

(** The order in which the event loop delivers the signals of one probe:
    the media events arriving before the timer is due, the timer, then any
    later media event. *)
Definition deliveryOrder (arrivals : list (nat * WorksheetViewer.ProbeSignal))
  : list WorksheetViewer.ProbeSignal :=
  map snd (List.filter (fun a => fst a <? probeTimeoutMs) arrivals)
  ++ [WorksheetViewer.TimerFired]
  ++ map snd (List.filter (fun a => negb (fst a <? probeTimeoutMs)) arrivals).

Definition handleVideoTimeUpdate (isAudioPlaying : bool) (currentTime : Q) : Q :=
  let t := if Qle_bool 20 currentTime then 10%Q else currentTime in
  let t := if Qle_bool (99 # 10) t && negb isAudioPlaying then 0%Q else t in
  let t := if isAudioPlaying && WorksheetViewer.Qltb t 10 then 10%Q else t in
  t.

End AutoModeContentDisplay.

(** ** [WorksheetPage]: the session record *)

Module WorksheetPage.

(** [interface SessionPageData] *)
Record SessionPageData : Type := mkSession {
  lastActiveContentId : option string;
  content : gmap string StoredContentData }.

(** What [JSON.parse] makes of a stored item: it throws, or yields the
    record that [JSON.stringify] wrote. *)
Inductive StoredItem : Type :=
| Unparseable
| Parsed (data : SessionPageData).

(** [sessionStorage]: the items, and whether [setItem] throws (quota). *)
Record SessionStorage : Type := mkStorage {
  items : gmap string StoredItem;
  quotaExceeded : bool }.

Definition getItem (key : string) (st : SessionStorage) : option StoredItem :=
  items st !! key.

(** [None] when [setItem] throws. *)
Definition setItem (key : string) (data : SessionPageData) (st : SessionStorage)
  : option SessionStorage :=
  if quotaExceeded st then None
  else Some (mkStorage (<[key := Parsed data]> (items st)) (quotaExceeded st)).

Definition sessionKey (id n : string) : string :=
  "worksheet_page_state_" +:+ id +:+ "_" +:+ n.

(** [location.state], the resume request of an external caller. *)
Record LocationState (m : Mode) : Type := mkLocation {
  location_initialActiveContent : option (Content m);
  location_initialCurrentStepIndex : option nat }.
Arguments mkLocation {m}.
Arguments location_initialActiveContent {m}.
Arguments location_initialCurrentStepIndex {m}.

Record PageState (m : Mode) : Type := mkPageState {
  currentActiveContent : option (Content m);
  pageStepIndex : nat;                  (* [currentStepIndex] *)
  allContentState : gmap string StoredContentData;
  initialActiveContent : option (WorksheetViewer.InitialContent m);
  initialCurrentStepIndex : nat }.
Arguments mkPageState {m}.
Arguments currentActiveContent {m}.
Arguments pageStepIndex {m}.
Arguments allContentState {m}.
Arguments initialActiveContent {m}.
Arguments initialCurrentStepIndex {m}.

Definition setAllContentState {m : Mode} (v : gmap string StoredContentData)
  (ps : PageState m) : PageState m :=
  mkPageState (currentActiveContent ps) (pageStepIndex ps) v
              (initialActiveContent ps) (initialCurrentStepIndex ps).

Definition setInitial {m : Mode} (c : WorksheetViewer.InitialContent m) (k : nat)
  (ps : PageState m) : PageState m :=
  mkPageState (currentActiveContent ps) (pageStepIndex ps) (allContentState ps)
              (Some c) k.

(** [locationState?.initialActiveContent] *)
Definition requestedContent {m : Mode} (locationState : option (LocationState m))
  : option (Content m) :=
  match locationState with
  | Some ls => location_initialActiveContent ls
  | None => None
  end.

(** [locationState.initialCurrentStepIndex || 0] *)
Definition requestedStepIndex {m : Mode} (locationState : option (LocationState m)) : nat :=
  match locationState with
  | Some ls => default 0 (location_initialCurrentStepIndex ls)
  | None => 0
  end.

(** The three "use location state if available" blocks. *)
Definition useLocationState {m : Mode} (locationState : option (LocationState m))
  (ps : PageState m) : PageState m :=
  match requestedContent locationState with
  | Some c => setInitial (WorksheetViewer.FromLocation c) (requestedStepIndex locationState) ps
  | None => ps
  end.

(** "Find the last active content from the stored data": a region of the
    metadata with the stored id; in auto mode the guidance entry of the
    page at the index parsed from the id, to which the stored id is then
    assigned (the viewer's own annotation overrides that [id]). *)
Definition findLastActiveContent {m : Mode} (data : MetaData m) (n : string)
  (lastActiveContentId : string) : option (WorksheetViewer.StoredContent m) :=
  match m return MetaData m → option (WorksheetViewer.StoredContent m) with
  | regions => fun data =>
      List.find (fun region => String.eqb (region_id region) lastActiveContentId) data
  | auto => fun data =>
      match List.find
              (fun page => bool_decide (Some (Z.of_nat (page_number page)) = JS.parseInt n None))
              data with
      | Some pageData =>
          match JS.split "_" lastActiveContentId !! 1 with
          | Some piece =>
              match JS.parseInt piece None with
              | Some guidanceIndex =>
                  if (0 <=? guidanceIndex)%Z then
                    match guidance pageData !! Z.to_nat guidanceIndex with
                    | Some g => Some (g, lastActiveContentId)
                    | None => None
                    end
                  else None
              | None => None
              end
          | None => None
          end
      | None => None
      end
  end data.

(** "Load session state when worksheet or page changes" *)
Definition loadSessionState {m : Mode} (id n : string) (st : SessionStorage)
  (locationState : option (LocationState m)) (worksheetData : option (MetaData m))
  (ps : PageState m) : PageState m :=
  if String.eqb id "" || String.eqb n "" then ps
  else
    match getItem (sessionKey id n) st with
    | Some (Parsed parsedState) =>
        let ps := setAllContentState (content parsedState) ps in
        match requestedContent locationState with
        | Some c =>
            setInitial (WorksheetViewer.FromLocation c) (requestedStepIndex locationState) ps
        | None =>
            match lastActiveContentId parsedState, worksheetData with
            | Some lastId, Some data =>
                if String.eqb lastId "" then ps
                else
                  match findLastActiveContent data n lastId with
                  | Some lastActiveContent =>
                      let contentState := content parsedState !! lastId in
                      setInitial (WorksheetViewer.FromSession lastActiveContent)
                                 (default 0 (currentStepIndex <$> contentState))
                                 ps
                  | None => ps
                  end
            | _, _ => ps
            end
        end
    | Some Unparseable => useLocationState locationState (setAllContentState ∅ ps)
    | None => useLocationState locationState (setAllContentState ∅ ps)
    end.

(** [content.id || `guidance_${content.index}`]; a region has no [index]. *)
Definition contentKey {m : Mode} : Content m → string :=
  match m with
  | regions => fun c =>
      if String.eqb (region_id c) "" then "guidance_undefined" else region_id c
  | auto => fun c =>
      if String.eqb (unit_id c) "" then "guidance_" +:+ JS.numberToString (unit_index c)
      else unit_id c
  end.

Definition setCurrent {m : Mode} (c : option (Content m)) (k : nat) (ps : PageState m)
  : PageState m :=
  mkPageState c k (allContentState ps) (initialActiveContent ps)
              (initialCurrentStepIndex ps).

(** Whether the exit branch rewrites the record: [JSON.parse] throws on a
    corrupt item (caught, nothing written); otherwise
    [currentSessionData?.lastActiveContentId !== null]. *)
Definition needsClearing (stored : option StoredItem) : bool :=
  match stored with
  | None => true
  | Some Unparseable => false
  | Some (Parsed data) => bool_decide (lastActiveContentId data ≠ None)
  end.

(** [handleContentStateChange(content, stepIndex)]: the page's copy of
    the active unit and step, the progress map, and the session record.
    A throwing [setItem] is caught and leaves the storage as it was. *)
Definition handleContentStateChange {m : Mode} (id n : string)
  (content : option (Content m)) (stepIndex : nat)
  (x : PageState m * SessionStorage) : PageState m * SessionStorage :=
  let '(ps, st) := x in
  let contentId := contentKey <$> content in
  let prevId := contentKey <$> currentActiveContent ps in
  let ps := setCurrent
              (if bool_decide (prevId ≠ contentId) then content else currentActiveContent ps)
              (if bool_decide (pageStepIndex ps ≠ stepIndex) then stepIndex else pageStepIndex ps)
              ps in
  if String.eqb id "" || String.eqb n "" then (ps, st)
  else
    let key := sessionKey id n in
    match content with
    | Some c =>
        let updatedAllContentState :=
          <[contentKey c := mkStored stepIndex]> (allContentState ps) in
        let stateToSave := mkSession (Some (contentKey c)) updatedAllContentState in
        (setAllContentState updatedAllContentState ps,
         default st (setItem key stateToSave st))
    | None =>
        if needsClearing (getItem key st) then
          let stateToSave := mkSession None (allContentState ps) in
          (ps, default st (setItem key stateToSave st))
        else (ps, st)
    end.

(** The props of [<WorksheetViewer ... />] in the page's render. *)
Definition viewerProps {m : Mode} (id : string) (pageIndex : nat) (data : MetaData m)
  (ps : PageState m) : WorksheetViewer.Props m :=
  WorksheetViewer.mkProps id pageIndex data true (initialActiveContent ps)
                          (initialCurrentStepIndex ps) (allContentState ps).

(** The [useState] initial values of the page. *)
Definition initialPageState {m : Mode} : PageState m :=
  mkPageState None 0 ∅ None 0.

(** What the viewer's "Notify parent when region state changes" effect
    passes to [onContentStateChange] on the commit that mounts the viewer:
    the [activeContent] and [currentStepIndex] of that render, which are
    the [useState] initial values whatever the props. *)
Definition mountNotification {m : Mode} (p : WorksheetViewer.Props m)
  : option (Content m) * nat :=
  WorksheetViewer.contentStateNotification (WorksheetViewer.initialState p).

(** The commit that mounts the viewer.  The page renders [<WorksheetViewer>]
    only once [worksheetData] is there, and in that commit the load effect
    runs as well (for the first time, or again because [worksheetData] is
    one of its dependencies).  The effects of a child run before those of
    its parent: the viewer's notification reaches [handleContentStateChange]
    first, then the load effect reads the storage. *)
Definition mountCommit {m : Mode} (id n : string) (pageIndex : nat)
  (locationState : option (LocationState m)) (data : MetaData m)
  (x : PageState m * SessionStorage) : PageState m * SessionStorage :=
  let '(content, stepIndex) :=
    mountNotification (viewerProps id pageIndex data (fst x)) in
  let '(ps, st) := handleContentStateChange id n content stepIndex x in
  (loadSessionState id n st locationState (Some data) ps, st).

(** Opening the page on a worksheet id and a page key.  When the worksheet
    data is at hand at the first render ([cached]) the first commit mounts
    the viewer.  Otherwise the first commit shows the loading screen and
    runs the load effect without data; the viewer is mounted by a later
    commit, when the data has arrived. *)
Definition openPage {m : Mode} (cached : bool) (id n : string) (pageIndex : nat)
  (locationState : option (LocationState m)) (data : MetaData m)
  (st : SessionStorage) : PageState m * SessionStorage :=
  if cached then mountCommit id n pageIndex locationState data (initialPageState, st)
  else mountCommit id n pageIndex locationState data
         (loadSessionState id n st locationState None initialPageState, st).

End WorksheetPage.

(** * Vocabulary of the properties *)

Import WorksheetViewer.

(** ** Example data

    The guidance page of the scenario in the specification (a first entry
    with an empty description, a second with three paragraphs), followed
    by a third entry with two paragraphs; and a regions page. *)

Definition demoPage : AutoModePageData :=
  mkPage 1 "Fractions"
         [mkGuidance "**Warm up**" "";
          mkGuidance "Adding fractions" "Look at the denominators.
Find a common multiple.
Add the numerators.";
          mkGuidance "Check" "Compare with a friend.
Correct any mistake."].

Definition demoData : MetaData auto := [demoPage].

Definition demoProps : Props auto :=
  mkProps "ws" 1 demoData true None 0 ∅.

Definition demoHeading : Content auto := annotateGuidance 0 (mkGuidance "**Warm up**" "").

Definition demoUnit : Content auto :=
  annotateGuidance 1 (mkGuidance "Adding fractions" "Look at the denominators.
Find a common multiple.
Add the numerators.").

Definition demoCheck : Content auto :=
  annotateGuidance 2 (mkGuidance "Check" "Compare with a friend.
Correct any mistake.").

Definition demoBreaks : Content auto :=
  annotateGuidance 3 (mkGuidance "Spacer" "<br>
<br>").

Definition demoRegions : MetaData regions :=
  [mkRegion "r1" 1 "intro" (DescArray ["First look at the picture.
Then count the apples."; "Write the total."]);
   mkRegion "r2" 1 "gap" (DescArray ["<br>"]);
   mkRegion "r3" 2 "next" (DescString "Turn the page.")].

Definition demoRegionProps : Props regions :=
  mkProps (m := regions) "ws" 1 demoRegions true None 0 ∅.

Definition demoRegion : Content regions :=
  mkRegion "r1" 1 "intro"
           ["First look at the picture."; "Then count the apples."; "Write the total."].

Definition demoGap : Content regions := mkRegion "r2" 1 "gap" ["<br>"].

(** A session record that remembers the third entry at step 1, and a
    resume request for the second entry at step 2. *)
Definition demoSession : WorksheetPage.SessionStorage :=
  WorksheetPage.mkStorage
    {[ WorksheetPage.sessionKey "ws" "1" :=
         WorksheetPage.Parsed
           (WorksheetPage.mkSession (Some "guidance_2") {[ "guidance_2" := mkStored 1 ]}) ]}
    false.


Definition demoPageState : WorksheetPage.PageState auto :=
  WorksheetPage.mkPageState None 0 ∅ None 0.


(** An empty session storage with room to write, and the page's state and
    storage after the viewer reported the second entry at step 0 and then
    at step 1 (select, then advance). *)
Definition emptyStorage : WorksheetPage.SessionStorage :=
  WorksheetPage.mkStorage ∅ false.

Definition demoAfterAdvance : WorksheetPage.PageState auto * WorksheetPage.SessionStorage :=
  WorksheetPage.handleContentStateChange "ws" "1" (Some demoUnit) 1
    (WorksheetPage.handleContentStateChange "ws" "1" (Some demoUnit) 0
       (demoPageState, emptyStorage)).

(** The scenario: the page is rendered, the second entry is selected and
    advanced once. *)
Definition demoRun : list (Props auto * Event auto) :=
  [(demoProps, Render); (demoProps, ContentClick demoUnit); (demoProps, NextStepClick)].

(** ** The asset path convention, in the words of the specification

    Regions: [/audio/{worksheetId}/{unitName}_{stepNumber}.mp3], the step
    1-indexed.  Auto: [/audio/{worksheetId}/{page}_{guidanceIndex}_{stepNumber}.mp3],
    guidance and step both 1-indexed.  [i] and [k] are the 0-based position
    of the guidance entry on its page and the 0-based step. *)

Definition specRegionsAudioPath (worksheetId unitName : string) (k : nat) : string :=
  "/audio/" +:+ worksheetId +:+ "/" +:+ unitName +:+ "_"
    +:+ JS.numberToString (k + 1) +:+ ".mp3".

Definition specAutoAudioPath (worksheetId : string) (page i k : nat) : string :=
  "/audio/" +:+ worksheetId +:+ "/" +:+ JS.numberToString page +:+ "_"
    +:+ JS.numberToString (i + 1) +:+ "_" +:+ JS.numberToString (k + 1) +:+ ".mp3".

(** ** Clickability *)

(** A line-break placeholder, as the viewer's predicate recognises it. *)
Definition isPlaceholder (paragraph : string) : bool :=
  String.eqb (JS.trim paragraph) "<br>".

(** Every character of the string is white space. *)
Fixpoint allWhiteSpace (s : string) : bool :=
  match s with
  | EmptyString => true
  | String c r => JS.isWhiteSpace c && allWhiteSpace r
  end.

(** A unit is inert when selecting it changes no state, whatever the state. *)
Definition inert {m : Mode} (p : Props m) (content : Content m) : Prop :=
  ∀ s : State m, fst (select p content s) = s.

(** Non-clickable, in the words of the specification: the derived
    paragraph sequence is empty or consists solely of placeholder markers,
    in either mode. *)
Definition specNonClickable {m : Mode} (content : Content m) : bool :=
  forallb isPlaceholder (descriptionOf content).

(** ** The displayed-prefix invariant *)

(** The invariant as the specification states it. *)
Definition prefixInvariant {m : Mode} (s : State m) : Prop :=
  match activeContent s with
  | Some content =>
      displayedMessages s = take (stepIndex s + 1) (descriptionOf content)
      ∧ length (displayedMessages s) = stepIndex s + 1
  | None => stepIndex s = 0 ∧ displayedMessages s = []
  end.

(** The paragraphs of the active unit are on display: always in regions
    mode, in auto mode while the guidance detail is open. *)
Definition detailShowing {m : Mode} (s : State m) : bool :=
  negb (isAuto m) || isGuidanceTextMode s.

(** The invariant the component maintains. *)
Definition playbackInvariant {m : Mode} (s : State m) : Prop :=
  match activeContent s with
  | Some content =>
      detailShowing s = true → descriptionOf content ≠ [] →
      displayedMessages s = take (stepIndex s + 1) (descriptionOf content)
  | None => stepIndex s = 0 ∧ displayedMessages s = []
  end.

(** The step a click or a restoration starts from lies within the unit's
    paragraphs. *)
Definition startsInRange {m : Mode} (pe : Props m * Event m) : Prop :=
  match snd pe with
  | ContentClick content =>
      default 0 (currentStepIndex <$> allContentState (fst pe) !! contentId content)
      < length (descriptionOf content)
  | Render =>
      ∀ initial matchingContent,
        initialActiveContent (fst pe) = Some initial →
        findContent (initialContentId initial)
                    (currentPageContent (worksheetMeta (fst pe)) (pageIndex (fst pe)))
          = Some matchingContent →
        descriptionOf matchingContent ≠ [] →
        initialCurrentStepIndex (fst pe) < length (descriptionOf matchingContent)
  | _ => True
  end.

(** The step index addresses a paragraph of the active unit. *)
Definition stepWithinUnit {m : Mode} (s : State m) : Prop :=
  match activeContent s with
  | Some content =>
      descriptionOf content ≠ [] → stepIndex s < length (descriptionOf content)
  | None => True
  end.

(** ** Restoration *)




(** ** The probe *)

(** What each signal stands for. *)
Definition outcome (sig : ProbeSignal) : bool :=
  match sig with
  | CanPlayThrough => true
  | MediaError => false
  | TimerFired => false
  end.

(** The state once the probe has committed [available]. *)
Definition committed {m : Mode} (available : bool) (s : State m) : AudioCheck * State m :=
  (mkCheck true, setAudioCheckPerformed true (setAudioAvailable available s)).

(** The first media event that arrives before the timer is due. *)
Definition firstInTime (arrivals : list (nat * ProbeSignal)) : option ProbeSignal :=
  head (map snd (List.filter (fun a => fst a <? probeTimeoutMs) arrivals)).

(** ** Gating *)

(** No effect of the list starts audio or video. *)
Definition silent (fx : list Effect) : bool :=
  forallb (fun e => negb (startsMedia e)) fx.

(** The text side of the playback state. *)
Definition textState {m : Mode} (s : State m)
  : option (Content m) * nat * list string * bool * bool :=
  (activeContent s, stepIndex s, displayedMessages s, isTextMode s, isGuidanceTextMode s).

(** Two states that differ at most in what they know of the audio. *)
Definition sameButAudio {m : Mode} (s1 s2 : State m) : Prop :=
  textState s1 = textState s2
  ∧ audioCheckPerformed s1 = audioCheckPerformed s2
  ∧ hasRestoredInitialState s1 = hasRestoredInitialState s2
  ∧ prevWorksheetIdRef s1 = prevWorksheetIdRef s2
  ∧ prevPageIndexRef s1 = prevPageIndexRef s2.

(** ** Persistence *)

(** The stored record, if any, carries the page's progress map. *)
Definition synced (key : string) (progress : gmap string StoredContentData)
  (st : WorksheetPage.SessionStorage) : Prop :=
  match WorksheetPage.getItem key st with
  | None => True
  | Some WorksheetPage.Unparseable => False
  | Some (WorksheetPage.Parsed data) => WorksheetPage.content data = progress
  end.

(** ** Navigation *)

(** The worksheet identifier or the page number differs from the
    previous render. *)
Definition navigated {m : Mode} (p : Props m) (s : State m) : Prop :=
  worksheetId p ≠ prevWorksheetIdRef s ∨ pageIndex p ≠ prevPageIndexRef s.

(** ** Repeated advance *)

(** [n] presses of the next button under the same props. *)
Definition advance {m : Mode} (p : Props m) (n : nat) (s : State m) : State m :=
  Nat.iter n (fun s => fst (handleNextStep p s)) s.

(** The props of the same worksheet on page 2. *)
Definition demoPropsPage2 : Props auto :=
  mkProps "ws" 2 demoData true None 0 ∅.

(** ** Titles and paragraphs *)

(** The emphasis marker occurs in the string. *)
Fixpoint hasEmphasisMarker (s : string) : bool :=
  match s with
  | EmptyString => false
  | String c rest =>
      match rest with
      | String d _ => (Ascii.eqb c "*" && Ascii.eqb d "*") || hasEmphasisMarker rest
      | EmptyString => false
      end
  end.

(** The character occurs in the string. *)
Fixpoint hasChar (c : ascii) (s : string) : bool :=
  match s with
  | EmptyString => false
  | String d rest => Ascii.eqb d c || hasChar c rest
  end.

(** A paragraph: one line with something other than white space on it. *)
Definition isParagraph (s : string) : Prop :=
  JS.trim s ≠ "" ∧ hasChar JS.newline s = false.

(** ** The sibling viewer's invariant *)

(** While an entry is open the displayed paragraphs are the prefix through
    the current index, which addresses a paragraph, and the viewer is in
    text mode; with no entry open everything is cleared. *)
Definition siblingInvariant (s : AutoModeViewer.State) : Prop :=
  match AutoModeViewer.activeGuidance s with
  | Some g =>
      AutoModeViewer.isTextMode s = true
      ∧ AutoModeViewer.currentParagraphIndex s
        < length (AutoModeViewer.splitIntoParagraphs (guidance_description g))
      ∧ AutoModeViewer.displayedParagraphs s
        = take (AutoModeViewer.currentParagraphIndex s + 1)
               (AutoModeViewer.splitIntoParagraphs (guidance_description g))
  | None =>
      AutoModeViewer.isTextMode s = false
      ∧ AutoModeViewer.currentParagraphIndex s = 0
      ∧ AutoModeViewer.displayedParagraphs s = []
  end.

(** ** The mode flags *)

(** Text mode is on exactly while a unit is active; the guidance detail
    flag is only ever set in auto mode and in text mode; narration is
    only marked as playing in text mode. *)
Definition modeInvariant {m : Mode} (s : State m) : Prop :=
  isTextMode s = bool_decide (is_Some (activeContent s))
  ∧ (isGuidanceTextMode s = true → isAuto m = true ∧ isTextMode s = true)
  ∧ (isAudioPlaying s = true → isTextMode s = true).


(** * Properties *)

(** ** Strings *)

Lemma string_app_cons (x : ascii) (s t : string) :
  String x s +:+ t = String x (s +:+ t).
Proof. reflexivity. Qed.

Lemma string_length_app (s t : string) :
  String.length (s +:+ t) = String.length s + String.length t.
Proof.
  induction s as [|c s IH]; [reflexivity|].
  rewrite string_app_cons. simpl. now rewrite IH.
Qed.

Lemma string_app_assoc (a b c : string) : (a +:+ b) +:+ c = a +:+ b +:+ c.
Proof.
  induction a as [|x a IH]; [reflexivity|].
  rewrite !string_app_cons. now rewrite IH.
Qed.

Lemma string_app_inv_tail (s1 s2 t : string) : s1 +:+ t = s2 +:+ t → s1 = s2.
Proof.
  revert s2. induction s1 as [|c s1 IH]; intros [|d s2] H.
  - reflexivity.
  - apply (f_equal String.length) in H.
    rewrite !string_length_app in H. simpl in H. lia.
  - apply (f_equal String.length) in H.
    rewrite !string_length_app in H. simpl in H. lia.
  - rewrite !string_app_cons in H. injection H as -> H. f_equal. now apply IH.
Qed.

(** ** C1: audio asset paths *)

(** A guidance unit of the page carries its 0-based position as [index]
    and in its id. *)
Lemma currentPageContent_auto_lookup (data : MetaData auto) (page i : nat)
  (content : Content auto) :
  currentPageContent (m := auto) data page !! i = Some content →
  unit_index content = i ∧ unit_id content = "guidance_" +:+ JS.numberToString i.
Proof.
  unfold currentPageContent.
  destruct (List.find _ data) as [pageData|]; [|intros H; discriminate].
  rewrite list_lookup_imap.
  destruct (guidance pageData !! i) as [g|]; simpl; [|discriminate].
  intros [= <-]. split; reflexivity.
Qed.

(** The regions page normalized: the lines of every description string
    become paragraphs, regions of other pages are dropped. *)
Lemma regions_page_content :
  currentPageContent (worksheetMeta demoRegionProps) (pageIndex demoRegionProps)
  = [demoRegion; demoGap].
Proof. vm_compute. reflexivity. Qed.

(** In regions mode the viewer builds the path of the specification. *)
Lemma regions_audio_path_conforms (p : Props regions) (content : Content regions) (k : nat) :
  audioPaths (After 500 (playAudioSegment p (segmentName p content) k))
  = [specRegionsAudioPath (worksheetId p) (region_name content) k].
Proof. reflexivity. Qed.

(** So does the sibling component in auto mode. *)
Lemma sibling_audio_path_conforms (w : string) (page i k : nat) :
  AutoModeContentDisplay.audioPath w page i k = specAutoAudioPath w page i k.
Proof. reflexivity. Qed.

(** C1.  In auto mode the viewer plays step [k] of the guidance entry at
    position [i] of page [p] from [/audio/{worksheetId}/{p}_{i}_{k+1}.mp3]:
    the step number is 1-indexed but the guidance index is the 0-based
    position, so the path is never the one of the specification,
    [/audio/{worksheetId}/{p}_{i+1}_{k+1}.mp3]. *)
Theorem C1_auto_path_guidance_index_zero_based
  (p : Props auto) (i : nat) (g : GuidanceItem) (k : nat) :
  audioPaths (After 500 (playAudioSegment p (segmentName p (annotateGuidance i g)) k))
  = ["/audio/" +:+ worksheetId p +:+ "/" +:+ JS.numberToString (pageIndex p) +:+ "_"
       +:+ JS.numberToString i +:+ "_" +:+ JS.numberToString (k + 1) +:+ ".mp3"]
  ∧ audioPath (worksheetId p) (segmentName p (annotateGuidance i g)) k
    ≠ specAutoAudioPath (worksheetId p) (pageIndex p) i k.
Proof.
  split.
  - cbn [audioPaths playAudioSegment flat_map app segmentName annotateGuidance unit_index].
    unfold audioPath. now rewrite !string_app_assoc.
  - set (pre := "/audio/" +:+ worksheetId p +:+ "/"
                  +:+ JS.numberToString (pageIndex p) +:+ "_").
    set (post := "_" +:+ JS.numberToString (k + 1) +:+ ".mp3").
    assert (E1 : audioPath (worksheetId p) (segmentName p (annotateGuidance i g)) k
                 = pre +:+ JS.numberToString i +:+ post).
    { unfold audioPath, pre, post. cbn [segmentName annotateGuidance unit_index].
      now rewrite !string_app_assoc. }
    assert (E2 : specAutoAudioPath (worksheetId p) (pageIndex p) i k
                 = pre +:+ JS.numberToString (i + 1) +:+ post).
    { unfold specAutoAudioPath, pre, post. now rewrite !string_app_assoc. }
    rewrite E1, E2. intros H.
    apply (inj (String.app pre)) in H.
    apply string_app_inv_tail in H.
    apply (inj (pretty (A := nat))) in H. lia.
Qed.

(** The viewer on the page of the scenario: the first step of the second
    entry is played from [1_1_1.mp3], which the specification assigns to
    the first entry. *)
Lemma C1_scenario_path :
  snd (select demoProps demoUnit (initialState demoProps))
  = [After 500 [AudioSetSrc "/audio/ws/1_1_1.mp3"; AudioPlay]; NotifyTextMode true]
  ∧ specAutoAudioPath "ws" 1 1 0 = "/audio/ws/1_2_1.mp3".
Proof. split; vm_compute; reflexivity. Qed.

(** ** The click path *)

Lemma nonClickable_no_paragraphs (content : Content auto) :
  isNonClickableGuidance (unit_item content) = true → descriptionOf content = [].
Proof.
  unfold isNonClickableGuidance. cbn [descriptionOf].
  unfold processGuidanceDescription. now intros ->.
Qed.

Lemma paragraphs_clickable (content : Content auto) :
  descriptionOf content ≠ [] → isNonClickableGuidance (unit_item content) = false.
Proof.
  intros H. destruct (isNonClickableGuidance (unit_item content)) eqn:E; [|reflexivity].
  now apply nonClickable_no_paragraphs in E.
Qed.

Lemma select_no_paragraphs {m : Mode} (p : Props m) (content : Content m) (s : State m) :
  descriptionOf content = [] → select p content s = (s, []).
Proof.
  intros H. destruct m; cbn [select].
  - unfold handleRegionClick, handleContentClick. now rewrite H.
  - unfold handleGuidanceClick.
    destruct (isNonClickableGuidance (unit_item content)); [reflexivity|].
    unfold handleContentClick. now rewrite H.
Qed.

Lemma select_guarded {m : Mode} (p : Props m) (content : Content m) (s : State m) :
  clickGuard content = true → select p content s = (s, []).
Proof.
  destruct m; cbn [clickGuard select]; [discriminate|].
  intros H. unfold handleGuidanceClick. now rewrite H.
Qed.

(** The state a click on a unit with paragraphs produces. *)
Lemma handleContentClick_state {m : Mode} (p : Props m) (content : Content m) (s : State m) :
  descriptionOf content ≠ [] →
  let k := default 0 (currentStepIndex <$> allContentState p !! contentId content) in
  fst (handleContentClick p content s)
  = mkState (Some content) k true (isAuto m || isGuidanceTextMode s)
            (take (k + 1) (descriptionOf content))
            (isAudioPlaying s) (audioAvailable s) (audioCheckPerformed s)
            (hasRestoredInitialState s) (prevWorksheetIdRef s) (prevPageIndexRef s).
Proof.
  intros H k. unfold handleContentClick. fold k.
  destruct (descriptionOf content) as [|x l] eqn:E; [done|].
  cbn [length Nat.eqb Nat.ltb Nat.leb]. destruct m; reflexivity.
Qed.

Lemma select_state {m : Mode} (p : Props m) (content : Content m) (s : State m) :
  descriptionOf content ≠ [] →
  fst (select p content s) = fst (handleContentClick p content s).
Proof.
  intros H. destruct m; cbn [select]; [reflexivity|].
  unfold handleGuidanceClick. now rewrite paragraphs_clickable.
Qed.

(** ** Blank text *)

Lemma trimStart_blank (s : string) : JS.trimStart s = "" ↔ allWhiteSpace s = true.
Proof.
  induction s as [|c s IH]; [easy|].
  cbn [JS.trimStart allWhiteSpace]. destruct (JS.isWhiteSpace c); [exact IH|].
  split; discriminate.
Qed.

Lemma trimStart_head (s : string) (c : ascii) (r : string) :
  JS.trimStart s = String c r → JS.isWhiteSpace c = false.
Proof.
  induction s as [|d s IH]; [discriminate|].
  cbn [JS.trimStart]. destruct (JS.isWhiteSpace d) eqn:E; [exact IH|].
  now intros [= <- _].
Qed.

Lemma allWhiteSpace_trimStart (s : string) :
  allWhiteSpace (JS.trimStart s) = true → allWhiteSpace s = true.
Proof.
  intros H. apply trimStart_blank.
  destruct (JS.trimStart s) as [|c r] eqn:E; [reflexivity|].
  apply trimStart_head in E. cbn [allWhiteSpace] in H. now rewrite E in H.
Qed.

Lemma allWhiteSpace_rev_app (s acc : string) :
  allWhiteSpace (String.rev_app s acc) = allWhiteSpace s && allWhiteSpace acc.
Proof.
  revert acc. induction s as [|c s IH]; intros acc; [reflexivity|].
  cbn [String.rev_app allWhiteSpace]. rewrite IH. cbn [allWhiteSpace].
  now destruct (JS.isWhiteSpace c), (allWhiteSpace s).
Qed.

Lemma allWhiteSpace_rev (s : string) : allWhiteSpace (String.rev s) = allWhiteSpace s.
Proof. unfold String.rev. rewrite allWhiteSpace_rev_app. apply andb_true_r. Qed.

Lemma trim_blank (s : string) : JS.trim s = "" ↔ allWhiteSpace s = true.
Proof.
  unfold JS.trim, JS.trimEnd. split.
  - intros H. apply allWhiteSpace_trimStart.
    rewrite <- allWhiteSpace_rev. apply allWhiteSpace_trimStart.
    rewrite <- allWhiteSpace_rev. now rewrite H.
  - intros H. apply trimStart_blank in H. rewrite H. reflexivity.
Qed.

Lemma split_blank (s : string) :
  allWhiteSpace s = true ↔ Forall (fun line => allWhiteSpace line = true) (JS.split JS.newline s).
Proof.
  induction s as [|c s IH]; cbn [JS.split allWhiteSpace].
  - split; [repeat constructor | reflexivity].
  - destruct (Ascii.eqb c JS.newline) eqn:E.
    + apply Ascii.eqb_eq in E. subst c.
      change (JS.isWhiteSpace JS.newline) with true. cbn [andb].
      rewrite IH. split; [now constructor | now inversion 1].
    + rewrite andb_true_iff, IH.
      destruct (JS.split JS.newline s) as [|h t].
      * split; [intros [H _]; constructor; [cbn; now rewrite H | constructor]|].
        inversion 1 as [|? ? H1 _]; subst. cbn in H1.
        rewrite andb_true_r in H1. split; [exact H1 | constructor].
      * split.
        -- intros [H1 H2]. inversion H2; subst. constructor; [|assumption].
           cbn [allWhiteSpace]. now rewrite H1.
        -- inversion 1 as [|? ? H1 H2]; subst. cbn [allWhiteSpace] in H1.
           apply andb_true_iff in H1 as [H1 H3]. split; [exact H1 | now constructor].
Qed.

Lemma no_paragraph_blank (s : string) :
  splitParagraphs s = [] ↔ JS.trim s = "".
Proof.
  rewrite trim_blank, split_blank. unfold splitParagraphs.
  induction (JS.split JS.newline s) as [|line lines IH]; cbn [List.filter].
  - split; [constructor | reflexivity].
  - unfold nonBlank at 1. destruct (String.eqb (JS.trim line) "") eqn:E; cbn [negb].
    + apply String.eqb_eq, trim_blank in E. rewrite IH.
      split; [now constructor | now inversion 1].
    + apply String.eqb_neq in E. split; [discriminate|].
      inversion 1 as [|? ? H1 _]; subst. now apply trim_blank in H1.
Qed.

(** In auto mode the predicate that styles an entry as non-clickable holds
    exactly of the entries without paragraphs. *)
Lemma nonClickable_iff_no_paragraphs (content : Content auto) :
  isNonClickableGuidance (unit_item content) = true ↔ descriptionOf content = [].
Proof.
  split; [apply nonClickable_no_paragraphs|].
  unfold isNonClickableGuidance. cbn [descriptionOf]. unfold processGuidanceDescription.
  destruct (_ || _) eqn:G; [reflexivity|]. intros H.
  apply no_paragraph_blank, String.eqb_eq in H.
  rewrite H, orb_true_r in G. discriminate.
Qed.

(** ** C2: which units are inert *)

(** The same text is a paragraph of a region and no paragraph of a
    guidance entry: the placeholder is recognised in auto mode only. *)
Lemma placeholder_depends_on_mode :
  processedDescription (DescArray ["<br>"]) = ["<br>"]
  ∧ processedDescription (DescString "<br>") = ["<br>"]
  ∧ processGuidanceDescription "<br>" = [].
Proof. repeat split; vm_compute; reflexivity. Qed.

(** The sibling viewer also recognises the self-closing form, and drops
    placeholder lines inside a longer text. *)
Lemma siblings_disagree_on_placeholders :
  AutoModeViewer.isNonClickable (mkGuidance "t" "<br/>") = true
  ∧ isNonClickableGuidance (mkGuidance "t" "<br/>") = false
  ∧ AutoModeViewer.splitIntoParagraphs (guidance_description (unit_item demoBreaks)) = []
  ∧ descriptionOf demoBreaks = ["<br>"; "<br>"].
Proof. repeat split; vm_compute; reflexivity. Qed.

(** A guidance entry made of two placeholder lines is selectable. *)
Lemma placeholder_lines_selectable :
  forallb isPlaceholder (descriptionOf demoBreaks) = true
  ∧ ¬ inert demoProps demoBreaks.
Proof.
  split; [vm_compute; reflexivity|].
  intros H. specialize (H (initialState demoProps)).
  apply (f_equal isTextMode) in H. vm_compute in H. discriminate.
Qed.

(** C2, counterexample.  The region [r2] of the example page has the
    derived paragraph sequence ["<br>"], made of line-break placeholders
    only, and selecting it is not inert: it becomes the active unit. *)
Lemma C2_counterexample :
  In demoGap (currentPageContent (worksheetMeta demoRegionProps) (pageIndex demoRegionProps))
  ∧ descriptionOf demoGap = ["<br>"]
  ∧ forallb isPlaceholder (descriptionOf demoGap) = true
  ∧ ¬ inert demoRegionProps demoGap.
Proof.
  split; [vm_compute; auto|]. split; [reflexivity|]. split; [vm_compute; reflexivity|].
  intros H. specialize (H (initialState demoRegionProps)).
  apply (f_equal isTextMode) in H. vm_compute in H. discriminate.
Qed.

(** C2, amended.  In regions mode and in auto mode alike, a unit is inert
    (selecting it changes no state) exactly when its derived paragraph
    sequence is empty; in auto mode these are exactly the entries the
    viewer's non-clickable predicate marks, those whose trimmed description
    is empty or the single placeholder [<br>]. *)
Theorem C2_inert_iff_no_paragraphs {m : Mode} (p : Props m) (content : Content m) :
  (inert p content ↔ descriptionOf content = [])
  ∧ (isAuto m = true → (clickGuard content = true ↔ descriptionOf content = [])).
Proof.
  split; [split|].
  - intros H. destruct (descriptionOf content) as [|x l] eqn:E; [reflexivity|].
    specialize (H (initialState p)).
    rewrite select_state, handleContentClick_state in H by (rewrite E; discriminate).
    apply (f_equal isTextMode) in H. discriminate.
  - intros H s. now rewrite select_no_paragraphs.
  - destruct m; [discriminate|]. intros _. apply nonClickable_iff_no_paragraphs.
Qed.

(** C2 on the example pages: the heading without description is inert,
    the second entry is not. *)
Lemma C2_inert_iff_no_paragraphs_witness :
  inert demoProps demoHeading ∧ ¬ inert demoProps demoUnit.
Proof.
  split.
  - apply (proj2 (proj1 (C2_inert_iff_no_paragraphs demoProps demoHeading))).
    vm_compute. reflexivity.
  - intros H. apply (proj1 (proj1 (C2_inert_iff_no_paragraphs demoProps demoUnit))) in H.
    vm_compute in H. discriminate.
Defined.

(** ** C3: the displayed-prefix invariant *)

Lemma next_guard (k n : nat) : (Z.of_nat k <? Z.of_nat n - 1)%Z = true ↔ k + 1 < n.
Proof. rewrite Z.ltb_lt. lia. Qed.

Lemma take_next (l : list string) (k : nat) :
  k + 1 < length l →
  take (k + 1) l ++ [default "" (l !! (k + 1))] = take (k + 1 + 1) l.
Proof.
  intros H. destruct (lookup_lt_is_Some_2 l (k + 1) H) as [x Hx].
  rewrite Hx. cbn [default]. symmetry. replace (k + 1 + 1) with (S (k + 1)) by lia.
  now apply take_S_r.
Qed.

Lemma invariant_initial {m : Mode} (p : Props m) : playbackInvariant (initialState p).
Proof. split; reflexivity. Qed.

Lemma invariant_select {m : Mode} (p : Props m) (content : Content m) (s : State m) :
  playbackInvariant s → playbackInvariant (fst (select p content s)).
Proof.
  intros H. destruct (descriptionOf content) as [|x l] eqn:E.
  - now rewrite select_no_paragraphs.
  - rewrite select_state, handleContentClick_state by (rewrite E; discriminate).
    unfold playbackInvariant. cbn -[descriptionOf]. intros _ _. now rewrite E.
Qed.

Lemma invariant_next {m : Mode} (p : Props m) (s : State m) :
  playbackInvariant s → playbackInvariant (fst (handleNextStep p s)).
Proof.
  unfold playbackInvariant, handleNextStep, detailShowing.
  destruct (activeContent s) as [content|] eqn:E; [|cbn [fst]; now rewrite E].
  destruct (Z.of_nat (stepIndex s) <? _)%Z eqn:G; cbn -[descriptionOf]; rewrite E; [|trivial].
  apply next_guard in G. intros H D N. rewrite (H D N). now apply take_next.
Qed.

Lemma invariant_back {m : Mode} (p : Props m) (s : State m) :
  playbackInvariant s → playbackInvariant (fst (handleBackButtonClick p s)).
Proof.
  unfold playbackInvariant, handleBackButtonClick, detailShowing.
  destruct (isAuto m && isGuidanceTextMode s) eqn:G; cbn; [|split; reflexivity].
  apply andb_true_iff in G as [-> _].
  destruct (activeContent s); [discriminate|]. intros [-> _]. split; reflexivity.
Qed.

Lemma invariant_reset {m : Mode} (p : Props m) (s : State m) :
  playbackInvariant s → playbackInvariant (fst (resetOnNavigation p s)).
Proof.
  unfold resetOnNavigation. destruct (_ || _); [|trivial]. intros _.
  unfold playbackInvariant. cbn. split; reflexivity.
Qed.

Lemma invariant_restore {m : Mode} (p : Props m) (s : State m) :
  playbackInvariant s → playbackInvariant (fst (restoreInitialState p s)).
Proof.
  intros H. unfold restoreInitialState.
  destruct (initialActiveContent p) as [initial|]; [|trivial].
  destruct (_ && _); [|trivial].
  destruct (findContent _ _) as [matchingContent|]; [|trivial].
  destruct (descriptionOf matchingContent) as [|x l] eqn:E.
  - unfold playbackInvariant. destruct m; cbn -[descriptionOf]; intros _ N; now rewrite E in N.
  - unfold playbackInvariant. destruct m; cbn -[descriptionOf]; intros _ _; now rewrite E.
Qed.

Lemma invariant_step {m : Mode} (p : Props m) (ev : Event m) (s : State m) :
  playbackInvariant s → playbackInvariant (fst (step p ev s)).
Proof.
  intros H. destruct ev; cbn [step].
  - unfold renderEffects.
    pose proof (invariant_reset p s H) as H1.
    destruct (resetOnNavigation p s) as [s1 fx1].
    pose proof (invariant_restore p s1 H1) as H2.
    now destruct (restoreInitialState p s1) as [s2 fx2].
  - now apply invariant_select.
  - now apply invariant_next.
  - now apply invariant_back.
  - unfold handleMessageClick. destruct (activeContent s) eqn:E; [|trivial].
    now destruct (negb (audioAvailable s)).
  - trivial.
  - unfold handleAudioPlaying. now destruct (showsVideo s).
  - unfold handleAudioPause. now destruct (showsVideo s).
  - unfold handleAudioEnded. now destruct (showsVideo s).
  - trivial.
Qed.

Lemma run_cons {m : Mode} (p : Props m) (ev : Event m) (rest : list (Props m * Event m))
  (s : State m) :
  run ((p, ev) :: rest) s
  = (fst (run rest (fst (step p ev s))),
     snd (step p ev s) ++ snd (run rest (fst (step p ev s)))).
Proof.
  cbn [run]. destruct (step p ev s) as [s1 fx1]. cbn [fst snd].
  now destruct (run rest s1) as [s2 fx2].
Qed.

Lemma invariant_run {m : Mode} (evs : list (Props m * Event m)) (s : State m) :
  playbackInvariant s → playbackInvariant (fst (run evs s)).
Proof.
  revert s. induction evs as [|[p ev] rest IH]; intros s H; [exact H|].
  rewrite run_cons. cbn [fst]. apply IH. now apply invariant_step.
Qed.

(** The step index stays within the active unit when every click and
    restoration starts within it. *)
Lemma within_step {m : Mode} (p : Props m) (ev : Event m) (s : State m) :
  startsInRange (p, ev) → stepWithinUnit s → stepWithinUnit (fst (step p ev s)).
Proof.
  intros R H. destruct ev; cbn [step]; cbn [startsInRange fst snd] in R.
  - unfold renderEffects.
    assert (H1 : stepWithinUnit (fst (resetOnNavigation p s))).
    { unfold resetOnNavigation. now destruct (_ || _). }
    destruct (resetOnNavigation p s) as [s1 fx1]. cbn [fst] in H1.
    assert (H2 : stepWithinUnit (fst (restoreInitialState p s1))).
    { unfold restoreInitialState.
      destruct (initialActiveContent p) as [initial|] eqn:EI; [|trivial].
      destruct (_ && _); [|trivial].
      destruct (findContent _ _) as [matchingContent|] eqn:EF; [|trivial].
      specialize (R initial matchingContent eq_refl EF).
      destruct (descriptionOf matchingContent) as [|x l] eqn:E;
        unfold stepWithinUnit; destruct m; cbn -[descriptionOf]; rewrite E; try done;
        intros _; apply R; discriminate. }
    now destruct (restoreInitialState p s1) as [s2 fx2].
  - destruct (descriptionOf content) as [|x l] eqn:E.
    + now rewrite select_no_paragraphs.
    + rewrite select_state, handleContentClick_state by (rewrite E; discriminate).
      unfold stepWithinUnit. cbn -[descriptionOf]. intros _. now rewrite E.
  - unfold handleNextStep, stepWithinUnit in *.
    destruct (activeContent s) as [content|] eqn:E; [|cbn [fst]; now rewrite E].
    destruct (Z.of_nat (stepIndex s) <? _)%Z eqn:G; cbn -[descriptionOf]; rewrite E; [|trivial].
    apply next_guard in G. intros _. lia.
  - unfold handleBackButtonClick, stepWithinUnit in *.
    destruct (isAuto m && isGuidanceTextMode s); cbn; trivial.
  - unfold handleMessageClick. destruct (activeContent s) eqn:E; [|trivial].
    now destruct (negb (audioAvailable s)).
  - trivial.
  - unfold handleAudioPlaying. now destruct (showsVideo s).
  - unfold handleAudioPause. now destruct (showsVideo s).
  - unfold handleAudioEnded. now destruct (showsVideo s).
  - trivial.
Qed.

Lemma within_run {m : Mode} (evs : list (Props m * Event m)) (s : State m) :
  Forall startsInRange evs → stepWithinUnit s → stepWithinUnit (fst (run evs s)).
Proof.
  revert s. induction evs as [|[p ev] rest IH]; intros s R H; [exact H|].
  rewrite run_cons. cbn [fst]. inversion R; subst. apply IH; [assumption|].
  now apply within_step.
Qed.

(** The run of the scenario: the second entry is opened, advanced once,
    and the back button collapses the detail to the list. *)
Lemma scenario_collapse_state :
  fst (run [(demoProps, Render); (demoProps, ContentClick demoHeading);
            (demoProps, ContentClick demoUnit); (demoProps, NextStepClick);
            (demoProps, BackButtonClick)]
           (initialState demoProps))
  = mkState (Some demoUnit) 1 true false [] false true false false "ws" 1.
Proof. vm_compute. reflexivity. Qed.

(** C3, counterexample.  After select, advance and one press of the back
    button in auto mode (the detail-to-list collapse) the unit is still
    active at step 1 while no paragraph is displayed: the invariant of
    the specification fails in a reachable state. *)
Lemma C3_counterexample :
  ¬ prefixInvariant
      (fst (run [(demoProps, Render); (demoProps, ContentClick demoUnit);
                 (demoProps, NextStepClick); (demoProps, BackButtonClick)]
                (initialState demoProps))).
Proof.
  unfold prefixInvariant. vm_compute. intros [H _]. discriminate.
Qed.

(** C3, amended.  In every state the component reaches from its initial
    state: when no unit is active, the step index is 0 and nothing is
    displayed; when a unit with paragraphs is active and its detail is
    showing (regions mode, or auto mode with the guidance detail open),
    the displayed paragraphs are exactly [slice(0, stepIndex + 1)] of the
    unit's paragraphs; and when every click and restoration of the run
    starts from a step within its unit, the step index addresses a
    paragraph of the active unit, so that this prefix has length
    [stepIndex + 1]. *)
Theorem C3_prefix_invariant_while_detail_shows {m : Mode}
  (p0 : Props m) (evs : list (Props m * Event m)) :
  playbackInvariant (fst (run evs (initialState p0)))
  ∧ (Forall startsInRange evs → stepWithinUnit (fst (run evs (initialState p0)))).
Proof.
  split.
  - apply invariant_run, invariant_initial.
  - intros R. apply within_run; [exact R | exact I].
Qed.

(** What the invariant says of a state whose active unit is known. *)
Lemma invariant_active {m : Mode} (s : State m) (content : Content m) :
  playbackInvariant s → activeContent s = Some content →
  detailShowing s = true → descriptionOf content ≠ [] →
  displayedMessages s = take (stepIndex s + 1) (descriptionOf content).
Proof. unfold playbackInvariant. intros H E. rewrite E in H. exact H. Qed.

Lemma within_active {m : Mode} (s : State m) (content : Content m) :
  stepWithinUnit s → activeContent s = Some content → descriptionOf content ≠ [] →
  stepIndex s < length (descriptionOf content).
Proof. unfold stepWithinUnit. intros H E. rewrite E in H. exact H. Qed.

(** C3 on the scenario: after select and one advance the displayed
    paragraphs are the prefix through step 1. *)
Lemma C3_prefix_invariant_witness :
  displayedMessages (fst (run demoRun (initialState demoProps)))
  = take (stepIndex (fst (run demoRun (initialState demoProps))) + 1) (descriptionOf demoUnit)
  ∧ stepIndex (fst (run demoRun (initialState demoProps))) < length (descriptionOf demoUnit).
Proof.
  assert (A : activeContent (fst (run demoRun (initialState demoProps))) = Some demoUnit)
    by (vm_compute; reflexivity).
  assert (D : detailShowing (fst (run demoRun (initialState demoProps))) = true)
    by (vm_compute; reflexivity).
  assert (N : descriptionOf demoUnit ≠ []) by (vm_compute; discriminate).
  assert (R : Forall startsInRange demoRun).
  { constructor; [intros initial matchingContent H; vm_compute in H; discriminate H|].
    constructor; [cbn [startsInRange snd fst]; vm_compute; lia|].
    constructor; [exact I | constructor]. }
  destruct (C3_prefix_invariant_while_detail_shows demoProps demoRun) as [Hinv Hwithin].
  split.
  - exact (invariant_active _ demoUnit Hinv A D N).
  - exact (within_active _ demoUnit (Hwithin R) A N).
Defined.

(** With the step in range the displayed prefix has length [stepIndex + 1]. *)
Lemma displayed_length {m : Mode} (s : State m) (content : Content m) :
  playbackInvariant s → stepWithinUnit s →
  activeContent s = Some content → detailShowing s = true →
  descriptionOf content ≠ [] →
  length (displayedMessages s) = stepIndex s + 1.
Proof.
  unfold playbackInvariant, stepWithinUnit. intros H W E D N. rewrite E in *.
  rewrite (H D N), length_take. specialize (W N). lia.
Qed.

(** ** C5: select *)

(** C5, counterexample.  The region [r2] of the example page is
    non-clickable in the words of the specification (its derived paragraph
    sequence ["<br>"] is made of placeholders only), and selecting it is no
    no-op: it becomes the active unit in text mode.  So does a guidance
    entry made of two placeholder lines. *)
Lemma C5_counterexample :
  In demoGap (currentPageContent (worksheetMeta demoRegionProps) (pageIndex demoRegionProps))
  ∧ specNonClickable demoGap = true
  ∧ select demoRegionProps demoGap (initialState demoRegionProps)
    ≠ (initialState demoRegionProps, [])
  ∧ activeContent (fst (select demoRegionProps demoGap (initialState demoRegionProps)))
    = Some demoGap
  ∧ specNonClickable demoBreaks = true
  ∧ activeContent (fst (select demoProps demoBreaks (initialState demoProps)))
    = Some demoBreaks.
Proof.
  split; [vm_compute; auto|]. split; [vm_compute; reflexivity|].
  split.
  { intros H. apply (f_equal (fun x => isTextMode (fst x))) in H.
    vm_compute in H. discriminate. }
  split; [vm_compute; reflexivity|]. split; vm_compute; reflexivity.
Qed.

(** C5, amended.  A click on a unit whose derived paragraph sequence is
    empty changes nothing and issues no effect; the guard of the click
    path (the viewer's own non-clickable predicate, on guidance entries
    only) holds of such units only, so it stops no other click.  Every
    other unit, one whose paragraphs are all placeholder lines included,
    becomes active: the step index is the unit's saved progress of the
    session record when there is one and 0 when there is none, the
    displayed paragraphs are the prefix through that step, and the
    component is in text mode (with the guidance detail open in auto
    mode); nothing else of the state changes. *)
Theorem C5_select {m : Mode} (p : Props m) (content : Content m) (s : State m) :
  (descriptionOf content = [] ∨ clickGuard content = true →
   select p content s = (s, []))
  ∧ (clickGuard content = true → descriptionOf content = [])
  ∧ (descriptionOf content ≠ [] →
     ∀ s', s' = fst (select p content s) →
       activeContent s' = Some content
       ∧ (∀ saved, allContentState p !! contentId content = Some saved →
                   stepIndex s' = currentStepIndex saved)
       ∧ (allContentState p !! contentId content = None → stepIndex s' = 0)
       ∧ displayedMessages s' = take (stepIndex s' + 1) (descriptionOf content)
       ∧ isTextMode s' = true
       ∧ (isAuto m = true → isGuidanceTextMode s' = true)
       ∧ (isAuto m = false → isGuidanceTextMode s' = isGuidanceTextMode s)
       ∧ isAudioPlaying s' = isAudioPlaying s
       ∧ audioAvailable s' = audioAvailable s
       ∧ audioCheckPerformed s' = audioCheckPerformed s
       ∧ hasRestoredInitialState s' = hasRestoredInitialState s).
Proof.
  split; [|split].
  - intros [H|H]; [now apply select_no_paragraphs | now apply select_guarded].
  - destruct m; cbn [clickGuard]; [discriminate|]. apply nonClickable_no_paragraphs.
  - intros N s' ->. rewrite select_state, handleContentClick_state by exact N.
    cbn -[descriptionOf]. split; [reflexivity|].
    split; [now intros saved ->|]. split; [now intros ->|].
    split; [reflexivity|]. split; [reflexivity|].
    split; [now intros ->|]. split; [now intros ->|]. repeat split; reflexivity.
Qed.

(** C5 on the page of the scenario: the heading is inert; the second
    entry opens at its saved step 1 with two paragraphs displayed. *)
Lemma C5_select_witness :
  select demoProps demoHeading (initialState demoProps) = (initialState demoProps, [])
  ∧ let p := mkProps "ws" 1 demoData true None 0 {[ "guidance_1" := mkStored 1 ]} in
    let s' := fst (select p demoUnit (initialState p)) in
    activeContent s' = Some demoUnit
    ∧ stepIndex s' = 1
    ∧ displayedMessages s' = ["Look at the denominators."; "Find a common multiple."]
    ∧ isTextMode s' = true.
Proof.
  split.
  - apply (proj1 (C5_select demoProps demoHeading (initialState demoProps))).
    left. reflexivity.
  - intros p s'.
    assert (N : descriptionOf demoUnit ≠ []) by (vm_compute; discriminate).
    destruct (proj2 (proj2 (C5_select p demoUnit (initialState p))) N s' eq_refl)
      as (Ha & Hs & _ & Hd & Ht & _).
    specialize (Hs (mkStored 1) eq_refl). cbn [currentStepIndex] in Hs.
    split; [exact Ha|]. split; [exact Hs|]. split; [|exact Ht].
    rewrite Hd, Hs. vm_compute. reflexivity.
Defined.

(** ** C4: restoration happens once; the resume request and the session record *)













(** *** Opening the page *)










(** ** C6: the availability probe commits once *)

Lemma probe_signal_after_commit {m : Mode} (sig : ProbeSignal) (b : bool) (s : State m) :
  onProbeSignal sig (committed b s) = committed b s.
Proof. destruct sig; reflexivity. Qed.

Lemma runProbe_after_commit {m : Mode} (sigs : list ProbeSignal) (b : bool) (s : State m) :
  runProbe sigs (committed b s) = committed b s.
Proof.
  induction sigs as [|sig rest IH]; [reflexivity|].
  cbn [runProbe fold_left]. rewrite probe_signal_after_commit. exact IH.
Qed.

Lemma runProbe_first {m : Mode} (sig : ProbeSignal) (rest : list ProbeSignal) (s : State m) :
  runProbe (sig :: rest) (mkCheck false, s) = committed (outcome sig) s.
Proof.
  cbn [runProbe fold_left].
  replace (onProbeSignal sig (mkCheck false, s)) with (committed (outcome sig) s)
    by (destruct sig; reflexivity).
  apply runProbe_after_commit.
Qed.

Lemma sibling_signal_after_commit (sig : ProbeSignal) (b : bool) :
  AutoModeContentDisplay.onProbeSignal sig (AutoModeContentDisplay.mkCheckState true b true)
  = AutoModeContentDisplay.mkCheckState true b true.
Proof. destruct sig; reflexivity. Qed.

Lemma sibling_runProbe_after_commit (sigs : list ProbeSignal) (b : bool) :
  AutoModeContentDisplay.runProbe sigs (AutoModeContentDisplay.mkCheckState true b true)
  = AutoModeContentDisplay.mkCheckState true b true.
Proof.
  induction sigs as [|sig rest IH]; [reflexivity|].
  cbn [AutoModeContentDisplay.runProbe fold_left].
  rewrite sibling_signal_after_commit. exact IH.
Qed.

Lemma sibling_runProbe_first (sig : ProbeSignal) (rest : list ProbeSignal)
  (available performed : bool) :
  AutoModeContentDisplay.runProbe (sig :: rest)
    (AutoModeContentDisplay.mkCheckState false available performed)
  = AutoModeContentDisplay.mkCheckState true (outcome sig) true.
Proof.
  cbn [AutoModeContentDisplay.runProbe fold_left].
  replace (AutoModeContentDisplay.onProbeSignal sig
             (AutoModeContentDisplay.mkCheckState false available performed))
    with (AutoModeContentDisplay.mkCheckState true (outcome sig) true)
    by (destruct sig; reflexivity).
  apply sibling_runProbe_after_commit.
Qed.

(** C6.  A fresh probe commits the outcome of the first signal that
    reaches it (available on "can play through", unavailable on an error
    or on the timer) and marks the check performed; every later signal
    leaves the committed result as it is.  With no signal nothing is
    committed.  Delivered by the event loop, with the timer due after
    3000 ms: the result is that of the first media event arriving before
    the timer is due, and unavailable when there is none.  Once the check
    is performed the effect starts no further probe (until a navigation
    reset clears the flag).  The check is begun: on a page with content
    whose check is not yet performed the effect starts one fresh probe of
    the page's path, which then commits as above; a first region without
    a name commits "unavailable" at once.  The sibling component's check
    is begun, commits and ignores later signals in the same way. *)
Theorem C6_probe_commits_first_signal {m : Mode} (s : State m) :
  (∀ sig rest,
      runProbe (sig :: rest) (mkCheck false, s) = committed (outcome sig) s
      ∧ audioAvailable (snd (runProbe (sig :: rest) (mkCheck false, s))) = outcome sig
      ∧ audioCheckPerformed (snd (runProbe (sig :: rest) (mkCheck false, s))) = true)
  ∧ (∀ sigs later,
      sigs ≠ [] →
      runProbe (sigs ++ later) (mkCheck false, s) = runProbe sigs (mkCheck false, s))
  ∧ runProbe [] (mkCheck false, s) = (mkCheck false, s)
  ∧ probeTimeoutMs = 3000
  ∧ (∀ arrivals,
      runProbe (deliveryOrder arrivals) (mkCheck false, s)
      = committed (match firstInTime arrivals with
                   | Some sig => outcome sig
                   | None => false
                   end) s)
  ∧ (∀ (p : Props m) (s' : State m),
      audioCheckPerformed s' = true → startAudioCheck p s' = (s', None))
  ∧ (∀ c available later,
      AutoModeContentDisplay.completeCheck later
        (AutoModeContentDisplay.completeCheck available c)
      = AutoModeContentDisplay.completeCheck available c)
  ∧ (∀ (p : Props m) path,
      audioCheckPerformed s = false →
      currentPageContent (worksheetMeta p) (pageIndex p) ≠ [] →
      audioCheckPath p = Some path →
      ∃ probe,
        startAudioCheck p s = (s, Some (probe, path))
        ∧ (∀ sig rest, runProbe (sig :: rest) (probe, s) = committed (outcome sig) s)
        ∧ (∀ arrivals,
             runProbe (deliveryOrder arrivals) (probe, s)
             = committed (match firstInTime arrivals with
                          | Some sig => outcome sig
                          | None => false
                          end) s))
  ∧ (∀ (p : Props m),
      audioCheckPerformed s = false →
      currentPageContent (worksheetMeta p) (pageIndex p) ≠ [] →
      audioCheckPath p = None →
      startAudioCheck p s = (setAudioCheckPerformed true (setAudioAvailable false s), None))
  ∧ (∀ w pageNumber guidance c,
      AutoModeContentDisplay.audioCheckPerformed c = false → guidance ≠ [] →
      ∃ probe,
        AutoModeContentDisplay.startAudioCheck w pageNumber guidance c
        = (probe, Some (AutoModeContentDisplay.audioCheckPath w pageNumber))
        ∧ (∀ sig rest,
             AutoModeContentDisplay.runProbe (sig :: rest) probe
             = AutoModeContentDisplay.mkCheckState true (outcome sig) true)
        ∧ (∀ sigs later,
             sigs ≠ [] →
             AutoModeContentDisplay.runProbe (sigs ++ later) probe
             = AutoModeContentDisplay.runProbe sigs probe)
        ∧ AutoModeContentDisplay.runProbe [] probe = probe
        ∧ AutoModeContentDisplay.audioCheckPerformed probe = false
        ∧ (∀ arrivals,
             AutoModeContentDisplay.runProbe
               (AutoModeContentDisplay.deliveryOrder arrivals) probe
             = AutoModeContentDisplay.mkCheckState true
                 (match firstInTime arrivals with
                  | Some sig => outcome sig
                  | None => false
                  end) true))
  ∧ (∀ w pageNumber guidance c,
      AutoModeContentDisplay.audioCheckPerformed c = true →
      AutoModeContentDisplay.startAudioCheck w pageNumber guidance c = (c, None))
  ∧ AutoModeContentDisplay.probeTimeoutMs = 3000.
Proof.
  assert (D : ∀ arrivals,
             runProbe (deliveryOrder arrivals) (mkCheck false, s)
             = committed (match firstInTime arrivals with
                          | Some sig => outcome sig
                          | None => false
                          end) s).
  { intros arrivals. unfold deliveryOrder, firstInTime.
    destruct (map snd (List.filter _ arrivals)) as [|sig early]; cbn [head app].
    - apply (runProbe_first TimerFired).
    - apply runProbe_first. }
  split.
  { intros sig rest. rewrite runProbe_first. repeat split. }
  split.
  { intros [|sig rest] later N; [done|].
    change ((sig :: rest) ++ later) with (sig :: (rest ++ later)).
    now rewrite !runProbe_first. }
  split; [reflexivity|]. split; [reflexivity|].
  split; [exact D|].
  split.
  { intros p s' H. unfold startAudioCheck. now rewrite H. }
  split.
  { intros [done' av cp] available later.
    unfold AutoModeContentDisplay.completeCheck. cbn.
    destruct done'; reflexivity. }
  split.
  { intros p path H N P. exists (mkCheck false). split; [|split].
    - unfold startAudioCheck. rewrite H, P.
      destruct (currentPageContent (worksheetMeta p) (pageIndex p)); [done|reflexivity].
    - intros sig rest. apply runProbe_first.
    - exact D. }
  split.
  { intros p H N P. unfold startAudioCheck. rewrite H, P.
    destruct (currentPageContent (worksheetMeta p) (pageIndex p)); [done|reflexivity]. }
  split.
  { intros w pageNumber guidance c H N.
    exists (AutoModeContentDisplay.mkCheckState false
              (AutoModeContentDisplay.audioAvailable c)
              (AutoModeContentDisplay.audioCheckPerformed c)).
    split; [|split; [|split; [|split; [|split]]]].
    - unfold AutoModeContentDisplay.startAudioCheck. rewrite H.
      destruct guidance; [done|reflexivity].
    - intros sig rest. apply sibling_runProbe_first.
    - intros [|sig rest] later N'; [done|].
      change ((sig :: rest) ++ later) with (sig :: (rest ++ later)).
      now rewrite !sibling_runProbe_first.
    - reflexivity.
    - exact H.
    - intros arrivals. unfold AutoModeContentDisplay.deliveryOrder, firstInTime.
      change AutoModeContentDisplay.probeTimeoutMs with probeTimeoutMs.
      destruct (map snd (List.filter _ arrivals)) as [|sig early]; cbn [head app].
      + apply (sibling_runProbe_first TimerFired).
      + apply sibling_runProbe_first. }
  split; [|reflexivity].
  intros w pageNumber guidance c H. unfold AutoModeContentDisplay.startAudioCheck.
  now rewrite H.
Qed.

(** C6 on concrete signals: an error followed by a late "can play
    through" stays unavailable; a "can play through" after 3500 ms loses
    to the timer; one after 1200 ms wins over a later error.  The check of
    the example page is begun on its path, and so is the sibling's, which
    a "can play through" after 800 ms settles as available. *)
Lemma C6_probe_commits_first_signal_witness :
  let s := initialState demoProps in
  runProbe ([MediaError] ++ [CanPlayThrough; TimerFired]) (mkCheck false, s)
  = runProbe [MediaError] (mkCheck false, s)
  ∧ audioAvailable (snd (runProbe [MediaError; CanPlayThrough; TimerFired]
                                  (mkCheck false, s))) = false
  ∧ audioAvailable (snd (runProbe (deliveryOrder [(3500, CanPlayThrough)])
                                  (mkCheck false, s))) = false
  ∧ audioAvailable (snd (runProbe (deliveryOrder [(1200, CanPlayThrough); (1300, MediaError)])
                                  (mkCheck false, s))) = true
  ∧ snd (startAudioCheck demoProps s) = Some (mkCheck false, "/audio/ws/1_0_1.mp3")
  ∧ AutoModeContentDisplay.runProbe
      (AutoModeContentDisplay.deliveryOrder [(800, CanPlayThrough); (3000, MediaError)])
      (fst (AutoModeContentDisplay.startAudioCheck "ws" 1
              [AutoModeContentDisplay.mkItem "Check" ["Compare with a friend."]]
              (AutoModeContentDisplay.mkCheckState false true false)))
    = AutoModeContentDisplay.mkCheckState true true true.
Proof.
  intros s.
  destruct (C6_probe_commits_first_signal s)
    as (H1 & H2 & _ & _ & H5 & _ & _ & H8 & _ & H10 & _).
  split; [apply H2; discriminate|].
  split; [apply (H1 MediaError [CanPlayThrough; TimerFired])|].
  split; [rewrite H5; reflexivity|]. split; [rewrite H5; reflexivity|].
  split.
  { assert (P : audioCheckPerformed s = false) by reflexivity.
    assert (N : currentPageContent (worksheetMeta demoProps) (pageIndex demoProps) ≠ [])
      by (vm_compute; discriminate).
    assert (A : audioCheckPath demoProps = Some "/audio/ws/1_0_1.mp3")
      by (vm_compute; reflexivity).
    destruct (H8 demoProps "/audio/ws/1_0_1.mp3" P N A) as (probe & E & _).
    rewrite E. cbn [snd]. vm_compute in E. injection E as <-. reflexivity. }
  assert (P : AutoModeContentDisplay.audioCheckPerformed
                (AutoModeContentDisplay.mkCheckState false true false) = false)
    by reflexivity.
  assert (N : [AutoModeContentDisplay.mkItem "Check" ["Compare with a friend."]] ≠ [])
    by discriminate.
  destruct (H10 "ws" 1 [AutoModeContentDisplay.mkItem "Check" ["Compare with a friend."]]
              (AutoModeContentDisplay.mkCheckState false true false) P N)
    as (probe & E & _ & _ & _ & _ & D).
  rewrite E. cbn [fst]. rewrite D. vm_compute. reflexivity.
Defined.

(** ** C7: an unavailable result gates audio and video *)

Lemma silent_app (fx1 fx2 : list Effect) : silent (fx1 ++ fx2) = silent fx1 && silent fx2.
Proof. apply forallb_app. Qed.

Lemma unavailable_hides_video {m : Mode} (s : State m) :
  audioAvailable s = false → showsVideo s = false.
Proof. intros H. unfold showsVideo. rewrite H. apply andb_false_r. Qed.

Lemma reset_unavailable {m : Mode} (p : Props m) (s : State m) :
  audioAvailable s = false →
  silent (snd (resetOnNavigation p s)) = true
  ∧ audioAvailable (fst (resetOnNavigation p s)) = false.
Proof.
  intros H. unfold resetOnNavigation.
  destruct (_ || _); [|auto]. cbn [fst snd]. split; [|exact H].
  rewrite !silent_app. destruct (onTextModeChange p), (showsVideo s); reflexivity.
Qed.

Lemma restore_unavailable {m : Mode} (p : Props m) (s : State m) :
  audioAvailable s = false →
  silent (snd (restoreInitialState p s)) = true
  ∧ audioAvailable (fst (restoreInitialState p s)) = false.
Proof.
  intros H. unfold restoreInitialState.
  destruct (initialActiveContent p); [|auto].
  destruct (_ && _); [|auto].
  destruct (findContent _ _) as [c|]; [|auto].
  rewrite H, andb_false_r.
  destruct (0 <? length (descriptionOf c)), m, (onTextModeChange p); auto.
Qed.

Lemma step_unavailable {m : Mode} (p : Props m) (ev : Event m) (s : State m) :
  audioAvailable s = false →
  silent (snd (step p ev s)) = true ∧ audioAvailable (fst (step p ev s)) = false.
Proof.
  intros H. pose proof (unavailable_hides_video s H) as V.
  destruct ev; cbn [step].
  - unfold renderEffects.
    destruct (reset_unavailable p s H) as [S1 A1].
    destruct (resetOnNavigation p s) as [s1 fx1]. cbn [fst snd] in S1, A1.
    destruct (restore_unavailable p s1 A1) as [S2 A2].
    destruct (restoreInitialState p s1) as [s2 fx2]. cbn [fst snd] in *.
    now rewrite silent_app, S1, S2.
  - destruct (descriptionOf content) as [|x l] eqn:E.
    + rewrite select_no_paragraphs by exact E. auto.
    + split; [|now rewrite select_state, handleContentClick_state
                 by (rewrite E; discriminate)].
      destruct m; cbn [select]; unfold handleRegionClick, handleGuidanceClick.
      * unfold handleContentClick. rewrite E, H, V.
        cbn. destruct (onTextModeChange p); reflexivity.
      * rewrite paragraphs_clickable by (rewrite E; discriminate).
        unfold handleContentClick. rewrite E, H, V.
        cbn. destruct (onTextModeChange p); reflexivity.
  - unfold handleNextStep. destruct (activeContent s); [|auto].
    destruct (_ <? _)%Z; rewrite ?H; auto.
  - unfold handleBackButtonClick. rewrite V.
    destruct (_ && _), (onTextModeChange p); auto.
  - unfold handleMessageClick. destruct (activeContent s); [|auto].
    rewrite H. auto.
  - unfold handleTutorSelected. rewrite V. auto.
  - unfold handleAudioPlaying. rewrite V. auto.
  - unfold handleAudioPause. rewrite V. auto.
  - unfold handleAudioEnded. rewrite V. auto.
  - auto.
Qed.

Ltac split_audio s1 s2 H :=
  destruct s1 as [a1 k1 t1 g1 d1 ap1 av1 cp1 hr1 w1 n1];
  destruct s2 as [a2 k2 t2 g2 d2 ap2 av2 cp2 hr2 w2 n2];
  unfold sameButAudio, textState in H; cbn in H;
  destruct H as (H & -> & -> & -> & ->); injection H as -> -> -> -> ->.

Lemma sameButAudio_refl {m : Mode} (s : State m) : sameButAudio s s.
Proof. now repeat split. Qed.

Lemma reset_sameButAudio {m : Mode} (p : Props m) (s1 s2 : State m) :
  sameButAudio s1 s2 →
  sameButAudio (fst (resetOnNavigation p s1)) (fst (resetOnNavigation p s2)).
Proof.
  intros H. split_audio s1 s2 H. unfold resetOnNavigation. cbn.
  destruct (_ || _); now repeat split.
Qed.

Lemma restore_sameButAudio {m : Mode} (p : Props m) (s1 s2 : State m) :
  sameButAudio s1 s2 →
  sameButAudio (fst (restoreInitialState p s1)) (fst (restoreInitialState p s2)).
Proof.
  intros H. split_audio s1 s2 H. unfold restoreInitialState. cbn -[currentPageContent descriptionOf].
  destruct (initialActiveContent p); [|now repeat split].
  destruct (_ && _); [|now repeat split].
  destruct (findContent _ _) as [c|]; [|now repeat split].
  destruct (length (descriptionOf c)), m; now repeat split.
Qed.

Lemma step_sameButAudio {m : Mode} (p : Props m) (ev : Event m) (s1 s2 : State m) :
  sameButAudio s1 s2 → sameButAudio (fst (step p ev s1)) (fst (step p ev s2)).
Proof.
  intros H. destruct ev; cbn [step].
  - unfold renderEffects.
    pose proof (reset_sameButAudio p s1 s2 H) as H1.
    destruct (resetOnNavigation p s1) as [r1 fx1], (resetOnNavigation p s2) as [r2 fx2].
    pose proof (restore_sameButAudio p r1 r2 H1) as H2.
    now destruct (restoreInitialState p r1), (restoreInitialState p r2).
  - destruct (descriptionOf content) as [|x l] eqn:E.
    + now rewrite !select_no_paragraphs by exact E.
    + rewrite !select_state, !handleContentClick_state by (rewrite E; discriminate).
      split_audio s1 s2 H. now repeat split.
  - split_audio s1 s2 H. unfold handleNextStep. cbn -[descriptionOf].
    destruct a2; [|now repeat split]. destruct (_ <? _)%Z; now repeat split.
  - split_audio s1 s2 H. unfold handleBackButtonClick. cbn.
    destruct (_ && _); now repeat split.
  - split_audio s1 s2 H. unfold handleMessageClick. cbn.
    destruct a2; [|now repeat split]. destruct av1, av2; now repeat split.
  - exact H.
  - split_audio s1 s2 H. unfold handleAudioPlaying.
    do 2 destruct (showsVideo _); now repeat split.
  - split_audio s1 s2 H. unfold handleAudioPause.
    do 2 destruct (showsVideo _); now repeat split.
  - split_audio s1 s2 H. unfold handleAudioEnded.
    do 2 destruct (showsVideo _); now repeat split.
  - split_audio s1 s2 H. now repeat split.
Qed.

Lemma run_sameButAudio {m : Mode} (evs : list (Props m * Event m)) (s1 s2 : State m) :
  sameButAudio s1 s2 → sameButAudio (fst (run evs s1)) (fst (run evs s2)).
Proof.
  revert s1 s2. induction evs as [|[p ev] rest IH]; intros s1 s2 H; [exact H|].
  rewrite !run_cons. cbn [fst]. apply IH. now apply step_sameButAudio.
Qed.

Lemma run_unavailable {m : Mode} (evs : list (Props m * Event m)) (s : State m) :
  audioAvailable s = false →
  silent (snd (run evs s)) = true ∧ audioAvailable (fst (run evs s)) = false.
Proof.
  revert s. induction evs as [|[p ev] rest IH]; intros s H; [auto|].
  rewrite run_cons. cbn [fst snd].
  destruct (step_unavailable p ev s H) as [S1 A1].
  destruct (IH _ A1) as [S2 A2]. now rewrite silent_app, S1, S2.
Qed.

(** C7.  From a state whose check result is "unavailable", along any run
    of clicks, commits and media events: the result stays unavailable,
    the tutor video is not rendered, no effect starts audio or video (not
    even after its delay), and the text side of the state (active unit,
    step, displayed paragraphs, the two text modes) is what the same run
    produces when audio is available. *)
Theorem C7_unavailable_gates_media {m : Mode}
  (evs : list (Props m * Event m)) (s : State m) :
  audioAvailable s = false →
  audioAvailable (fst (run evs s)) = false
  ∧ showsVideo (fst (run evs s)) = false
  ∧ silent (snd (run evs s)) = true
  ∧ textState (fst (run evs s)) = textState (fst (run evs (setAudioAvailable true s))).
Proof.
  intros H. destruct (run_unavailable evs s H) as [S A].
  split; [exact A|]. split; [now apply unavailable_hides_video|]. split; [exact S|].
  apply (run_sameButAudio evs s (setAudioAvailable true s)). now repeat split.
Qed.

(** C7 on the scenario with audio unavailable: select, advance, replay of
    the first paragraph, exit.  With audio available the same run does
    start media. *)
Lemma C7_unavailable_gates_media_witness :
  let evs := [(demoProps, Render); (demoProps, ContentClick demoUnit);
              (demoProps, NextStepClick); (demoProps, MessageClick 0);
              (demoProps, BackButtonClick); (demoProps, BackButtonClick)] in
  let s := setAudioAvailable false (initialState demoProps) in
  (audioAvailable (fst (run evs s)) = false
   ∧ showsVideo (fst (run evs s)) = false
   ∧ silent (snd (run evs s)) = true
   ∧ textState (fst (run evs s)) = textState (fst (run evs (setAudioAvailable true s))))
  ∧ silent (snd (run evs (initialState demoProps))) = false.
Proof.
  intros evs s. split; [|vm_compute; reflexivity].
  apply (C7_unavailable_gates_media evs s). reflexivity.
Defined.

(** ** C8: exit clears the last active unit and keeps the progress *)

(** What the viewer reports after the back button: nothing new on the
    auto-mode collapse, "no unit, step 0" on a full exit. *)
Lemma back_notification {m : Mode} (p : Props m) (s : State m) :
  contentStateNotification (fst (handleBackButtonClick p s))
  = if isAuto m && isGuidanceTextMode s then contentStateNotification s else (None, 0).
Proof. unfold handleBackButtonClick. now destruct (_ && _). Qed.

Lemma change_keeps_sync {m : Mode} (id n : string) (c : Content m) (k : nat)
  (ps : WorksheetPage.PageState m) (st : WorksheetPage.SessionStorage) :
  id ≠ "" → n ≠ "" → WorksheetPage.quotaExceeded st = false →
  synced (WorksheetPage.sessionKey id n)
         (WorksheetPage.allContentState
            (fst (WorksheetPage.handleContentStateChange id n (Some c) k (ps, st))))
         (snd (WorksheetPage.handleContentStateChange id n (Some c) k (ps, st))).
Proof.
  intros Hid Hn Hq. unfold WorksheetPage.handleContentStateChange.
  apply String.eqb_neq in Hid, Hn. rewrite Hid, Hn. cbn [orb fst snd].
  unfold WorksheetPage.setItem. rewrite Hq. cbn [from_option Datatypes.id].
  unfold synced, WorksheetPage.getItem. cbn [WorksheetPage.items].
  now rewrite lookup_insert_eq.
Qed.

Lemma load_establishes_sync {m : Mode} (id n : string) (st : WorksheetPage.SessionStorage)
  (ls : option (WorksheetPage.LocationState m)) (data : option (MetaData m))
  (ps : WorksheetPage.PageState m) (parsedState : WorksheetPage.SessionPageData) :
  id ≠ "" → n ≠ "" →
  WorksheetPage.getItem (WorksheetPage.sessionKey id n) st
    = Some (WorksheetPage.Parsed parsedState) →
  synced (WorksheetPage.sessionKey id n)
         (WorksheetPage.allContentState (WorksheetPage.loadSessionState id n st ls data ps))
         st.
Proof.
  intros Hid Hn Hs. unfold WorksheetPage.loadSessionState, synced.
  apply String.eqb_neq in Hid, Hn. rewrite Hid, Hn, Hs. cbn [orb].
  destruct (WorksheetPage.requestedContent ls); [reflexivity|].
  destruct (WorksheetPage.lastActiveContentId parsedState) as [lastId|]; [|reflexivity].
  destruct data as [data|]; [|reflexivity].
  destruct (String.eqb lastId ""); [reflexivity|].
  destruct (WorksheetPage.findLastActiveContent data n lastId); reflexivity.
Qed.

(** C8.  When the viewer reports that no unit is active (an exit), and
    the session record of the page, if there is one, carries the page's
    progress map and the storage accepts writes: afterwards the record of
    the page has [lastActiveContentId = null] and exactly that progress
    map, the page's own progress map is unchanged, and the records of
    other pages are untouched. *)
Theorem C8_exit_keeps_progress {m : Mode} (id n : string) (k : nat)
  (ps : WorksheetPage.PageState m) (st : WorksheetPage.SessionStorage) :
  id ≠ "" → n ≠ "" →
  WorksheetPage.quotaExceeded st = false →
  synced (WorksheetPage.sessionKey id n) (WorksheetPage.allContentState ps) st →
  ∀ ps' st', (ps', st') = WorksheetPage.handleContentStateChange id n None k (ps, st) →
    WorksheetPage.getItem (WorksheetPage.sessionKey id n) st'
    = Some (WorksheetPage.Parsed
              (WorksheetPage.mkSession None (WorksheetPage.allContentState ps)))
    ∧ WorksheetPage.allContentState ps' = WorksheetPage.allContentState ps
    ∧ (∀ key, key ≠ WorksheetPage.sessionKey id n →
              WorksheetPage.getItem key st' = WorksheetPage.getItem key st).
Proof.
  intros Hid Hn Hq Hs ps' st'. unfold WorksheetPage.handleContentStateChange.
  apply String.eqb_neq in Hid, Hn. rewrite Hid, Hn. cbn [orb].
  unfold synced in Hs. unfold WorksheetPage.needsClearing.
  destruct (WorksheetPage.getItem (WorksheetPage.sessionKey id n) st)
    as [[|[lastId progress]]|] eqn:G.
  - destruct Hs.
  - cbn [WorksheetPage.content WorksheetPage.lastActiveContentId] in *. subst progress.
    destruct lastId as [lastId|].
    + rewrite bool_decide_eq_true_2 by discriminate.
      unfold WorksheetPage.setItem. rewrite Hq. cbn [from_option Datatypes.id].
      intros [= -> ->]. unfold WorksheetPage.getItem. cbn [WorksheetPage.items].
      split; [apply lookup_insert_eq|]. split; [reflexivity|].
      intros key Hk. now apply lookup_insert_ne.
    + rewrite bool_decide_eq_false_2 by (intros H; now apply H).
      intros [= -> ->]. now repeat split.
  - unfold WorksheetPage.setItem. rewrite Hq. cbn [from_option Datatypes.id].
    intros [= -> ->]. unfold WorksheetPage.getItem. cbn [WorksheetPage.items].
    split; [apply lookup_insert_eq|]. split; [reflexivity|].
    intros key Hk. now apply lookup_insert_ne.
Qed.

(** C8 on the scenario: after select and one advance of the second entry,
    exit leaves [lastActiveContentId = null] and the entry's step 1. *)
Lemma C8_exit_keeps_progress_witness :
  let after := WorksheetPage.handleContentStateChange "ws" "1" None 0 demoAfterAdvance in
  WorksheetPage.getItem (WorksheetPage.sessionKey "ws" "1") (snd demoAfterAdvance)
  = Some (WorksheetPage.Parsed
            (WorksheetPage.mkSession (Some "guidance_1") {[ "guidance_1" := mkStored 1 ]}))
  ∧ WorksheetPage.getItem (WorksheetPage.sessionKey "ws" "1") (snd after)
    = Some (WorksheetPage.Parsed
              (WorksheetPage.mkSession None {[ "guidance_1" := mkStored 1 ]}))
  ∧ WorksheetPage.allContentState (fst after) = {[ "guidance_1" := mkStored 1 ]}.
Proof.
  intros after. split; [vm_compute; reflexivity|].
  assert (Hq : WorksheetPage.quotaExceeded (snd demoAfterAdvance) = false) by reflexivity.
  assert (Hs : synced (WorksheetPage.sessionKey "ws" "1")
                      (WorksheetPage.allContentState (fst demoAfterAdvance))
                      (snd demoAfterAdvance)) by (vm_compute; reflexivity).
  assert (Hid : "ws" ≠ "") by discriminate.
  assert (Hn : "1" ≠ "") by discriminate.
  destruct (C8_exit_keeps_progress "ws" "1" 0 (fst demoAfterAdvance) (snd demoAfterAdvance)
              Hid Hn Hq Hs (fst after) (snd after)) as (H1 & H2 & _).
  { unfold after. destruct demoAfterAdvance as [ps st]. cbn [fst snd].
    now destruct (WorksheetPage.handleContentStateChange "ws" "1" None 0 (ps, st)). }
  split; [rewrite H1 | rewrite H2]; vm_compute; reflexivity.
Defined.

(** ** C9: the navigation reset *)

Lemma navigated_guard {m : Mode} (p : Props m) (s : State m) :
  negb (String.eqb (prevWorksheetIdRef s) (worksheetId p))
  || negb (prevPageIndexRef s =? pageIndex p) = true ↔ navigated p s.
Proof.
  unfold navigated. rewrite orb_true_iff, !negb_true_iff, String.eqb_neq, Nat.eqb_neq.
  split; intros [H|H]; auto.
Qed.

(** C9.  When the worksheet identifier or the page number of the props
    differs from the previous render, the reset effect clears the active
    unit, the step index, the displayed paragraphs, both text modes, the
    playing flag, the check-performed flag and the restoration latch,
    records the new identifiers, pauses and rewinds the audio (and the
    video when it is mounted) and starts no media.  When both are
    unchanged, it leaves the whole state as it is and issues no effect. *)
Theorem C9_reset_exactly_on_navigation {m : Mode} (p : Props m) (s : State m) :
  (navigated p s →
   ∀ s' fx, (s', fx) = resetOnNavigation p s →
     activeContent s' = None ∧ stepIndex s' = 0 ∧ displayedMessages s' = []
     ∧ isTextMode s' = false ∧ isGuidanceTextMode s' = false
     ∧ isAudioPlaying s' = false ∧ audioCheckPerformed s' = false
     ∧ hasRestoredInitialState s' = false
     ∧ prevWorksheetIdRef s' = worksheetId p ∧ prevPageIndexRef s' = pageIndex p
     ∧ audioAvailable s' = audioAvailable s
     ∧ In AudioPause fx ∧ In (AudioSeek 0) fx
     ∧ (showsVideo s = true → In VideoPause fx ∧ In (VideoSeek 0) fx)
     ∧ silent fx = true)
  ∧ (¬ navigated p s → resetOnNavigation p s = (s, [])).
Proof.
  split.
  - intros N s' fx. apply navigated_guard in N. unfold resetOnNavigation. rewrite N.
    intros [= -> ->]. cbn -[In silent app].
    repeat (split; [reflexivity|]).
    split; [apply in_or_app; right; now left|].
    split; [apply in_or_app; right; right; now left|].
    split.
    + intros ->. split; apply in_or_app; right; cbn; auto.
    + rewrite !silent_app. destruct (onTextModeChange p), (showsVideo s); reflexivity.
  - intros N. unfold resetOnNavigation.
    destruct (_ || _) eqn:G; [|reflexivity]. now apply navigated_guard in G.
Qed.

(** C9 on the scenario: going to page 2 while the second entry is open at
    step 1 resets; a re-render on page 1 does not. *)
Lemma C9_reset_exactly_on_navigation_witness :
  let s := fst (run [(demoProps, ContentClick demoUnit); (demoProps, NextStepClick)]
                    (initialState demoProps)) in
  let p2 := mkProps "ws" 2 demoData true None 0 ∅ in
  (activeContent (fst (resetOnNavigation p2 s)) = None
   ∧ stepIndex (fst (resetOnNavigation p2 s)) = 0
   ∧ displayedMessages (fst (resetOnNavigation p2 s)) = []
   ∧ hasRestoredInitialState (fst (resetOnNavigation p2 s)) = false)
  ∧ resetOnNavigation demoProps s = (s, [])
  ∧ stepIndex s = 1.
Proof.
  intros s p2.
  assert (N : navigated p2 s) by (right; vm_compute; discriminate).
  assert (S : ¬ navigated demoProps s) by (intros [H|H]; vm_compute in H; congruence).
  split.
  - destruct (proj1 (C9_reset_exactly_on_navigation p2 s) N
                    (fst (resetOnNavigation p2 s)) (snd (resetOnNavigation p2 s)))
      as (H1 & H2 & H3 & _ & _ & _ & _ & H8 & _);
      [now destruct (resetOnNavigation p2 s)|].
    repeat split; assumption.
  - split; [exact (proj2 (C9_reset_exactly_on_navigation demoProps s) S)|].
    vm_compute. reflexivity.
Defined.

(** ** C10: the video windows *)

Lemma Qltb_lt (a b : Q) : Qltb a b = true ↔ (a < b)%Q.
Proof.
  unfold Qltb. rewrite negb_true_iff.
  destruct (Qle_bool b a) eqn:E.
  - apply Qle_bool_iff in E. split; [discriminate | intros H; lra].
  - split; [intros _|reflexivity].
    apply Qnot_le_lt. intros H. apply Qle_bool_iff in H. congruence.
Qed.

Lemma Qle_bool_false (a b : Q) : Qle_bool a b = false ↔ (b < a)%Q.
Proof.
  pose proof (Qltb_lt b a) as H. unfold Qltb in H. now rewrite negb_true_iff in H.
Qed.

(** C10.  Time in seconds, as a rational; the resting boundary is 10.
    While audio is playing a tick below 10 or at or above 20 sets the video
    time to 10 and any other tick leaves it, so the time is in [10, 20);
    while audio is not playing a tick at or above 9.9 sets it to 0 and an
    earlier tick leaves it, so a non-negative time is in [0, 10) (indeed
    below 9.9).  The sibling component's handler is the same function. *)
Theorem C10_video_windows (playing : bool) (t : Q) :
  (playing = true → (t < 10)%Q → handleVideoTimeUpdate playing t = 10%Q)
  ∧ (playing = true → (20 <= t)%Q → handleVideoTimeUpdate playing t = 10%Q)
  ∧ (playing = true → (10 <= t)%Q → (t < 20)%Q → handleVideoTimeUpdate playing t = t)
  ∧ (playing = false → (99 # 10 <= t)%Q → handleVideoTimeUpdate playing t = 0%Q)
  ∧ (playing = false → (t < 99 # 10)%Q → handleVideoTimeUpdate playing t = t)
  ∧ (playing = true →
     (10 <= handleVideoTimeUpdate playing t)%Q ∧ (handleVideoTimeUpdate playing t < 20)%Q)
  ∧ (playing = false → (0 <= t)%Q →
     (0 <= handleVideoTimeUpdate playing t)%Q
     ∧ (handleVideoTimeUpdate playing t < 99 # 10)%Q
     ∧ (handleVideoTimeUpdate playing t < 10)%Q)
  ∧ AutoModeContentDisplay.handleVideoTimeUpdate playing t = handleVideoTimeUpdate playing t.
Proof.
  unfold handleVideoTimeUpdate, AutoModeContentDisplay.handleVideoTimeUpdate.
  destruct playing; cbn [negb andb].
  - rewrite !andb_false_r.
    destruct (Qle_bool 20 t) eqn:E20.
    + apply Qle_bool_iff in E20.
      repeat split; try discriminate; try reflexivity; intros; try lra;
        vm_compute; congruence.
    + apply Qle_bool_false in E20.
      destruct (Qltb t 10) eqn:E10.
      * apply Qltb_lt in E10.
        repeat split; try discriminate; try reflexivity; intros; try lra;
          vm_compute; congruence.
      * assert (H10 : (10 <= t)%Q).
        { apply Qnot_lt_le. intros H. apply Qltb_lt in H. congruence. }
        repeat split; try discriminate; try reflexivity; intros; lra.
  - rewrite !andb_true_r.
    destruct (Qle_bool 20 t) eqn:E20.
    + apply Qle_bool_iff in E20. change (Qle_bool (99 # 10) 10) with true. cbn iota.
      repeat split; try discriminate; try reflexivity; intros; try lra;
        vm_compute; congruence.
    + apply Qle_bool_false in E20.
      destruct (Qle_bool (99 # 10) t) eqn:E9.
      * apply Qle_bool_iff in E9.
        repeat split; try discriminate; try reflexivity; intros; try lra;
          vm_compute; congruence.
      * apply Qle_bool_false in E9.
        repeat split; try discriminate; try reflexivity; intros; lra.
Qed.

(** C10 at sample ticks. *)
Lemma C10_video_windows_witness :
  handleVideoTimeUpdate true (37 # 10) = 10%Q
  ∧ handleVideoTimeUpdate true (41 # 2) = 10%Q
  ∧ handleVideoTimeUpdate true (25 # 2) = (25 # 2)%Q
  ∧ handleVideoTimeUpdate false (995 # 100) = 0%Q
  ∧ handleVideoTimeUpdate false (12 # 1) = 0%Q
  ∧ handleVideoTimeUpdate false (49 # 5) = (49 # 5)%Q.
Proof.
  destruct (C10_video_windows true (37 # 10)) as (H1 & _).
  destruct (C10_video_windows true (41 # 2)) as (_ & H2 & _).
  destruct (C10_video_windows true (25 # 2)) as (_ & _ & H3 & _).
  destruct (C10_video_windows false (995 # 100)) as (_ & _ & _ & H4 & _).
  destruct (C10_video_windows false (12 # 1)) as (_ & _ & _ & H5 & _).
  destruct (C10_video_windows false (49 # 5)) as (_ & _ & _ & _ & H6 & _).
  split; [apply H1; reflexivity|].
  split; [apply H2; [reflexivity | discriminate]|].
  split; [apply H3; [reflexivity | discriminate | reflexivity]|].
  split; [apply H4; [reflexivity | discriminate]|].
  split; [apply H5; [reflexivity | discriminate]|].
  apply H6; reflexivity.
Defined.

(** * Further properties of the viewer *)

(** ** Select, advance, replay, back *)

(** X1.  Selecting a unit twice in a row under the same props leaves the
    state of the first select: the starting step comes from the props'
    progress map, not from the state. *)
Theorem select_idempotent {m : Mode} (p : Props m) (content : Content m) (s : State m) :
  fst (select p content (fst (select p content s))) = fst (select p content s).
Proof.
  destruct (descriptionOf content) as [|x l] eqn:E.
  - now rewrite !select_no_paragraphs by exact E.
  - rewrite !select_state, !handleContentClick_state by (rewrite E; discriminate).
    cbn. now destruct (isAuto m), (isGuidanceTextMode s).
Qed.

(** X2.  The next button and its handler agree: when [hasNextStep] holds
    the handler moves to the next step, appends exactly the paragraph at
    that step and pauses the audio first; when it does not hold the
    handler changes nothing and issues no effect.  The step index never
    decreases. *)
Theorem next_button_matches_handler {m : Mode} (p : Props m) (s : State m) :
  (hasNextStep s = true →
   ∃ content paragraph,
     activeContent s = Some content
     ∧ descriptionOf content !! (stepIndex s + 1) = Some paragraph
     ∧ fst (handleNextStep p s)
       = setDisplayedMessages (displayedMessages s ++ [paragraph])
           (setCurrentStepIndex (stepIndex s + 1) s)
     ∧ head (snd (handleNextStep p s)) = Some AudioPause)
  ∧ (hasNextStep s = false → handleNextStep p s = (s, []))
  ∧ stepIndex s ≤ stepIndex (fst (handleNextStep p s)).
Proof.
  unfold hasNextStep, handleNextStep.
  destruct (activeContent s) as [content|] eqn:A.
  - destruct (Z.of_nat (stepIndex s) <? _)%Z eqn:G.
    + pose proof (proj1 (next_guard _ _) G) as L.
      destruct (lookup_lt_is_Some_2 (descriptionOf content) (stepIndex s + 1) L)
        as [paragraph Hp].
      split; [|split; [|cbn; lia]].
      * intros _. exists content, paragraph. rewrite Hp. now repeat split.
      * destruct (descriptionOf content); [cbn in L; lia | discriminate].
    + rewrite andb_false_r. split; [discriminate|]. split; [reflexivity | cbn; lia].
  - split; [discriminate|]. split; [reflexivity | cbn; lia].
Qed.

Lemma advance_S {m : Mode} (p : Props m) (n : nat) (s : State m) :
  advance p (S n) s = fst (handleNextStep p (advance p n s)).
Proof. reflexivity. Qed.

(** X3.  From a state that displays the prefix through its step, [n]
    presses of the next button reach step [min (step + n) (last step)] and
    display the prefix through it: the button reveals the paragraphs one
    by one and stops at the last. *)
Theorem advance_reveals_prefix {m : Mode} (p : Props m) (n : nat) (s : State m)
  (content : Content m) :
  activeContent s = Some content →
  stepIndex s < length (descriptionOf content) →
  displayedMessages s = take (stepIndex s + 1) (descriptionOf content) →
  activeContent (advance p n s) = Some content
  ∧ stepIndex (advance p n s)
    = Nat.min (stepIndex s + n) (length (descriptionOf content) - 1)
  ∧ displayedMessages (advance p n s)
    = take (stepIndex (advance p n s) + 1) (descriptionOf content).
Proof.
  intros A L D. induction n as [|n (IA & IK & ID)].
  - change (advance p 0 s) with s. split; [exact A|]. split; [lia | exact D].
  - rewrite advance_S. unfold handleNextStep. rewrite IA.
    destruct (Z.of_nat (stepIndex (advance p n s)) <? _)%Z eqn:G.
    + apply next_guard in G. cbn -[descriptionOf advance].
      split; [exact IA|]. split; [lia|]. rewrite ID. now apply take_next.
    + assert (G' : ¬ stepIndex (advance p n s) + 1 < length (descriptionOf content)).
      { intros H. apply next_guard in H. congruence. }
      cbn [fst]. split; [exact IA|]. split; [lia | exact ID].
Qed.

(** X3 on the scenario: four presses after selecting the second entry
    stop at its last step with the three paragraphs displayed. *)
Lemma advance_reveals_prefix_witness :
  stepIndex (advance demoProps 4 (fst (select demoProps demoUnit (initialState demoProps))))
  = Nat.min (0 + 4) (length (descriptionOf demoUnit) - 1)
  ∧ displayedMessages
      (advance demoProps 4 (fst (select demoProps demoUnit (initialState demoProps))))
    = take (stepIndex (advance demoProps 4
                         (fst (select demoProps demoUnit (initialState demoProps)))) + 1)
           (descriptionOf demoUnit).
Proof.
  assert (A : activeContent (fst (select demoProps demoUnit (initialState demoProps)))
              = Some demoUnit) by (vm_compute; reflexivity).
  assert (L : stepIndex (fst (select demoProps demoUnit (initialState demoProps)))
              < length (descriptionOf demoUnit)) by (vm_compute; lia).
  assert (D : displayedMessages (fst (select demoProps demoUnit (initialState demoProps)))
              = take (stepIndex (fst (select demoProps demoUnit (initialState demoProps))) + 1)
                     (descriptionOf demoUnit)) by (vm_compute; reflexivity).
  destruct (advance_reveals_prefix demoProps 4 _ demoUnit A L D) as (_ & H1 & H2).
  split; [|exact H2].
  rewrite H1. vm_compute. reflexivity.
Defined.

(** X4.  A click on a displayed paragraph is a pure replay: the state is
    never changed; with an active unit and audio available the only file
    played is the segment of the clicked index of the active unit, after a
    pause; otherwise nothing is issued. *)
Theorem message_click_replays {m : Mode} (p : Props m) (index : nat) (s : State m) :
  fst (handleMessageClick p index s) = s
  ∧ (∀ content, activeContent s = Some content → audioAvailable s = true →
       head (snd (handleMessageClick p index s)) = Some AudioPause
       ∧ flat_map audioPaths (snd (handleMessageClick p index s))
         = [audioPath (worksheetId p) (segmentName p content) index])
  ∧ (activeContent s = None ∨ audioAvailable s = false →
     snd (handleMessageClick p index s) = []).
Proof.
  unfold handleMessageClick. destruct (activeContent s) as [content|] eqn:A.
  - destruct (audioAvailable s) eqn:V; cbn [negb fst snd].
    + split; [reflexivity|]. split.
      * intros c [= <-] _. split; [reflexivity|].
        destruct (_ && _); reflexivity.
      * intros [H|H]; discriminate.
    + split; [reflexivity|]. split; [discriminate | reflexivity].
  - split; [reflexivity|]. split; [discriminate | reflexivity].
Qed.

(** X5.  Two presses of the back button always end idle: no active unit,
    step 0, nothing displayed, both text modes off, the playing flag
    cleared; and neither press starts audio or video.  In regions mode
    one press is enough. *)
Theorem back_twice_is_idle {m : Mode} (p1 p2 : Props m) (s : State m) :
  textState (fst (handleBackButtonClick p2 (fst (handleBackButtonClick p1 s))))
  = (None, 0, [], false, false)
  ∧ isAudioPlaying (fst (handleBackButtonClick p2 (fst (handleBackButtonClick p1 s)))) = false
  ∧ silent (snd (handleBackButtonClick p1 s)) = true
  ∧ silent (snd (handleBackButtonClick p2 (fst (handleBackButtonClick p1 s)))) = true
  ∧ (isAuto m = false → textState (fst (handleBackButtonClick p1 s)) = (None, 0, [], false, false)).
Proof.
  unfold handleBackButtonClick, textState.
  destruct m, (isGuidanceTextMode s) eqn:G; cbn -[silent showsVideo];
    rewrite ?silent_app;
    repeat match goal with
           | |- context [onTextModeChange ?p] => destruct (onTextModeChange p)
           | |- context [if showsVideo ?x then _ else _] => destruct (showsVideo x)
           end; repeat split; try reflexivity; try discriminate.
Qed.

(** X2 on the scenario: the button is offered after the select and moves
    to step 1; it is not offered on the idle page. *)
Lemma next_button_matches_handler_witness :
  stepIndex (fst (handleNextStep demoProps
                    (fst (select demoProps demoUnit (initialState demoProps))))) = 1
  ∧ handleNextStep demoProps (initialState demoProps) = (initialState demoProps, []).
Proof.
  destruct (next_button_matches_handler demoProps
              (fst (select demoProps demoUnit (initialState demoProps))))
    as (H1 & _ & _).
  destruct (next_button_matches_handler demoProps (initialState demoProps))
    as (_ & H2 & _).
  split; [|apply H2; vm_compute; reflexivity].
  destruct H1 as (c & para & _ & _ & E & _); [vm_compute; reflexivity|].
  rewrite E. vm_compute. reflexivity.
Defined.

(** X4 on the scenario: a click on the first paragraph of the open second
    entry replays its first segment. *)
Lemma message_click_replays_witness :
  flat_map audioPaths
    (snd (handleMessageClick demoProps 0
            (fst (select demoProps demoUnit (initialState demoProps)))))
  = ["/audio/ws/1_1_1.mp3"]
  ∧ snd (handleMessageClick demoProps 0 (initialState demoProps)) = [].
Proof.
  destruct (message_click_replays demoProps 0
              (fst (select demoProps demoUnit (initialState demoProps))))
    as (_ & H1 & _).
  destruct (message_click_replays demoProps 0 (initialState demoProps)) as (_ & _ & H2).
  split; [|apply H2; left; vm_compute; reflexivity].
  destruct (H1 demoUnit) as [_ E]; [vm_compute; reflexivity | vm_compute; reflexivity|].
  rewrite E. vm_compute. reflexivity.
Defined.

(** ** The synchronizer and the probe *)

Lemma video_tick_cases (playing : bool) (t : Q) :
  if playing
  then handleVideoTimeUpdate true t = 10%Q
       ∨ (handleVideoTimeUpdate true t = t ∧ (10 <= t)%Q ∧ (t < 20)%Q)
  else handleVideoTimeUpdate false t = 0%Q
       ∨ (handleVideoTimeUpdate false t = t ∧ (t < 99 # 10)%Q).
Proof.
  unfold handleVideoTimeUpdate. destruct playing; cbn [negb andb].
  - rewrite !andb_false_r. destruct (Qle_bool 20 t) eqn:E20; [now left|].
    apply Qle_bool_false in E20. destruct (Qltb t 10) eqn:E10; [now left|].
    right. split; [reflexivity|]. split; [|exact E20].
    apply Qnot_lt_le. intros H. apply Qltb_lt in H. congruence.
  - rewrite !andb_true_r. destruct (Qle_bool 20 t) eqn:E20; [now left|].
    destruct (Qle_bool (99 # 10) t) eqn:E9; [now left|].
    apply Qle_bool_false in E9. right. now split.
Qed.

Lemma video_tick_stable (playing : bool) (t : Q) :
  (if playing then (10 <= t)%Q ∧ (t < 20)%Q else (t < 99 # 10)%Q) →
  handleVideoTimeUpdate playing t = t.
Proof.
  unfold handleVideoTimeUpdate. destruct playing; cbn [negb andb].
  - intros [H1 H2]. rewrite !andb_false_r.
    replace (Qle_bool 20 t) with false by (symmetry; now apply Qle_bool_false).
    destruct (Qltb t 10) eqn:E; [|reflexivity]. apply Qltb_lt in E. lra.
  - intros H. rewrite !andb_true_r.
    replace (Qle_bool 20 t) with false by (symmetry; apply Qle_bool_false; lra).
    now replace (Qle_bool (99 # 10) t) with false by (symmetry; now apply Qle_bool_false).
Qed.

(** X6.  The time a tick leaves the video at is one the handler does not
    correct again: a second tick reporting it, with the audio in the same
    state, changes nothing.  The handler cannot fight itself into a seek
    loop. *)
Theorem video_tick_idempotent (playing : bool) (t : Q) :
  handleVideoTimeUpdate playing (handleVideoTimeUpdate playing t)
  = handleVideoTimeUpdate playing t.
Proof.
  pose proof (video_tick_cases playing t) as C. destruct playing.
  - destruct C as [E|[E H]]; rewrite E; [reflexivity|]. now apply (video_tick_stable true).
  - destruct C as [E|[E H]]; rewrite E; [reflexivity|]. now apply (video_tick_stable false).
Qed.

(** X7.  The availability check asks for the very file that step 0 of the
    first unit of the page is played from (in regions mode the first
    region's first segment, in auto mode the segment of guidance index 0);
    a first region without a name makes the check settle "unavailable" at
    once, without a probe.  The sibling component's check likewise asks
    for the file its own [playAudioSegment] builds for the first entry's
    first step. *)
Theorem probe_asks_for_first_segment {m : Mode} (p : Props m) (content : Content m)
  (rest : list (Content m)) :
  currentPageContent (worksheetMeta p) (pageIndex p) = content :: rest →
  (∀ path, audioCheckPath p = Some path →
           flat_map audioPaths (playAudioSegment p (segmentName p content) 0) = [path])
  ∧ (audioCheckPath p = None →
     ∀ s, audioCheckPerformed s = false →
          startAudioCheck p s
          = (setAudioCheckPerformed true (setAudioAvailable false s), None))
  ∧ (∀ w page, AutoModeContentDisplay.audioCheckPath w page
               = AutoModeContentDisplay.audioPath w page 0 0).
Proof.
  intros E. split; [|split].
  - intros path. destruct m; unfold audioCheckPath; rewrite ?E.
    + destruct (String.eqb (region_name content) ""); [discriminate|].
      intros [= <-]. cbn [playAudioSegment flat_map audioPaths app segmentName].
      unfold audioPath. reflexivity.
    + intros [= <-].
      assert (I : unit_index content = 0).
      { apply (currentPageContent_auto_lookup (worksheetMeta p) (pageIndex p) 0).
        now rewrite E. }
      cbn [playAudioSegment flat_map audioPaths app segmentName].
      unfold audioPath. rewrite I, !string_app_assoc. reflexivity.
  - intros N s H. unfold startAudioCheck. rewrite H, E, N. reflexivity.
  - intros w page. unfold AutoModeContentDisplay.audioCheckPath,
      AutoModeContentDisplay.audioPath. reflexivity.
Qed.

(** X7 on the example pages. *)
Lemma probe_asks_for_first_segment_witness :
  audioCheckPath demoProps = Some "/audio/ws/1_0_1.mp3"
  ∧ flat_map audioPaths (playAudioSegment demoProps (segmentName demoProps demoHeading) 0)
    = ["/audio/ws/1_0_1.mp3"]
  ∧ flat_map audioPaths
      (playAudioSegment demoRegionProps (segmentName demoRegionProps demoRegion) 0)
    = ["/audio/ws/intro_1.mp3"].
Proof.
  assert (E1 : currentPageContent (worksheetMeta demoProps) (pageIndex demoProps)
               = demoHeading :: [demoUnit; demoCheck]) by (vm_compute; reflexivity).
  assert (E2 : currentPageContent (worksheetMeta demoRegionProps) (pageIndex demoRegionProps)
               = demoRegion :: [demoGap]) by (vm_compute; reflexivity).
  assert (P1 : audioCheckPath demoProps = Some "/audio/ws/1_0_1.mp3")
    by (vm_compute; reflexivity).
  assert (P2 : audioCheckPath demoRegionProps = Some "/audio/ws/intro_1.mp3")
    by (vm_compute; reflexivity).
  split; [exact P1|]. split.
  - exact (proj1 (probe_asks_for_first_segment demoProps demoHeading _ E1) _ P1).
  - exact (proj1 (probe_asks_for_first_segment demoRegionProps demoRegion _ E2) _ P2).
Defined.

(** X8.  A navigation re-arms the check but keeps the verdict of the page
    left behind: the reset clears [audioCheckPerformed], so the check
    effect probes the new page, and leaves [audioAvailable] as it was, so
    that until the new probe commits an "unavailable" verdict still
    silences every select on the new page. *)
Theorem navigation_keeps_verdict_until_probe {m : Mode} (p : Props m) (s : State m) :
  navigated p s →
  audioAvailable (fst (resetOnNavigation p s)) = audioAvailable s
  ∧ (∀ path, currentPageContent (worksheetMeta p) (pageIndex p) ≠ [] →
             audioCheckPath p = Some path →
             startAudioCheck p (fst (resetOnNavigation p s))
             = (fst (resetOnNavigation p s), Some (mkCheck false, path)))
  ∧ (audioAvailable s = false →
     ∀ content, silent (snd (select p content (fst (resetOnNavigation p s)))) = true).
Proof.
  intros N. apply navigated_guard in N.
  assert (E : fst (resetOnNavigation p s)
              = setPrevRefs (worksheetId p) (pageIndex p)
                  (setHasRestoredInitialState false
                     (setAudioCheckPerformed false
                        (setIsAudioPlaying false
                           (setIsGuidanceTextMode false
                              (setIsTextMode false
                                 (setDisplayedMessages []
                                    (setCurrentStepIndex 0 (setActiveContent None s))))))))).
  { unfold resetOnNavigation. now rewrite N. }
  split; [now rewrite E|]. split.
  - intros path C P. rewrite E. unfold startAudioCheck.
    cbn [audioCheckPerformed setPrevRefs setHasRestoredInitialState setAudioCheckPerformed negb andb].
    rewrite P. destruct (currentPageContent _ _); [done | reflexivity].
  - intros V content.
    apply (step_unavailable p (ContentClick content)). now rewrite E.
Qed.

(** X8 on the scenario: page 2 of the worksheet is entered with audio
    unavailable; a select there is silent. *)
Lemma navigation_keeps_verdict_until_probe_witness :
  silent (snd (select demoPropsPage2 demoUnit
                 (fst (resetOnNavigation demoPropsPage2
                         (setAudioAvailable false (initialState demoProps)))))) = true.
Proof.
  assert (N : navigated demoPropsPage2 (setAudioAvailable false (initialState demoProps)))
    by (right; vm_compute; discriminate).
  destruct (navigation_keeps_verdict_until_probe demoPropsPage2 _ N) as (_ & _ & H).
  apply H. reflexivity.
Defined.

(** ** The normalizer *)

Lemma find_by_key {A : Type} (key : A → string) (l : list A) (i : nat) (c : A) :
  (∀ i j x y, l !! i = Some x → l !! j = Some y → key x = key y → i = j) →
  l !! i = Some c →
  List.find (fun x => String.eqb (key x) (key c)) l = Some c.
Proof.
  revert i. induction l as [|x l IH]; intros i U H; [discriminate|].
  cbn [List.find]. destruct i as [|i].
  - injection H as ->. now rewrite String.eqb_refl.
  - cbn in H. destruct (String.eqb (key x) (key c)) eqn:E.
    + apply String.eqb_eq in E. specialize (U 0 (S i) x c eq_refl H E). discriminate.
    + apply (IH i); [|exact H].
      intros a b y z Ha Hb K. specialize (U (S a) (S b) y z Ha Hb K). lia.
Qed.

Lemma guidance_id_inj (i j : nat) :
  "guidance_" +:+ JS.numberToString i = "guidance_" +:+ JS.numberToString j → i = j.
Proof.
  intros H. apply (inj (String.app "guidance_")) in H.
  now apply (inj (pretty (A := nat))) in H.
Qed.

(** X9.  The guidance entries of the page, normalized: there are as many
    units as entries, in order; the unit at position [i] is the entry
    with id [guidance_i] and index [i]; the ids are pairwise distinct, so
    looking a unit up by its id finds that very unit; and a page that is
    not in the metadata has no unit. *)
Theorem guidance_units_addressable (data : MetaData auto) (page : nat) :
  (∀ pageData,
      List.find (fun pg => page_number pg =? page) data = Some pageData →
      length (currentPageContent (m := auto) data page) = length (guidance pageData)
      ∧ ∀ i g, guidance pageData !! i = Some g →
               currentPageContent (m := auto) data page !! i = Some (annotateGuidance i g))
  ∧ (List.find (fun pg => page_number pg =? page) data = None →
     currentPageContent (m := auto) data page = [])
  ∧ NoDup (map contentId (currentPageContent (m := auto) data page))
  ∧ (∀ i content,
      currentPageContent (m := auto) data page !! i = Some content →
      findContent (contentId content) (currentPageContent (m := auto) data page)
      = Some content).
Proof.
  assert (U : ∀ i j x y,
             currentPageContent (m := auto) data page !! i = Some x →
             currentPageContent (m := auto) data page !! j = Some y →
             contentId x = contentId y → i = j).
  { intros i j x y Hx Hy K.
    apply currentPageContent_auto_lookup in Hx as [_ Hx], Hy as [_ Hy].
    cbn [contentId] in K. rewrite Hx, Hy in K. now apply guidance_id_inj. }
  split; [|split; [|split]].
  - intros pageData F. unfold currentPageContent. rewrite F. split.
    + apply length_imap.
    + intros i g H. rewrite list_lookup_imap, H. reflexivity.
  - intros F. unfold currentPageContent. now rewrite F.
  - apply NoDup_alt. intros i j x Hi Hj.
    rewrite list_lookup_fmap in Hi, Hj.
    destruct (currentPageContent (m := auto) data page !! i) as [a|] eqn:Ea; [|discriminate].
    destruct (currentPageContent (m := auto) data page !! j) as [b|] eqn:Eb; [|discriminate].
    assert (Ka : contentId a = x) by (now injection Hi).
    assert (Kb : contentId b = x) by (now injection Hj).
    apply (U i j a b Ea Eb). now rewrite Ka, Kb.
  - intros i content H. unfold findContent. now apply (find_by_key contentId _ i).
Qed.

Lemma split_pieces_no_sep (sep : ascii) (s : string) :
  Forall (fun piece => hasChar sep piece = false) (JS.split sep s).
Proof.
  induction s as [|c s IH]; cbn [JS.split]; [repeat constructor|].
  destruct (Ascii.eqb c sep) eqn:E; [now constructor|].
  destruct (JS.split sep s) as [|h t]; [repeat constructor; cbn; now rewrite E|].
  inversion IH; subst. constructor; [|assumption]. cbn [hasChar]. now rewrite E.
Qed.

Lemma splitParagraphs_paragraphs (text para : string) :
  In para (splitParagraphs text) → isParagraph para.
Proof.
  unfold splitParagraphs. intros H. apply filter_In in H as [H1 H2]. split.
  - unfold nonBlank in H2. apply negb_true_iff, String.eqb_neq in H2. exact H2.
  - pose proof (split_pieces_no_sep JS.newline text) as F.
    rewrite List.Forall_forall in F. now apply F.
Qed.

(** X10.  Every paragraph the viewer derives, for a region of the page or
    for a guidance entry, is a single line (it contains no line break)
    that is not blank; and the regions of the page are exactly the regions
    of the metadata with that page number, each with its id and name. *)
Theorem derived_paragraphs_are_lines :
  (∀ (data : MetaData regions) page content para,
      In content (currentPageContent (m := regions) data page) →
      In para (descriptionOf content) → isParagraph para)
  ∧ (∀ (content : Content auto) para,
      In para (descriptionOf content) → isParagraph para)
  ∧ (∀ (data : MetaData regions) page (content : Content regions),
      In content (currentPageContent (m := regions) data page)
      ↔ ∃ region, In region data ∧ region_page region = page
                  ∧ content = processRegion region).
Proof.
  split; [|split].
  - intros data page content para Hc Hp. cbn [currentPageContent] in Hc.
    apply in_map_iff in Hc as (region & <- & _).
    cbn [descriptionOf processRegion region_description] in Hp.
    destruct (region_description region) as [items|text]; cbn [processedDescription] in Hp.
    + apply in_flat_map in Hp as (item & _ & Hp). now apply (splitParagraphs_paragraphs item).
    + now apply (splitParagraphs_paragraphs text).
  - intros content para Hp. cbn [descriptionOf] in Hp.
    unfold processGuidanceDescription in Hp. destruct (_ || _); [destruct Hp|].
    now apply (splitParagraphs_paragraphs (guidance_description (unit_item content))).
  - intros data page content. cbn [currentPageContent]. rewrite in_map_iff. split.
    + intros (region & <- & H). apply filter_In in H as [H1 H2].
      apply Nat.eqb_eq in H2. now exists region.
    + intros (region & H1 & H2 & ->). exists region. split; [reflexivity|].
      apply filter_In. split; [exact H1 | now apply Nat.eqb_eq].
Qed.

(** ** Titles *)

Lemma cleanTitle_cases (c : ascii) (rest : string) :
  cleanTitle (String c rest)
  = if Ascii.eqb c "*" then
      match rest with
      | EmptyString => String c EmptyString
      | String d rest' =>
          if Ascii.eqb d "*" then cleanTitle rest' else String c (cleanTitle rest)
      end
    else String c (cleanTitle rest).
Proof. reflexivity. Qed.

Lemma sibling_cleanTitle_cases (c : ascii) (rest : string) :
  AutoModeViewer.cleanTitle (String c rest)
  = if Ascii.eqb c "*" then
      match rest with
      | EmptyString => String c EmptyString
      | String d rest' =>
          if Ascii.eqb d "*" then AutoModeViewer.cleanTitle rest'
          else String c (AutoModeViewer.cleanTitle rest)
      end
    else String c (AutoModeViewer.cleanTitle rest).
Proof. reflexivity. Qed.

Lemma marker_cons (a b : ascii) (r : string) :
  hasEmphasisMarker (String a (String b r))
  = (Ascii.eqb a "*" && Ascii.eqb b "*") || hasEmphasisMarker (String b r).
Proof. reflexivity. Qed.

Lemma cleanTitle_head (n : nat) (s : string) :
  String.length s ≤ n →
  hasEmphasisMarker (cleanTitle s) = false
  ∧ (∀ c, Ascii.eqb c "*" = false → hasEmphasisMarker (String c (cleanTitle s)) = false)
  ∧ (∀ d r, s = String d r → Ascii.eqb d "*" = false →
            hasEmphasisMarker (String "*" (cleanTitle s)) = false).
Proof.
  revert s. induction n as [|n IH]; intros s L.
  - destruct s; [|cbn in L; lia]. repeat split; intros; reflexivity.
  - destruct s as [|c rest]; [repeat split; intros; reflexivity|].
    cbn [String.length] in L.
    assert (Lr : String.length rest ≤ n) by lia.
    destruct (IH rest Lr) as (R1 & R2 & R3).
    rewrite cleanTitle_cases. destruct (Ascii.eqb c "*") eqn:Ec.
    + apply Ascii.eqb_eq in Ec. subst c. destruct rest as [|d rest'].
      * split; [reflexivity|]. split.
        -- intros c' H. rewrite marker_cons, H. reflexivity.
        -- intros d' r' [= <- _] H. discriminate H.
      * destruct (Ascii.eqb d "*") eqn:Ed.
        -- cbn [String.length] in Lr.
           assert (Lr' : String.length rest' ≤ n) by lia.
           destruct (IH rest' Lr') as (Q1 & Q2 & Q3).
           split; [exact Q1|]. split; [exact Q2|].
           intros d' r' [= <- _] H. discriminate H.
        -- split; [now apply (R3 d rest')|]. split.
           ++ intros c' H. rewrite marker_cons, H. cbn [andb orb].
              now apply (R3 d rest').
           ++ intros d' r' [= <- _] H. discriminate H.
    + split; [now apply R2|]. split.
      * intros c' H. rewrite marker_cons, H. cbn [andb orb]. now apply R2.
      * intros d' r' _ _. rewrite marker_cons, Ec, andb_false_r. cbn [orb]. now apply R2.
Qed.

Lemma cleanTitle_unmarked (n : nat) (s : string) :
  String.length s ≤ n → hasEmphasisMarker s = false → cleanTitle s = s.
Proof.
  revert s. induction n as [|n IH]; intros s L H.
  - destruct s; [reflexivity | cbn in L; lia].
  - destruct s as [|c rest]; [reflexivity|]. cbn [String.length] in L.
    rewrite cleanTitle_cases. destruct rest as [|d rest'].
    + now destruct (Ascii.eqb c "*").
    + rewrite marker_cons in H. apply orb_false_iff in H as [H1 H2].
      assert (E : cleanTitle (String d rest') = String d rest').
      { apply IH; [lia|]. exact H2. }
      destruct (Ascii.eqb c "*"); [|now rewrite E].
      cbn [andb] in H1. rewrite H1. now rewrite E.
Qed.

(** X11.  The title that is displayed never contains the emphasis marker
    [**]; cleaning a title without the marker gives the title back, so
    cleaning twice is cleaning once; and the sibling viewer cleans titles
    in the same way. *)
Theorem cleanTitle_removes_markers (title : string) :
  hasEmphasisMarker (cleanTitle title) = false
  ∧ (hasEmphasisMarker title = false → cleanTitle title = title)
  ∧ cleanTitle (cleanTitle title) = cleanTitle title
  ∧ AutoModeViewer.cleanTitle title = cleanTitle title.
Proof.
  assert (H : hasEmphasisMarker (cleanTitle title) = false).
  { now apply (cleanTitle_head (String.length title)). }
  split; [exact H|]. split; [|split].
  - now apply (cleanTitle_unmarked (String.length title)).
  - now apply (cleanTitle_unmarked (String.length (cleanTitle title))).
  - assert (G : ∀ n s, String.length s ≤ n → AutoModeViewer.cleanTitle s = cleanTitle s).
    { induction n as [|n IH]; intros s L.
      - destruct s; [reflexivity | cbn in L; lia].
      - destruct s as [|c rest]; [reflexivity|]. cbn [String.length] in L.
        rewrite cleanTitle_cases, sibling_cleanTitle_cases.
        destruct rest as [|d r]; [reflexivity|]. cbn [String.length] in L.
        now rewrite (IH r), (IH (String d r)) by (cbn [String.length]; lia). }
    now apply (G (String.length title)).
Qed.

(** X11 at titles of the example page. *)
Lemma cleanTitle_removes_markers_witness :
  cleanTitle "**Warm up**" = "Warm up"
  ∧ cleanTitle "Adding fractions" = "Adding fractions"
  ∧ cleanTitle "***" = "*".
Proof.
  split; [vm_compute; reflexivity|]. split; [|vm_compute; reflexivity].
  destruct (cleanTitle_removes_markers "Adding fractions") as (_ & H & _).
  apply H. vm_compute. reflexivity.
Defined.

(** ** The sibling viewer *)

Lemma sibling_step_invariant (ev : AutoModeViewer.Event) (s : AutoModeViewer.State) :
  siblingInvariant s → siblingInvariant (fst (AutoModeViewer.step ev s)).
Proof.
  intros H. destruct ev; cbn [AutoModeViewer.step fst].
  - now repeat split.
  - unfold AutoModeViewer.handleGuidanceClick.
    destruct (AutoModeViewer.isNonClickable g); [exact H|].
    destruct (AutoModeViewer.splitIntoParagraphs (guidance_description g))
      as [|first rest] eqn:E; [exact H|].
    unfold siblingInvariant. cbn. rewrite E. cbn. repeat split. lia.
  - unfold AutoModeViewer.handleNextStep, siblingInvariant in *.
    destruct (AutoModeViewer.activeGuidance s) as [g|] eqn:A; [|rewrite ?A; exact H].
    destruct (Z.of_nat _ <? _)%Z eqn:G; [|rewrite ?A; exact H].
    apply next_guard in G. destruct H as (H1 & H2 & H3).
    cbn. split; [exact H1|]. split; [lia|].
    rewrite H3. now apply take_next.
  - now repeat split.
Qed.

(** X12.  The sibling viewer keeps the invariant of the specification in
    every state it reaches: while an entry is open it is in text mode, the
    current index addresses a paragraph and the displayed paragraphs are
    exactly the prefix through it; with no entry open the index is 0,
    nothing is displayed and text mode is off.  (Its back button leaves in
    one step.) *)
Theorem sibling_viewer_invariant (evs : list AutoModeViewer.Event) :
  siblingInvariant (AutoModeViewer.run evs AutoModeViewer.initialState).
Proof.
  assert (G : ∀ s, siblingInvariant s → siblingInvariant (AutoModeViewer.run evs s)).
  { induction evs as [|ev rest IH]; intros s H; [exact H|].
    cbn [AutoModeViewer.run fold_left]. apply IH. now apply sibling_step_invariant. }
  apply G. now repeat split.
Qed.

(** ** The session record *)

Lemma contentKey_id {m : Mode} (content : Content m) :
  contentId content ≠ "" → WorksheetPage.contentKey content = contentId content.
Proof.
  intros H. apply String.eqb_neq in H.
  destruct m; cbn [WorksheetPage.contentKey contentId] in *; now rewrite H.
Qed.

Lemma report_stores_unit {m : Mode} (id n : string) (content : Content m) (k : nat)
  (ps : WorksheetPage.PageState m) (st : WorksheetPage.SessionStorage)
  (ps1 : WorksheetPage.PageState m) (st1 : WorksheetPage.SessionStorage) :
  id ≠ "" → n ≠ "" →
  (ps1, st1) = WorksheetPage.handleContentStateChange id n (Some content) k (ps, st) →
  WorksheetPage.allContentState ps1 !! WorksheetPage.contentKey content = Some (mkStored k)
  ∧ (WorksheetPage.quotaExceeded st = false →
     WorksheetPage.getItem (WorksheetPage.sessionKey id n) st1
     = Some (WorksheetPage.Parsed
               (WorksheetPage.mkSession (Some (WorksheetPage.contentKey content))
                                        (WorksheetPage.allContentState ps1)))
     ∧ WorksheetPage.quotaExceeded st1 = false).
Proof.
  intros Hid Hn. unfold WorksheetPage.handleContentStateChange.
  apply String.eqb_neq in Hid, Hn. rewrite Hid, Hn. cbn [orb].
  intros [= -> ->]. unfold WorksheetPage.setAllContentState, WorksheetPage.setCurrent.
  simpl. split; [apply lookup_insert_eq|].
  intros Hq. unfold WorksheetPage.setItem. rewrite Hq. cbn [from_option Datatypes.id].
  split; [|reflexivity].
  unfold WorksheetPage.getItem. cbn [WorksheetPage.items]. apply lookup_insert_eq.
Qed.

Lemma report_unit_frame {m : Mode} (id n : string) (content : Content m) (k : nat)
  (ps : WorksheetPage.PageState m) (st : WorksheetPage.SessionStorage)
  (ps1 : WorksheetPage.PageState m) (st1 : WorksheetPage.SessionStorage) :
  id ≠ "" → n ≠ "" →
  (ps1, st1) = WorksheetPage.handleContentStateChange id n (Some content) k (ps, st) →
  (∀ other, other ≠ WorksheetPage.contentKey content →
            WorksheetPage.allContentState ps1 !! other
            = WorksheetPage.allContentState ps !! other)
  ∧ (∀ key, key ≠ WorksheetPage.sessionKey id n →
            WorksheetPage.getItem key st1 = WorksheetPage.getItem key st).
Proof.
  intros Hid Hn. unfold WorksheetPage.handleContentStateChange.
  apply String.eqb_neq in Hid, Hn. rewrite Hid, Hn. cbn [orb].
  intros [= -> ->]. unfold WorksheetPage.setAllContentState, WorksheetPage.setCurrent.
  simpl. split; [intros other H; now apply lookup_insert_ne|].
  intros key H. unfold WorksheetPage.setItem.
  destruct (WorksheetPage.quotaExceeded st); cbn [from_option Datatypes.id]; [reflexivity|].
  unfold WorksheetPage.getItem. cbn [WorksheetPage.items]. now apply lookup_insert_ne.
Qed.

Lemma load_reads_record {m : Mode} (id n : string) (st : WorksheetPage.SessionStorage)
  (ls : option (WorksheetPage.LocationState m)) (data : option (MetaData m))
  (ps : WorksheetPage.PageState m) (d : WorksheetPage.SessionPageData) :
  id ≠ "" → n ≠ "" →
  WorksheetPage.getItem (WorksheetPage.sessionKey id n) st = Some (WorksheetPage.Parsed d) →
  WorksheetPage.allContentState (WorksheetPage.loadSessionState id n st ls data ps)
  = WorksheetPage.content d.
Proof.
  intros Hid Hn G. pose proof (load_establishes_sync id n st ls data ps d Hid Hn G) as S.
  unfold synced in S. rewrite G in S. now symmetry.
Qed.

(** The commit that mounts the viewer, over a record that names a last
    active unit: the report at mount rewrites the record with the page's
    progress map of that moment. *)
Lemma mount_over_named_record {m : Mode} (id n : string) (page : nat)
  (ls : option (WorksheetPage.LocationState m)) (data : MetaData m)
  (ps : WorksheetPage.PageState m) (st : WorksheetPage.SessionStorage)
  (lastId : string) (progress : gmap string StoredContentData) :
  id ≠ "" → n ≠ "" → WorksheetPage.quotaExceeded st = false →
  WorksheetPage.getItem (WorksheetPage.sessionKey id n) st
  = Some (WorksheetPage.Parsed (WorksheetPage.mkSession (Some lastId) progress)) →
  WorksheetPage.allContentState (fst (WorksheetPage.mountCommit id n page ls data (ps, st)))
  = WorksheetPage.allContentState ps
  ∧ WorksheetPage.getItem (WorksheetPage.sessionKey id n)
      (snd (WorksheetPage.mountCommit id n page ls data (ps, st)))
    = Some (WorksheetPage.Parsed
              (WorksheetPage.mkSession None (WorksheetPage.allContentState ps))).
Proof.
  intros Hid Hn Hq G. unfold WorksheetPage.mountCommit, WorksheetPage.mountNotification.
  cbn [contentStateNotification initialState activeContent stepIndex fst].
  assert (R : WorksheetPage.getItem (WorksheetPage.sessionKey id n)
                (snd (WorksheetPage.handleContentStateChange id n None 0 (ps, st)))
              = Some (WorksheetPage.Parsed
                        (WorksheetPage.mkSession None (WorksheetPage.allContentState ps)))).
  { unfold WorksheetPage.handleContentStateChange.
    pose proof Hid as Hid'. pose proof Hn as Hn'.
    apply String.eqb_neq in Hid', Hn'. rewrite Hid', Hn'. cbn [orb].
    rewrite G. cbn [WorksheetPage.needsClearing WorksheetPage.lastActiveContentId].
    rewrite bool_decide_eq_true_2 by discriminate.
    unfold WorksheetPage.setItem. rewrite Hq. cbn [from_option Datatypes.id snd].
    unfold WorksheetPage.getItem. cbn [WorksheetPage.items]. apply lookup_insert_eq. }
  destruct (WorksheetPage.handleContentStateChange id n None 0 (ps, st)) as [ps1 st1].
  cbn [fst snd] in *. split; [|exact R].
  now rewrite (load_reads_record id n st1 ls (Some data) ps1 _ Hid Hn R).
Qed.

(** X13.  Reporting an active unit and its step merges into the progress
    map: that unit's entry becomes the reported step and every other
    entry is left alone.  When the storage accepts the write, the item
    under the page's key holds that map with the unit as last active, the
    items under every other key are untouched, and the load effect run on
    that storage reads the same map.  When the page is opened again on
    that storage, the viewer's report at mount rewrites the record with
    the page's map of that moment: the progress map comes back when the
    worksheet data was still loading at the first render, and it is
    overwritten by the empty map, in the page and in the storage, when the
    viewer is mounted at the first render. *)
Theorem state_change_merges_and_round_trips {m : Mode} (id n : string)
  (content : Content m) (k : nat)
  (ps : WorksheetPage.PageState m) (st : WorksheetPage.SessionStorage) :
  id ≠ "" → n ≠ "" →
  ∀ ps' st',
    (ps', st') = WorksheetPage.handleContentStateChange id n (Some content) k (ps, st) →
    WorksheetPage.allContentState ps' !! WorksheetPage.contentKey content = Some (mkStored k)
    ∧ (∀ other, other ≠ WorksheetPage.contentKey content →
                WorksheetPage.allContentState ps' !! other
                = WorksheetPage.allContentState ps !! other)
    ∧ (WorksheetPage.quotaExceeded st = false →
       WorksheetPage.getItem (WorksheetPage.sessionKey id n) st'
       = Some (WorksheetPage.Parsed
                 (WorksheetPage.mkSession (Some (WorksheetPage.contentKey content))
                                          (WorksheetPage.allContentState ps')))
       ∧ (∀ key, key ≠ WorksheetPage.sessionKey id n →
                 WorksheetPage.getItem key st' = WorksheetPage.getItem key st)
       ∧ (∀ ls data (ps0 : WorksheetPage.PageState m),
             WorksheetPage.allContentState
               (WorksheetPage.loadSessionState id n st' ls data ps0)
             = WorksheetPage.allContentState ps')
       ∧ (∀ page ls (data : MetaData m),
             WorksheetPage.allContentState
               (fst (WorksheetPage.openPage false id n page ls data st'))
             = WorksheetPage.allContentState ps')
       ∧ (∀ page ls (data : MetaData m),
             WorksheetPage.allContentState
               (fst (WorksheetPage.openPage true id n page ls data st')) = ∅
             ∧ WorksheetPage.getItem (WorksheetPage.sessionKey id n)
                 (snd (WorksheetPage.openPage true id n page ls data st'))
               = Some (WorksheetPage.Parsed (WorksheetPage.mkSession None ∅)))).
Proof.
  intros Hid Hn ps' st' E.
  destruct (report_stores_unit id n content k ps st ps' st' Hid Hn E) as (L & W).
  destruct (report_unit_frame id n content k ps st ps' st' Hid Hn E) as (F1 & F2).
  split; [exact L|]. split; [exact F1|].
  intros Hq. destruct (W Hq) as (G & Q).
  split; [exact G|]. split; [exact F2|]. split; [|split].
  - intros ls data ps0.
    now rewrite (load_reads_record id n st' ls data ps0 _ Hid Hn G).
  - intros page ls data. unfold WorksheetPage.openPage.
    destruct (mount_over_named_record id n page ls data
                (WorksheetPage.loadSessionState id n st' ls None
                   WorksheetPage.initialPageState) st' _ _ Hid Hn Q G) as [A _].
    rewrite A. now rewrite (load_reads_record id n st' ls None _ _ Hid Hn G).
  - intros page ls data. unfold WorksheetPage.openPage.
    destruct (mount_over_named_record id n page ls data
                WorksheetPage.initialPageState st' _ _ Hid Hn Q G) as [A B].
    split; [exact A|exact B].
Qed.

(** X13 on the scenario: the second entry at step 1 is merged into a map
    that already remembers the third entry. *)
Lemma state_change_merges_and_round_trips_witness :
  WorksheetPage.allContentState
    (fst (WorksheetPage.handleContentStateChange "ws" "1" (Some demoUnit) 1
            (WorksheetPage.loadSessionState "ws" "1" demoSession None (Some demoData)
               demoPageState, demoSession)))
  !! "guidance_2" = Some (mkStored 1)
  ∧ WorksheetPage.allContentState
      (fst (WorksheetPage.handleContentStateChange "ws" "1" (Some demoUnit) 1
              (WorksheetPage.loadSessionState "ws" "1" demoSession None (Some demoData)
                 demoPageState, demoSession)))
    !! "guidance_1" = Some (mkStored 1).
Proof.
  assert (Hid : "ws" ≠ "") by discriminate.
  assert (Hn : "1" ≠ "") by discriminate.
  destruct (state_change_merges_and_round_trips "ws" "1" demoUnit 1
              (WorksheetPage.loadSessionState "ws" "1" demoSession None (Some demoData)
                 demoPageState) demoSession Hid Hn
              (fst (WorksheetPage.handleContentStateChange "ws" "1" (Some demoUnit) 1
                      (WorksheetPage.loadSessionState "ws" "1" demoSession None
                         (Some demoData) demoPageState, demoSession)))
              (snd (WorksheetPage.handleContentStateChange "ws" "1" (Some demoUnit) 1
                      (WorksheetPage.loadSessionState "ws" "1" demoSession None
                         (Some demoData) demoPageState, demoSession)))
              (surjective_pairing _))
    as (H1 & H2 & _).
  split.
  - assert (Hne : "guidance_2" ≠ WorksheetPage.contentKey demoUnit)
      by (vm_compute; discriminate).
    rewrite (H2 "guidance_2" Hne). vm_compute. reflexivity.
  - exact H1.
Defined.

(** X14.  A write the storage refuses, or a page without worksheet id or
    page key, is never fatal and never damages the storage: the storage
    is left exactly as it was, while the page's own copy of the active
    unit's progress is still updated when a key is present. *)
Theorem storage_failure_is_silent {m : Mode} (id n : string)
  (content : option (Content m)) (k : nat)
  (ps : WorksheetPage.PageState m) (st : WorksheetPage.SessionStorage) :
  id = "" ∨ n = "" ∨ WorksheetPage.quotaExceeded st = true →
  snd (WorksheetPage.handleContentStateChange id n content k (ps, st)) = st
  ∧ (id ≠ "" → n ≠ "" → ∀ c, content = Some c →
     WorksheetPage.allContentState
       (fst (WorksheetPage.handleContentStateChange id n content k (ps, st)))
     !! WorksheetPage.contentKey c = Some (mkStored k)).
Proof.
  intros H. unfold WorksheetPage.handleContentStateChange.
  destruct (String.eqb id "" || String.eqb n "") eqn:E.
  - split; [reflexivity|]. intros Hid Hn. apply String.eqb_neq in Hid, Hn.
    rewrite Hid, Hn in E. discriminate.
  - destruct H as [->|[->|Hq]]; [discriminate | now rewrite orb_true_r in E |].
    unfold WorksheetPage.setItem. rewrite Hq. cbn [from_option].
    destruct content as [c|]; cbn [fst snd].
    + split; [reflexivity|]. intros _ _ c' [= <-]. apply lookup_insert_eq.
    + split; [now destruct (WorksheetPage.needsClearing _)|]. intros _ _ c' H. discriminate.
Qed.

(** X14 with a full storage. *)
Lemma storage_failure_is_silent_witness :
  snd (WorksheetPage.handleContentStateChange "ws" "1" (Some demoUnit) 2
         (demoPageState, WorksheetPage.mkStorage ∅ true))
  = WorksheetPage.mkStorage ∅ true.
Proof.
  apply (storage_failure_is_silent "ws" "1" (Some demoUnit) 2 demoPageState
           (WorksheetPage.mkStorage ∅ true)).
  right; right. reflexivity.
Defined.

(** X15.  Progress survives exit and reload.  After the viewer has
    reported a unit at step [k] and then reported the exit, selecting the
    unit again opens it at step [k], with the page's state in memory and,
    when the storage took the writes, also with the state loaded afresh
    from the session storage. *)
Theorem progress_survives_exit_and_reload {m : Mode} (id n : string) (page : nat)
  (data : MetaData m) (content : Content m) (k : nat)
  (ps : WorksheetPage.PageState m) (st : WorksheetPage.SessionStorage) :
  id ≠ "" → n ≠ "" → contentId content ≠ "" → descriptionOf content ≠ [] →
  ∀ ps2 st2,
    (ps2, st2) = WorksheetPage.handleContentStateChange id n None 0
                   (WorksheetPage.handleContentStateChange id n (Some content) k (ps, st)) →
    (∀ s, stepIndex (fst (select (WorksheetPage.viewerProps id page data ps2) content s)) = k)
    ∧ (WorksheetPage.quotaExceeded st = false →
       ∀ ls data' ps0 s,
         stepIndex
           (fst (select (WorksheetPage.viewerProps id page data
                           (WorksheetPage.loadSessionState id n st2 ls data' ps0))
                        content s)) = k).
Proof.
  intros Hid Hn Hc Hd ps2 st2 E.
  destruct (WorksheetPage.handleContentStateChange id n (Some content) k (ps, st))
    as [ps1 st1] eqn:E1.
  destruct (report_stores_unit id n content k ps st ps1 st1 Hid Hn (eq_sym E1))
    as (L1 & W).
  rewrite (contentKey_id content Hc) in L1.
  assert (S : ∀ (acs : WorksheetPage.PageState m) s,
             WorksheetPage.allContentState acs !! contentId content = Some (mkStored k) →
             stepIndex (fst (select (WorksheetPage.viewerProps id page data acs) content s)) = k).
  { intros acs s L. rewrite select_state, handleContentClick_state by exact Hd.
    cbn [stepIndex WorksheetPage.viewerProps allContentState]. now rewrite L. }
  assert (M : WorksheetPage.allContentState ps2 = WorksheetPage.allContentState ps1).
  { revert E. unfold WorksheetPage.handleContentStateChange.
    destruct (_ || _); [now intros [= -> _]|].
    destruct (WorksheetPage.needsClearing _); now intros [= -> _]. }
  split.
  - intros s. apply S. now rewrite M.
  - intros Hq ls data' ps0 s. apply S.
    destruct (W Hq) as (G1 & Hq1).
    assert (G2 : WorksheetPage.getItem (WorksheetPage.sessionKey id n) st2
                 = Some (WorksheetPage.Parsed
                           (WorksheetPage.mkSession None (WorksheetPage.allContentState ps1)))).
    { revert E. unfold WorksheetPage.handleContentStateChange.
      pose proof Hid as Hid'. pose proof Hn as Hn'.
      apply String.eqb_neq in Hid', Hn'. rewrite Hid', Hn'. cbn [orb].
      rewrite G1. cbn [WorksheetPage.needsClearing WorksheetPage.lastActiveContentId].
      rewrite bool_decide_eq_true_2 by discriminate.
      unfold WorksheetPage.setItem. rewrite Hq1. cbn [from_option Datatypes.id].
      intros [= _ ->]. unfold WorksheetPage.getItem. cbn [WorksheetPage.items].
      apply lookup_insert_eq. }
    pose proof (load_establishes_sync id n st2 ls data' ps0 _ Hid Hn G2) as Y.
    unfold synced in Y. rewrite G2 in Y. cbn [WorksheetPage.content] in Y.
    now rewrite <- Y.
Qed.

(** X15 on the scenario: the second entry, left at step 1, reopens at step
    1 after exit and reload. *)
Lemma progress_survives_exit_and_reload_witness :
  stepIndex
    (fst (select (WorksheetPage.viewerProps "ws" 1 demoData
                    (WorksheetPage.loadSessionState "ws" "1"
                       (snd (WorksheetPage.handleContentStateChange "ws" "1" None 0
                               (WorksheetPage.handleContentStateChange "ws" "1"
                                  (Some demoUnit) 1 (demoPageState, emptyStorage))))
                       None (Some demoData) demoPageState))
                 demoUnit (initialState demoProps))) = 1.
Proof.
  assert (Hid : "ws" ≠ "") by discriminate.
  assert (Hn : "1" ≠ "") by discriminate.
  assert (Hc : contentId demoUnit ≠ "") by (vm_compute; discriminate).
  assert (Hd : descriptionOf demoUnit ≠ []) by (vm_compute; discriminate).
  destruct (progress_survives_exit_and_reload "ws" "1" 1 demoData demoUnit 1
              demoPageState emptyStorage Hid Hn Hc Hd _ _ (surjective_pairing _))
    as (_ & H).
  apply H. reflexivity.
Defined.

(** ** Numbers in identifiers and their decoding *)

Lemma digit_cases (d : N) :
  (d < 10)%N →
  (d = 0 ∨ d = 1 ∨ d = 2 ∨ d = 3 ∨ d = 4 ∨ d = 5 ∨ d = 6 ∨ d = 7 ∨ d = 8 ∨ d = 9)%N.
Proof. lia. Qed.

Lemma digit_char_value (d : N) :
  (d < 10)%N → JS.digitValue 10 (pretty_N_char d) = Some (N.to_nat d).
Proof.
  intros H.
  destruct (digit_cases d H) as [->|[->|[->|[->|[->|[->|[->|[->|[->| ->]]]]]]]]];
    reflexivity.
Qed.

Lemma leading_digit_plain (d : N) (r : string) :
  (0 < d < 10)%N →
  JS.trimStart (String (pretty_N_char d) r) = String (pretty_N_char d) r
  ∧ JS.stripSign (String (pretty_N_char d) r) = (false, String (pretty_N_char d) r)
  ∧ JS.stripHexPrefix (String (pretty_N_char d) r) = None.
Proof.
  intros [H0 H].
  destruct (digit_cases d H) as [->|[->|[->|[->|[->|[->|[->|[->|[->| ->]]]]]]]]];
    [lia|..]; repeat split; reflexivity.
Qed.

Lemma parseDigits_pretty_go (x : N) :
  (0 < x)%N →
  ∀ s acc, default 0 acc = 0 →
    JS.parseDigits 10 acc (pretty_N_go x s) = JS.parseDigits 10 (Some (N.to_nat x)) s.
Proof.
  induction (N.lt_wf_0 x) as [x _ IH]. intros Hx s acc Ha.
  rewrite pretty_N_go_step by exact Hx.
  assert (Hm : (x mod 10 < 10)%N) by (apply N.mod_lt; lia).
  pose proof (N.div_mod x 10 ltac:(lia)) as Hdm.
  assert (E : (x / 10 = 0 ∨ 0 < x / 10)%N) by lia.
  destruct E as [E|E].
  - rewrite E, pretty_N_go_0. cbn [JS.parseDigits].
    rewrite (digit_char_value _ Hm), Ha. f_equal. f_equal. lia.
  - rewrite (IH (x / 10)%N); [|apply N.div_lt; lia|exact E|exact Ha].
    cbn [JS.parseDigits]. rewrite (digit_char_value _ Hm).
    cbn [default from_option Datatypes.id]. f_equal. f_equal. lia.
Qed.

Lemma pretty_go_head (x : N) :
  (0 < x)%N →
  ∀ s, ∃ d r, (0 < d < 10)%N ∧ pretty_N_go x s = String (pretty_N_char d) r.
Proof.
  induction (N.lt_wf_0 x) as [x _ IH]. intros Hx s.
  rewrite pretty_N_go_step by exact Hx.
  assert (Hm : (x mod 10 < 10)%N) by (apply N.mod_lt; lia).
  pose proof (N.div_mod x 10 ltac:(lia)) as Hdm.
  assert (E : (x / 10 = 0 ∨ 0 < x / 10)%N) by lia.
  destruct E as [E|E].
  - rewrite E, pretty_N_go_0. exists (x mod 10)%N, s. split; [lia|reflexivity].
  - apply IH; [apply N.div_lt; lia|exact E].
Qed.

Lemma pretty_go_no_underscore (x : N) :
  ∀ s, hasChar "_" s = false → hasChar "_" (pretty_N_go x s) = false.
Proof.
  induction (N.lt_wf_0 x) as [x _ IH]. intros s Hs.
  assert (E : (x = 0 ∨ 0 < x)%N) by lia.
  destruct E as [->|E]; [now rewrite pretty_N_go_0|].
  rewrite pretty_N_go_step by exact E.
  apply IH; [apply N.div_lt; lia|].
  assert (Hm : (x mod 10 < 10)%N) by (apply N.mod_lt; lia).
  cbn [hasChar]. rewrite Hs, orb_false_r.
  destruct (digit_cases _ Hm) as [->|[->|[->|[->|[->|[->|[->|[->|[->| ->]]]]]]]]];
    reflexivity.
Qed.

Lemma numberToString_no_underscore (i : nat) :
  hasChar "_" (JS.numberToString i) = false.
Proof.
  unfold JS.numberToString, pretty, pretty_nat, pretty, pretty_N.
  destruct (decide (N.of_nat i = 0%N)); [reflexivity|].
  now apply pretty_go_no_underscore.
Qed.


Lemma parseInt_numberToString (i : nat) (radix : option nat) :
  radix = None ∨ radix = Some 10 →
  JS.parseInt (JS.numberToString i) radix = Some (Z.of_nat i).
Proof.
  intros R. unfold JS.numberToString, pretty, pretty_nat, pretty, pretty_N.
  destruct (decide (N.of_nat i = 0%N)) as [Z|Z].
  - assert (i = 0) as -> by lia. destruct R as [->| ->]; reflexivity.
  - assert (P : (0 < N.of_nat i)%N) by lia.
    destruct (pretty_go_head (N.of_nat i) P "") as (d & r & Hd & E).
    destruct (leading_digit_plain d r Hd) as (T & S & X).
    unfold JS.parseInt. rewrite E, T, S, X, <- E.
    assert (D : JS.parseDigits 10 None (pretty_N_go (N.of_nat i) "") = Some i).
    { rewrite (parseDigits_pretty_go _ P) by reflexivity.
      cbn [JS.parseDigits]. now rewrite Nat2N.id. }
    destruct R as [->| ->]; cbn [default from_option Datatypes.id]; now rewrite D.
Qed.

Lemma split_no_sep (sep : ascii) (s : string) :
  hasChar sep s = false → JS.split sep s = [s].
Proof.
  induction s as [|c s IH]; [reflexivity|]. cbn [hasChar JS.split].
  intros H. apply orb_false_iff in H as [H1 H2]. rewrite H1, (IH H2). reflexivity.
Qed.

Lemma guidance_id_split (i : nat) :
  JS.split "_" ("guidance_" +:+ JS.numberToString i) !! 1 = Some (JS.numberToString i).
Proof.
  pose proof (split_no_sep "_" _ (numberToString_no_underscore i)) as H.
  change ("guidance_" +:+ JS.numberToString i)
    with (String "g" (String "u" (String "i" (String "d" (String "a" (String "n"
           (String "c" (String "e" (String "_" (JS.numberToString i)))))))))).
  cbn [JS.split Ascii.eqb Bool.eqb]. rewrite H. reflexivity.
Qed.

Lemma find_pointwise {A : Type} (f g : A → bool) (l : list A) :
  (∀ a, f a = g a) → List.find f l = List.find g l.
Proof.
  intros H. induction l as [|a l IH]; [reflexivity|]. cbn [List.find].
  now rewrite H, IH.
Qed.

Lemma page_lookup_by_param (data : MetaData auto) (page : nat) :
  List.find (fun pg => bool_decide (Some (Z.of_nat (page_number pg))
                                    = JS.parseInt (JS.numberToString page) None)) data
  = List.find (fun pg => page_number pg =? page) data.
Proof.
  apply find_pointwise. intros pg.
  rewrite (parseInt_numberToString page None) by now left.
  destruct (page_number pg =? page) eqn:E.
  - apply Nat.eqb_eq in E. rewrite E. now apply bool_decide_eq_true_2.
  - apply Nat.eqb_neq in E. apply bool_decide_eq_false_2. intros [= H]. lia.
Qed.

Lemma guidance_id_decodes (data : MetaData auto) (page i : nat) (u : Content auto) :
  currentPageContent (m := auto) data page !! i = Some u →
  WorksheetPage.contentKey u = contentId u
  ∧ contentId u ≠ ""
  ∧ WorksheetPage.findLastActiveContent (m := auto) data (JS.numberToString page)
      (contentId u) = Some (unit_item u, contentId u).
Proof.
  unfold currentPageContent.
  destruct (List.find _ data) as [pageData|] eqn:F; [|intros H; discriminate].
  rewrite list_lookup_imap.
  destruct (guidance pageData !! i) as [g|] eqn:G; cbn [fmap option_fmap option_map];
    [|discriminate].
  intros [= <-]. cbn [contentId annotateGuidance unit_id unit_item].
  assert (N : "guidance_" +:+ JS.numberToString i ≠ "") by discriminate.
  split; [|split; [exact N|]].
  - unfold WorksheetPage.contentKey. cbn [unit_id annotateGuidance].
    apply String.eqb_neq in N. now rewrite N.
  - cbn [WorksheetPage.findLastActiveContent].
    rewrite page_lookup_by_param, F, guidance_id_split.
    rewrite (parseInt_numberToString i None) by now left.
    replace (0 <=? Z.of_nat i)%Z with true by (symmetry; apply Z.leb_le; lia).
    rewrite Nat2Z.id, G. reflexivity.
Qed.

(** X16.  The identifiers the viewer gives to guidance entries are decoded
    by the page.  A number written into an identifier or a route is read
    back by [parseInt], with or without the radix 10; and the id of the
    unit at position [i] of the page, as reported to the page, is resolved
    by the session lookup to that entry's guidance item, carrying the same
    id. *)
Theorem guidance_id_round_trip (data : MetaData auto) (page i : nat) (u : Content auto) :
  currentPageContent (m := auto) data page !! i = Some u →
  JS.parseInt (JS.numberToString page) (Some 10) = Some (Z.of_nat page)
  ∧ JS.parseInt (JS.numberToString i) None = Some (Z.of_nat i)
  ∧ JS.split "_" (WorksheetPage.contentKey u) !! 1 = Some (JS.numberToString i)
  ∧ WorksheetPage.findLastActiveContent (m := auto) data (JS.numberToString page)
      (WorksheetPage.contentKey u) = Some (unit_item u, contentId u).
Proof.
  intros H. destruct (guidance_id_decodes data page i u H) as (K & _ & D).
  split; [apply parseInt_numberToString; now right|].
  split; [apply parseInt_numberToString; now left|].
  rewrite K. split; [|exact D].
  apply currentPageContent_auto_lookup in H as [_ H]. cbn [contentId]. rewrite H.
  apply guidance_id_split.
Qed.

(** X16 on the example page: the second entry. *)
Lemma guidance_id_round_trip_witness :
  WorksheetPage.findLastActiveContent (m := auto) demoData (JS.numberToString 1)
    (WorksheetPage.contentKey demoUnit) = Some (unit_item demoUnit, contentId demoUnit).
Proof.
  assert (H : currentPageContent (m := auto) demoData 1 !! 1 = Some demoUnit)
    by (vm_compute; reflexivity).
  destruct (guidance_id_round_trip demoData 1 1 demoUnit H) as (_ & _ & _ & D).
  exact D.
Defined.

(** ** Reopening the page on a session record *)



(** ** Audio files of distinct segments *)

Lemma hasChar_app (c : ascii) (a b : string) :
  hasChar c (a +:+ b) = hasChar c a || hasChar c b.
Proof.
  induction a as [|x a IH]; [reflexivity|].
  rewrite string_app_cons. cbn [hasChar]. now rewrite IH, orb_assoc.
Qed.

Lemma app_sep_right (c : ascii) (a b x y : string) :
  hasChar c x = false → hasChar c y = false →
  a +:+ String c x = b +:+ String c y → a = b ∧ x = y.
Proof.
  intros Hx Hy. revert b. induction a as [|d a IH]; intros [|e b] H.
  - injection H as H. now split.
  - change (String c x = String e (b +:+ String c y)) in H. injection H as _ H.
    rewrite H, hasChar_app in Hx. cbn [hasChar] in Hx.
    rewrite Ascii.eqb_refl, orb_true_r in Hx. discriminate.
  - change (String d (a +:+ String c x) = String c y) in H. injection H as _ H.
    rewrite <- H, hasChar_app in Hy. cbn [hasChar] in Hy.
    rewrite Ascii.eqb_refl, orb_true_r in Hy. discriminate.
  - rewrite !string_app_cons in H. injection H as -> H.
    destruct (IH b H) as [-> ->]. now split.
Qed.

Lemma app_sep_left (c : ascii) (a b x y : string) :
  hasChar c a = false → hasChar c b = false →
  a +:+ String c x = b +:+ String c y → a = b ∧ x = y.
Proof.
  revert b. induction a as [|d a IH]; intros [|e b] Ha Hb H.
  - injection H as H. now split.
  - change (String c x = String e (b +:+ String c y)) in H. injection H as -> _.
    cbn [hasChar] in Hb. rewrite Ascii.eqb_refl in Hb. discriminate.
  - change (String d (a +:+ String c x) = String c y) in H. injection H as -> _.
    cbn [hasChar] in Ha. rewrite Ascii.eqb_refl in Ha. discriminate.
  - rewrite !string_app_cons in H. injection H as -> H.
    cbn [hasChar] in Ha, Hb.
    apply orb_false_iff in Ha as [_ Ha], Hb as [_ Hb].
    destruct (IH b Ha Hb H) as [-> ->]. now split.
Qed.

Lemma step_suffix_inj (k k' : nat) :
  JS.numberToString (k + 1) +:+ ".mp3" = JS.numberToString (k' + 1) +:+ ".mp3" → k = k'.
Proof.
  intros H. apply string_app_inv_tail in H.
  apply (inj (pretty (A := nat))) in H. lia.
Qed.

Lemma step_suffix_no_underscore (k : nat) :
  hasChar "_" (JS.numberToString (k + 1) +:+ ".mp3") = false.
Proof. rewrite hasChar_app, numberToString_no_underscore. reflexivity. Qed.

Lemma audioPath_inj (w name name' : string) (k k' : nat) :
  audioPath w name k = audioPath w name' k' → name = name' ∧ k = k'.
Proof.
  unfold audioPath. intros H.
  apply (inj (String.app "/audio/")), (inj (String.app w)), (inj (String.app "/")) in H.
  change (name +:+ String "_" (JS.numberToString (k + 1) +:+ ".mp3")
          = name' +:+ String "_" (JS.numberToString (k' + 1) +:+ ".mp3")) in H.
  apply app_sep_right in H as [H1 H2]; try apply step_suffix_no_underscore.
  split; [exact H1|]. now apply step_suffix_inj.
Qed.

Lemma singleton_path_inj (a b : string) : [a] = [b] → a = b.
Proof. intros H. now apply (f_equal (hd EmptyString)) in H. Qed.

Lemma played_path_inj (a b : string) :
  [AudioSetSrc a; AudioPlay] = [AudioSetSrc b; AudioPlay] → a = b.
Proof.
  intros H. apply (f_equal (flat_map audioPaths)) in H. now apply singleton_path_inj in H.
Qed.

(** X18.  Within a worksheet, two different segments (a different unit
    name or a different step) never share an audio file. *)
Theorem distinct_segments_distinct_files (w name name' : string) (k k' : nat) :
  (name, k) ≠ (name', k') → audioPath w name k ≠ audioPath w name' k'.
Proof.
  intros N H. apply N. apply audioPath_inj in H as [-> ->]. reflexivity.
Qed.

(** X18 on two steps of one region. *)
Lemma distinct_segments_distinct_files_witness :
  audioPath "ws" "intro" 0 ≠ audioPath "ws" "intro" 1.
Proof.
  apply (distinct_segments_distinct_files "ws" "intro" "intro" 0 1). discriminate.
Defined.

(** X19.  In auto mode every step of every guidance entry of a page has
    an audio file of its own, in the viewer as in the sibling display:
    entries at different positions, or different steps, are played from
    different files. *)
Theorem guidance_steps_have_own_files (p : Props auto) (u u' : Content auto)
  (k k' : nat) :
  (unit_index u, k) ≠ (unit_index u', k') →
  flat_map audioPaths (playAudioSegment p (segmentName p u) k)
  ≠ flat_map audioPaths (playAudioSegment p (segmentName p u') k')
  ∧ AutoModeContentDisplay.playAudioSegment (worksheetId p) (pageIndex p) (unit_index u) k
    ≠ AutoModeContentDisplay.playAudioSegment (worksheetId p) (pageIndex p)
        (unit_index u') k'.
Proof.
  intros N. split; intros H; apply N.
  - cbn [playAudioSegment flat_map audioPaths app] in H.
    apply singleton_path_inj in H.
    apply audioPath_inj in H as [H ->]. cbn [segmentName] in H.
    apply (inj (String.app (JS.numberToString (pageIndex p)))),
          (inj (String.app "_")), (inj (pretty (A := nat))) in H.
    now rewrite H.
  - unfold AutoModeContentDisplay.playAudioSegment in H. apply played_path_inj in H.
    unfold AutoModeContentDisplay.audioPath in H.
    apply (inj (String.app "/audio/")), (inj (String.app (worksheetId p))),
          (inj (String.app "/")), (inj (String.app (JS.numberToString (pageIndex p)))) in H.
    change (EmptyString +:+ String "_" (JS.numberToString (unit_index u + 1) +:+ "_"
                             +:+ JS.numberToString (k + 1) +:+ ".mp3")
            = EmptyString +:+ String "_" (JS.numberToString (unit_index u' + 1) +:+ "_"
                               +:+ JS.numberToString (k' + 1) +:+ ".mp3")) in H.
    apply (inj (String.app "_")) in H.
    change (JS.numberToString (unit_index u + 1)
              +:+ String "_" (JS.numberToString (k + 1) +:+ ".mp3")
            = JS.numberToString (unit_index u' + 1)
              +:+ String "_" (JS.numberToString (k' + 1) +:+ ".mp3")) in H.
    apply app_sep_left in H as [H1 H2]; try apply numberToString_no_underscore.
    apply (inj (pretty (A := nat))) in H1. apply step_suffix_inj in H2.
    f_equal; lia.
Qed.

(** X19 on the second and third entry of the example page. *)
Lemma guidance_steps_have_own_files_witness :
  flat_map audioPaths (playAudioSegment demoProps (segmentName demoProps demoUnit) 0)
  ≠ flat_map audioPaths (playAudioSegment demoProps (segmentName demoProps demoCheck) 0).
Proof.
  assert (N : (unit_index demoUnit, 0) ≠ (unit_index demoCheck, 0))
    by (vm_compute; discriminate).
  destruct (guidance_steps_have_own_files demoProps demoUnit demoCheck 0 0 N) as [H _].
  exact H.
Defined.

(** ** Re-running the page's effects *)

(** X20.  Loading the session state is absorbing.  The load effect runs
    again when the worksheet data arrives; over the same storage and
    resume request that second run gives the state a single run with the
    data would have given, and running the load twice with the same
    arguments is the same as running it once. *)
Theorem load_rerun_absorbs {m : Mode} (id n : string) (st : WorksheetPage.SessionStorage)
  (ls : option (WorksheetPage.LocationState m)) (data : option (MetaData m))
  (ps : WorksheetPage.PageState m) :
  WorksheetPage.loadSessionState id n st ls data
    (WorksheetPage.loadSessionState id n st ls None ps)
  = WorksheetPage.loadSessionState id n st ls data ps
  ∧ WorksheetPage.loadSessionState id n st ls data
      (WorksheetPage.loadSessionState id n st ls data ps)
    = WorksheetPage.loadSessionState id n st ls data ps.
Proof.
  unfold WorksheetPage.loadSessionState, WorksheetPage.useLocationState.
  destruct (String.eqb id "" || String.eqb n ""); [split; reflexivity|].
  destruct (WorksheetPage.getItem _ st) as [[|parsedState]|].
  - destruct (WorksheetPage.requestedContent ls); split; reflexivity.
  - destruct (WorksheetPage.requestedContent ls); [split; reflexivity|].
    destruct (WorksheetPage.lastActiveContentId parsedState) as [lastId|];
      [|destruct data; split; reflexivity].
    destruct data as [data|]; [|split; reflexivity].
    destruct (String.eqb lastId ""); [split; reflexivity|].
    destruct (WorksheetPage.findLastActiveContent data n lastId); split; reflexivity.
  - destruct (WorksheetPage.requestedContent ls); split; reflexivity.
Qed.

Lemma current_settles {m : Mode} (content cur : option (Content m)) :
  WorksheetPage.contentKey
    <$> (if bool_decide (WorksheetPage.contentKey <$> cur
                         ≠ WorksheetPage.contentKey <$> content)
         then content else cur)
  = WorksheetPage.contentKey <$> content.
Proof.
  destruct (bool_decide _) eqn:E; [reflexivity|].
  apply bool_decide_eq_false in E. now apply dec_stable in E.
Qed.

Lemma step_settles (k cur : nat) :
  (if bool_decide (cur ≠ k) then k else cur) = k.
Proof.
  destruct (bool_decide _) eqn:E; [reflexivity|].
  apply bool_decide_eq_false in E. now apply dec_stable in E.
Qed.

(** X21.  Reporting is idempotent.  The viewer may report the same active
    unit and step more than once; the second report changes neither the
    page's state nor the session storage, whatever the storage holds and
    whether or not it accepts writes. *)
Theorem state_change_idempotent {m : Mode} (id n : string)
  (content : option (Content m)) (k : nat)
  (x : WorksheetPage.PageState m * WorksheetPage.SessionStorage) :
  WorksheetPage.handleContentStateChange id n content k
    (WorksheetPage.handleContentStateChange id n content k x)
  = WorksheetPage.handleContentStateChange id n content k x.
Proof.
  destruct x as [ps st].
  destruct (WorksheetPage.handleContentStateChange id n content k (ps, st))
    as [ps1 st1] eqn:H1.
  assert (C : WorksheetPage.contentKey <$> WorksheetPage.currentActiveContent ps1
              = WorksheetPage.contentKey <$> content
              ∧ WorksheetPage.pageStepIndex ps1 = k).
  { revert H1. unfold WorksheetPage.handleContentStateChange.
    destruct (String.eqb id "" || String.eqb n "").
    - intros [= <- _]. cbn [WorksheetPage.setCurrent WorksheetPage.currentActiveContent
                            WorksheetPage.pageStepIndex].
      split; [apply current_settles|apply step_settles].
    - destruct content as [c|]; [|destruct (WorksheetPage.needsClearing _)];
        intros [= <- _];
        cbn [WorksheetPage.setCurrent WorksheetPage.setAllContentState
             WorksheetPage.currentActiveContent WorksheetPage.pageStepIndex];
        (split; [|apply step_settles]).
      + exact (current_settles (Some c) (WorksheetPage.currentActiveContent ps)).
      + exact (current_settles None (WorksheetPage.currentActiveContent ps)).
      + exact (current_settles None (WorksheetPage.currentActiveContent ps)). }
  destruct C as [C1 C2].
  unfold WorksheetPage.handleContentStateChange at 1.
  rewrite C1, C2.
  rewrite (bool_decide_eq_false_2 (_ ≠ _)) by (intros H; now apply H).
  rewrite (bool_decide_eq_false_2 (k ≠ k)) by (intros H; now apply H).
  assert (S : WorksheetPage.setCurrent (WorksheetPage.currentActiveContent ps1) k ps1 = ps1).
  { rewrite <- C2. now destruct ps1. }
  rewrite S.
  revert H1. unfold WorksheetPage.handleContentStateChange.
  destruct (String.eqb id "" || String.eqb n ""); [reflexivity|].
  destruct content as [c|].
  - intros [= <- <-].
    cbn [WorksheetPage.setAllContentState WorksheetPage.allContentState
         WorksheetPage.currentActiveContent WorksheetPage.pageStepIndex
         WorksheetPage.initialActiveContent WorksheetPage.initialCurrentStepIndex].
    rewrite insert_insert_eq. f_equal.
    unfold WorksheetPage.setItem. destruct (WorksheetPage.quotaExceeded st) eqn:Q.
    + cbn [from_option Datatypes.id]. now rewrite Q.
    + cbn [from_option Datatypes.id WorksheetPage.quotaExceeded WorksheetPage.items].
      now rewrite insert_insert_eq.
  - destruct (WorksheetPage.needsClearing (WorksheetPage.getItem _ st)) eqn:Nc.
    + intros [= E1 <-]. unfold WorksheetPage.setItem.
      destruct (WorksheetPage.quotaExceeded st) eqn:Q.
      * cbn [from_option Datatypes.id]. now rewrite Nc, Q.
      * cbn [from_option Datatypes.id]. unfold WorksheetPage.getItem at 1.
        cbn [WorksheetPage.items]. rewrite lookup_insert_eq.
        cbn [WorksheetPage.needsClearing WorksheetPage.lastActiveContentId].
        rewrite bool_decide_eq_false_2 by (intros H; now apply H).
        now rewrite <- E1.
    + intros [= _ <-]. now rewrite Nc.
Qed.

(** ** The mode flags along a run *)

Lemma mode_active {m : Mode} (s : State m) :
  modeInvariant s → showsVideo s = true → isTextMode s = true.
Proof.
  intros (T & _ & _). unfold showsVideo, showsTextDisplay. rewrite T.
  now destruct (bool_decide _).
Qed.

Lemma mode_step {m : Mode} (p : Props m) (ev : Event m) (s : State m) :
  modeInvariant s → modeInvariant (fst (step p ev s)).
Proof.
  intros H. pose proof H as (T & G & A). destruct ev; cbn [step].
  - unfold renderEffects.
    assert (H1 : modeInvariant (fst (resetOnNavigation p s))).
    { unfold resetOnNavigation. destruct (_ || _); [|exact H].
      unfold modeInvariant. cbn. repeat split; discriminate. }
    destruct (resetOnNavigation p s) as [s1 fx1]. cbn [fst] in H1.
    assert (H2 : modeInvariant (fst (restoreInitialState p s1))).
    { pose proof H1 as (T1 & G1 & A1). unfold restoreInitialState.
      destruct (initialActiveContent p) as [initial|]; [|exact H1].
      destruct (_ && _); [|exact H1].
      destruct (findContent _ _) as [matchingContent|]; [|exact H1].
      destruct (descriptionOf matchingContent) as [|x l];
        unfold modeInvariant; destruct m; cbn; intuition congruence. }
    now destruct (restoreInitialState p s1) as [s2 fx2].
  - destruct (descriptionOf content) as [|x l] eqn:E.
    + now rewrite select_no_paragraphs.
    + rewrite select_state, handleContentClick_state by (rewrite E; discriminate).
      unfold modeInvariant. cbn -[descriptionOf].
      destruct (isAuto m); cbn [orb]; intuition congruence.
  - unfold handleNextStep. destruct (activeContent s) as [content|] eqn:E; [|exact H].
    destruct (Z.of_nat (stepIndex s) <? _)%Z; [|exact H].
    unfold modeInvariant. cbn -[descriptionOf]. rewrite ?E. intuition congruence.
  - unfold handleBackButtonClick.
    destruct (isAuto m && isGuidanceTextMode s) eqn:B; unfold modeInvariant; cbn.
    + intuition congruence.
    + intuition congruence.
  - unfold handleMessageClick. destruct (activeContent s) eqn:E; [|exact H].
    now destruct (negb (audioAvailable s)).
  - exact H.
  - unfold handleAudioPlaying. destruct (showsVideo s) eqn:V; [|exact H].
    pose proof (mode_active s H V) as X. unfold modeInvariant. cbn.
    intuition congruence.
  - unfold handleAudioPause. destruct (showsVideo s); [|exact H].
    unfold modeInvariant. cbn. intuition congruence.
  - unfold handleAudioEnded. destruct (showsVideo s); [|exact H].
    unfold modeInvariant. cbn. intuition congruence.
  - unfold handleAudioError, modeInvariant. cbn. intuition congruence.
Qed.

Lemma mode_run {m : Mode} (evs : list (Props m * Event m)) (s : State m) :
  modeInvariant s → modeInvariant (fst (run evs s)).
Proof.
  revert s. induction evs as [|[p ev] rest IH]; intros s H; [exact H|].
  rewrite run_cons. cbn [fst]. apply IH. now apply mode_step.
Qed.

(** X22.  The mode flags stay consistent.  In every state reachable from
    the initial state, text mode is on exactly while a unit is active, so
    the text panel is rendered exactly in text mode; the guidance detail
    flag is never set in regions mode nor outside text mode; narration is
    never marked as playing with no unit active; and the video element is
    mounted only in text mode. *)
Theorem text_mode_tracks_active_unit {m : Mode} (p0 : Props m)
  (evs : list (Props m * Event m)) :
  let s := fst (run evs (initialState p0)) in
  (isTextMode s = true ↔ is_Some (activeContent s))
  ∧ showsTextDisplay s = isTextMode s
  ∧ (isGuidanceTextMode s = true → m = auto ∧ is_Some (activeContent s))
  ∧ (isAudioPlaying s = true → is_Some (activeContent s))
  ∧ (showsVideo s = true → isTextMode s = true).
Proof.
  intros s.
  assert (H : modeInvariant s).
  { apply mode_run. unfold modeInvariant. cbn. repeat split; discriminate. }
  pose proof H as (T & G & A).
  assert (E : isTextMode s = true ↔ is_Some (activeContent s)).
  { rewrite T. apply bool_decide_eq_true. }
  split; [exact E|]. split; [|split; [|split]].
  - unfold showsTextDisplay. rewrite <- T. now destruct (isTextMode s).
  - intros X. destruct (G X) as [Y Z]. split; [now destruct m|now apply E].
  - intros X. apply E. now apply A.
  - now apply mode_active.
Qed.

(** ** The further properties on the example pages *)

(** X5 on the region of the example page: one press leaves it. *)
Lemma back_twice_is_idle_witness :
  textState (fst (handleBackButtonClick demoRegionProps
                    (fst (select demoRegionProps demoRegion
                            (initialState demoRegionProps)))))
  = (None, 0, [], false, false).
Proof.
  destruct (back_twice_is_idle demoRegionProps demoRegionProps
              (fst (select demoRegionProps demoRegion (initialState demoRegionProps))))
    as (_ & _ & _ & _ & H).
  apply H. reflexivity.
Defined.

(** X9 on the example page: the second entry is found by its id. *)
Lemma guidance_units_addressable_witness :
  findContent (contentId demoUnit) (currentPageContent (m := auto) demoData 1)
  = Some demoUnit.
Proof.
  assert (L : currentPageContent (m := auto) demoData 1 !! 1 = Some demoUnit)
    by (vm_compute; reflexivity).
  destruct (guidance_units_addressable demoData 1) as (_ & _ & _ & H).
  exact (H 1 demoUnit L).
Defined.

(** X10 on the example page: the first paragraph of the second entry. *)
Lemma derived_paragraphs_are_lines_witness :
  isParagraph "Look at the denominators.".
Proof.
  assert (I : In "Look at the denominators." (descriptionOf demoUnit))
    by (vm_compute; left; reflexivity).
  destruct derived_paragraphs_are_lines as (_ & H & _).
  exact (H demoUnit "Look at the denominators." I).
Defined.

(** X22 on the scenario: the video is mounted, so the viewer is in text
    mode. *)
Lemma text_mode_tracks_active_unit_witness :
  isTextMode (fst (run demoRun (initialState demoProps))) = true.
Proof.
  assert (V : showsVideo (fst (run demoRun (initialState demoProps))) = true)
    by (vm_compute; reflexivity).
  destruct (text_mode_tracks_active_unit demoProps demoRun) as (_ & _ & _ & _ & H).
  exact (H V).
Defined.
